(** * ITMO admissions assistant: the retrieval-and-response engine

    A shallow embedding of [src/app/itmo_chat_bot.py] (class
    [ITMOAIChatbot]): the recommendation scorer, the elective
    suggestions, the retriever over the vector index, the tiered
    response generator with its token quota, and the query router.

    Python strings are sequences of Unicode code points; the text
    literals of the source are written here as UTF-8 and decoded.
    Dictionaries are finite maps; the attributes of the chatbot object
    and the calls it makes to its collaborators (the embedder, the
    vector index, the remote model, the local model) are threaded
    through an explicit state. *)

From Stdlib Require Import ZArith NArith Ascii String Sorted Permutation.
From stdpp Require Import gmap list.

Local Open Scope Z_scope.

(** ** Python strings *)

Module PyStr.

(** A [str] is a sequence of code points. *)
Abbreviation str := (list N).

Fixpoint bytes_of (s : string) : list N :=
  match s with
  | EmptyString => []
  | String a s' => N_of_ascii a :: bytes_of s'
  end.

(** UTF-8 decoding of a well-formed byte sequence: [need] continuation
    bytes are still expected for the code point accumulated in [acc]. *)
Fixpoint utf8_decode (need : nat) (acc : N) (bs : list N) : list N :=
  match bs with
  | [] => []
  | b :: bs' =>
    match need with
    | O =>
      if (b <? 128)%N then b :: utf8_decode 0 0%N bs'
      else if (b <? 224)%N then utf8_decode 1 (b - 192)%N bs'
      else if (b <? 240)%N then utf8_decode 2 (b - 224)%N bs'
      else utf8_decode 3 (b - 240)%N bs'
    | S O => (acc * 64 + (b - 128))%N :: utf8_decode 0 0%N bs'
    | S n => utf8_decode n (acc * 64 + (b - 128))%N bs'
    end
  end.

(** The literal written between the quotes. *)
Definition u8 (s : string) : str := utf8_decode 0 0%N (bytes_of s).

(** The double quote character. *)
Definition dq : str := [34%N].

(** [str.isspace] on one code point: the characters Python treats as
    whitespace in [split] and [strip]. *)
Definition is_space (c : N) : bool :=
  ((9 <=? c) && (c <=? 13) || (28 <=? c) && (c <=? 32)
   || (c =? 133) || (c =? 160) || (c =? 5760)
   || (8192 <=? c) && (c <=? 8202)
   || (c =? 8232) || (c =? 8233) || (c =? 8239) || (c =? 8287)
   || (c =? 12288))%N.

(** [len(s.split())]: the number of maximal runs of non-space
    characters.  [inw] tells whether the previous character was part of
    a word. *)
Fixpoint count_words (inw : bool) (s : str) : nat :=
  match s with
  | [] => O
  | c :: s' =>
    if is_space c then count_words false s'
    else if inw then count_words true s'
    else S (count_words true s')
  end.

Definition word_count (s : str) : Z := Z.of_nat (count_words false s).

(** [s.lstrip()], [s.rstrip()] and [s.strip()]. *)
Fixpoint lstrip (s : str) : str :=
  match s with
  | [] => []
  | c :: s' => if is_space c then lstrip s' else s
  end.

Definition rstrip (s : str) : str := reverse (lstrip (reverse s)).

Definition strip (s : str) : str := rstrip (lstrip s).

(** [s.startswith(p)] and [p in s]. *)
Fixpoint starts_with (p s : str) : bool :=
  match p, s with
  | [], _ => true
  | _ :: _, [] => false
  | a :: p', b :: s' => (a =? b)%N && starts_with p' s'
  end.

Fixpoint contains (p s : str) : bool :=
  starts_with p s ||
  match s with
  | [] => false
  | _ :: s' => contains p s'
  end.

(** [sep.join(parts)]. *)
Fixpoint join (sep : str) (parts : list str) : str :=
  match parts with
  | [] => []
  | [p] => p
  | p :: rest => p ++ sep ++ join sep rest
  end.

(** Lowercasing of the Basic Latin, Latin-1 and Cyrillic letters, one
    code point at a time; every other code point is kept. *)
Definition lower_cp (c : N) : N :=
  if ((65 <=? c) && (c <=? 90))%N then (c + 32)%N
  else if ((192 <=? c) && (c <=? 222) && negb (c =? 215))%N then (c + 32)%N
  else if ((1040 <=? c) && (c <=? 1071))%N then (c + 32)%N
  else if ((1024 <=? c) && (c <=? 1039))%N then (c + 80)%N
  else c.

Definition simple_lower (s : str) : str := map lower_cp s.

Arguments word_count : simpl never.
Arguments strip : simpl never.
Arguments contains : simpl never.
Arguments u8 : simpl never.

End PyStr.
Import PyStr.

(** ** The text literals of the source *)

(** The prompt template up to the context block (itmo_chat_bot.py:161-165). *)
Definition prompt_head : str :=
  u8 "Ты - помощник для абитуриентов ИТМО, помогающий выбрать между двумя магистерскими программами:
1. " ++ dq ++ u8 "Искусственный интеллект" ++ dq ++ u8 " - для технических специалистов в ML
2. " ++ dq ++ u8 "Управление ИИ-продуктами/AI Product" ++ dq ++ u8 " - для продакт-менеджеров в ИИ

Используй следующую информацию для ответа:
".

(** The prompt template between the context block and the query (166-168). *)
Definition prompt_mid : str :=
  u8 "

Вопрос абитуриента: ".

(** The prompt template after the query (168-170). *)
Definition prompt_tail : str :=
  u8 "

Дай полезный и конкретный ответ на русском языке. Если нужно - порекомендуй программу исходя из интересов абитуриента.".

(** The greeting and start tokens (itmo_chat_bot.py:208). *)
Definition greetings : list str :=
  [u8 "привет";
   u8 "здравствуй";
   u8 "добрый день";
   u8 "добрый вечер";
   u8 "здравствуйте";
   u8 "start";
   u8 "/start"].

(** The fixed reply to a greeting (210-224). *)
Definition onboarding_message : str :=
  u8 "Здравствуйте! Я помощник по выбору магистерской программы в ИТМО. 
            
Могу рассказать о двух программах:
• " ++ dq ++ u8 "Искусственный интеллект" ++ dq ++ u8 " - для тех, кто хочет стать ML-инженером
• " ++ dq ++ u8 "Управление ИИ-продуктами" ++ dq ++ u8 " - для будущих AI продакт-менеджеров

О чем вы хотели бы узнать? Например:
- Различия между программами
- Стоимость и бюджетные места
- Способы поступления
- Карьерные перспективы
- Требования к поступающим
- Учебные дисциплины

Также могу дать персональную рекомендацию по выбору программы!".

(** The fixed reply when retrieval finds nothing (230). *)
Definition not_found_message : str :=
  u8 "Извините, я не нашел информации по вашему запросу. Попробуйте спросить о программах, поступлении, карьерных перспективах, дисциплинах или стоимости обучения.".

(** The text recommending the first programme (271-286). *)
Definition recommendation_ai : str :=
  u8 "На основе вашего профиля я рекомендую программу **" ++ dq ++ u8 "Искусственный интеллект" ++ dq ++ u8 "**.

Почему эта программа вам подходит:
• У вас есть технические навыки и опыт программирования - это отличная база для углубления в ML
• Программа позволит стать ML Engineer или Data Engineer уровня Middle за 2 года
• Вы будете работать над реальными проектами компаний (X5, Ozon, МТС, Sber AI)
• Возможность выбрать специализацию: ML Engineering, Data Engineering, AI Development
• Зарплатные ожидания: 170-300 тыс. руб. для Middle-специалиста

Программа включает глубокое изучение алгоритмов ML, работу с большими данными и развертывание моделей в продакшн.

Рекомендуемые дисциплины по выбору:
- MLOps и инфраструктура ML
- Компьютерное зрение или NLP (в зависимости от интересов)
- Reinforcement Learning
- Edge AI для работы с встраиваемыми системами".

(** The text recommending the second programme (289-304). *)
Definition recommendation_ai_product : str :=
  u8 "На основе вашего профиля я рекомендую программу **" ++ dq ++ u8 "Управление ИИ-продуктами/AI Product" ++ dq ++ u8 "**.

Почему эта программа вам подходит:
• Вас интересует продуктовый менеджмент и у вас есть опыт работы с продуктами
• Программа сочетает технические знания ИИ с навыками управления продуктами
• Партнерство с Альфа-Банком дает доступ к реальным кейсам финтеха
• Возможные роли: AI Product Manager, AI Project Manager, Product Data Analyst
• Зарплатные ожидания: 150-400+ тыс. руб. через 1-3 года

Вы научитесь создавать ИИ-решения и выводить их на рынок, понимая как техническую, так и бизнес-сторону.

Рекомендуемые дисциплины по выбору:
- Growth Hacking для AI-продуктов
- Монетизация AI-решений
- Agile и Scrum для AI-проектов
- Digital Marketing с использованием ML".

(** The text returned when the two scores are equal (307-321). *)
Definition recommendation_both : str :=
  u8 "Обе программы могут вам подойти! Давайте определимся точнее:

**" ++ dq ++ u8 "Искусственный интеллект" ++ dq ++ u8 "** выбирайте, если:
• Хотите глубоко погрузиться в технические аспекты ML
• Готовы много программировать и работать с алгоритмами
• Интересуетесь исследованиями и научными публикациями
• Хотите стать ML Engineer или Data Engineer

**" ++ dq ++ u8 "Управление ИИ-продуктами" ++ dq ++ u8 "** выбирайте, если:
• Хотите управлять разработкой ИИ-продуктов
• Интересует работа на стыке технологий и бизнеса
• Важно понимать и техническую, и продуктовую стороны
• Хотите стать AI Product Manager

Рекомендую пройти пробные курсы обеих программ или поговорить с выпускниками для окончательного выбора!".

(** The literal of itmo_chat_bot.py:337. *)
Definition line_337 : str :=
  u8 "**Рекомендуемые дисциплины по выбору для программы 'Искусственный интеллект':**

".

(** The literal of itmo_chat_bot.py:340. *)
Definition line_340 : str :=
  u8 "• **MLOps** - для развертывания моделей в продакшн
".

(** The literal of itmo_chat_bot.py:341. *)
Definition line_341 : str :=
  u8 "• **Распределенные вычисления** - для работы с большими данными
".

(** The literal of itmo_chat_bot.py:344. *)
Definition line_344 : str :=
  u8 "• **Reinforcement Learning** - передовое направление в ML
".

(** The literal of itmo_chat_bot.py:345. *)
Definition line_345 : str :=
  u8 "• **Explainable AI** - для создания интерпретируемых моделей
".

(** The literal of itmo_chat_bot.py:348. *)
Definition line_348 : str :=
  u8 "• **Математические основы ИИ** - усиленный курс математики
".

(** The literal of itmo_chat_bot.py:349. *)
Definition line_349 : str :=
  u8 "• **Python для Data Science** - углубленное программирование
".

(** The literal of itmo_chat_bot.py:351. *)
Definition line_351 : str :=
  u8 "
**Специализации по интересам:**
".

(** The literal of itmo_chat_bot.py:352. *)
Definition line_352 : str :=
  u8 "• Computer Vision - если интересует работа с изображениями
".

(** The literal of itmo_chat_bot.py:353. *)
Definition line_353 : str :=
  u8 "• NLP - если интересует работа с текстом
".

(** The literal of itmo_chat_bot.py:354. *)
Definition line_354 : str :=
  u8 "• Биоинформатика - если есть интерес к медицине
".

(** The literal of itmo_chat_bot.py:355. *)
Definition line_355 : str :=
  u8 "• Робототехника - для работы с автономными системами
".

(** The literal of itmo_chat_bot.py:358. *)
Definition line_358 : str :=
  u8 "**Рекомендуемые дисциплины по выбору для программы 'Управление ИИ-продуктами':**

".

(** The literal of itmo_chat_bot.py:361. *)
Definition line_361 : str :=
  u8 "• **Growth Hacking** - для масштабирования AI-продуктов
".

(** The literal of itmo_chat_bot.py:362. *)
Definition line_362 : str :=
  u8 "• **Монетизация AI** - стратегии заработка на ML
".

(** The literal of itmo_chat_bot.py:365. *)
Definition line_365 : str :=
  u8 "• **Основы машинного обучения** - базовый технический курс
".

(** The literal of itmo_chat_bot.py:366. *)
Definition line_366 : str :=
  u8 "• **Анализ данных для PM** - работа с метриками
".

(** The literal of itmo_chat_bot.py:369. *)
Definition line_369 : str :=
  u8 "• **Agile для AI** - управление AI-проектами
".

(** The literal of itmo_chat_bot.py:370. *)
Definition line_370 : str :=
  u8 "• **Венчурные инвестиции** - для запуска стартапов
".

(** The literal of itmo_chat_bot.py:372. *)
Definition line_372 : str :=
  u8 "
**Дополнительные навыки:**
".

(** The literal of itmo_chat_bot.py:373. *)
Definition line_373 : str :=
  u8 "• UX для AI - проектирование AI-интерфейсов
".

(** The literal of itmo_chat_bot.py:374. *)
Definition line_374 : str :=
  u8 "• Digital Marketing - продвижение AI-решений
".

(** The literal of itmo_chat_bot.py:375. *)
Definition line_375 : str :=
  u8 "• Legal Tech - правовые аспекты AI
".

(** The literal of itmo_chat_bot.py:376. *)
Definition line_376 : str :=
  u8 "• Поведенческая экономика - понимание пользователей
".

(** ** Profiles: dictionaries with values of any type *)

(** The values a profile dictionary holds ([Dict[str, any]]). *)
Inductive pyval : Type :=
  | VNone
  | VBool (b : bool)
  | VInt (z : Z)
  | VStr (s : str).

(** Truth value of a Python object, as tested by [if]. *)
Definition truthy (v : pyval) : bool :=
  match v with
  | VNone => false
  | VBool b => b
  | VInt z => negb (z =? 0)
  | VStr s => match s with [] => false | _ => true end
  end.

Abbreviation dict := (gmap str pyval).

(** [d.get(key, default)]. *)
Definition dict_get (d : dict) (key : str) (dflt : pyval) : pyval :=
  default dflt (d !! key).

(** The test [if background.get(key, False):]. *)
Definition flag (d : dict) (key : string) : bool :=
  truthy (dict_get d (u8 key) (VBool false)).

(** The five factors of a user profile, as the intake flow fills them. *)
Record UserProfile : Type := {
  technical_skills : bool;
  management_interest : bool;
  programming_experience : bool;
  ml_knowledge : bool;
  product_experience : bool
}.

Definition profile_dict (p : UserProfile) : dict :=
  <[u8 "technical_skills" := VBool (technical_skills p)]>
  (<[u8 "management_interest" := VBool (management_interest p)]>
  (<[u8 "programming_experience" := VBool (programming_experience p)]>
  (<[u8 "ml_knowledge" := VBool (ml_knowledge p)]>
  (<[u8 "product_experience" := VBool (product_experience p)]> ∅)))).

(** ** Recommendation scorer *)

(** The two counters [ai_score] and [ai_product_score] after the five
    tests of [recommend_program] (itmo_chat_bot.py:247-267). *)
Definition scores (user_background : dict) : Z * Z :=
  let ai_score := 0 in
  let ai_product_score := 0 in
  let '(ai_score, ai_product_score) :=
    if flag user_background "technical_skills"
    then (ai_score + 2, ai_product_score + 1)
    else (ai_score, ai_product_score) in
  let '(ai_score, ai_product_score) :=
    if flag user_background "management_interest"
    then (ai_score, ai_product_score + 2)
    else (ai_score, ai_product_score) in
  let '(ai_score, ai_product_score) :=
    if flag user_background "programming_experience"
    then (ai_score + 2, ai_product_score + 1)
    else (ai_score, ai_product_score) in
  let '(ai_score, ai_product_score) :=
    if flag user_background "ml_knowledge"
    then (ai_score + 1, ai_product_score + 1)
    else (ai_score, ai_product_score) in
  let '(ai_score, ai_product_score) :=
    if flag user_background "product_experience"
    then (ai_score, ai_product_score + 2)
    else (ai_score, ai_product_score) in
  (ai_score, ai_product_score).

(** [recommend_program] (itmo_chat_bot.py:237-323). *)
Definition recommend_program (user_background : dict) : str :=
  let '(ai_score, ai_product_score) := scores user_background in
  if ai_score >? ai_product_score then recommendation_ai
  else if ai_product_score >? ai_score then recommendation_ai_product
  else recommendation_both.

(** ** Elective suggestions *)

(** [get_disciplines_recommendation] (itmo_chat_bot.py:325-378); each
    [recommendations += ...] appends to the text built so far. *)
Definition get_disciplines_recommendation (program : str) (background : dict) : str :=
  if decide (program = u8 "ai") then
    let recommendations := line_337 in
    let recommendations :=
      if flag background "programming_experience"
      then (recommendations ++ line_340) ++ line_341
      else recommendations in
    let recommendations :=
      if flag background "ml_knowledge"
      then (recommendations ++ line_344) ++ line_345
      else recommendations in
    let recommendations :=
      if negb (flag background "technical_skills")
      then (recommendations ++ line_348) ++ line_349
      else recommendations in
    let recommendations := recommendations ++ line_351 in
    let recommendations := recommendations ++ line_352 in
    let recommendations := recommendations ++ line_353 in
    let recommendations := recommendations ++ line_354 in
    let recommendations := recommendations ++ line_355 in
    recommendations
  else
    let recommendations := line_358 in
    let recommendations :=
      if flag background "product_experience"
      then (recommendations ++ line_361) ++ line_362
      else recommendations in
    let recommendations :=
      if negb (flag background "ml_knowledge")
      then (recommendations ++ line_365) ++ line_366
      else recommendations in
    let recommendations :=
      if flag background "management_interest"
      then (recommendations ++ line_369) ++ line_370
      else recommendations in
    let recommendations := recommendations ++ line_372 in
    let recommendations := recommendations ++ line_373 in
    let recommendations := recommendations ++ line_374 in
    let recommendations := recommendations ++ line_375 in
    let recommendations := recommendations ++ line_376 in
    recommendations.

(** ** The engine: state, collaborators and effects *)

(** One entry of the knowledge base.  The corpus file
    [knowledge_base.json] is data, not code; its entries are objects
    with these four string fields, of which the engine reads [text]. *)
Record KnowledgeEntry : Type := {
  id : str;
  text : str;
  program : str;
  type : str
}.

(** What the engine consumes as black boxes.  [Vec] is the type of
    embedding vectors.  Inner-product scores are compared only, so a
    score is represented by its rank in the order of the floating-point
    values, an integer.  The remote and the local model are sampled
    ([temperature=0.7], [do_sample=True]): their answer depends on the
    moment of the call, the number of events logged before it. *)
Record Externals (Vec : Type) : Type := {
  (** the row that [embedder.encode] and [faiss.normalize_L2] give for
      one text: [None] when the embedder raises on it *)
  embed : str -> option Vec;
  (** the score [IndexFlatIP] gives a stored vector for a query vector *)
  inner_product : Vec -> Vec -> Z;
  (** [index.search] for one query row and [k > 0] on an index that
      stores the given vectors: [None] when the library raises, else
      the row of [indices] it returns *)
  search : list Vec -> Vec -> Z -> option (list Z);
  (** [claude_client.messages.create]: [None] when the call raises,
      else the texts of the content blocks of the response *)
  claude_create : nat -> str -> option (list str);
  (** loading the local tokenizer and model: [false] when it raises *)
  llama_load : nat -> bool;
  (** tokenizing, sampling and decoding with the local model: [None]
      when it raises, else the decoded output *)
  llama_generate : nat -> str -> option str;
  (** [str.lower], the lowercasing of the Python runtime *)
  str_lower : str -> str
}.
Arguments embed {Vec}.
Arguments inner_product {Vec}.
Arguments search {Vec}.
Arguments claude_create {Vec}.
Arguments llama_load {Vec}.
Arguments llama_generate {Vec}.
Arguments str_lower {Vec}.

(** The calls the engine makes, in the order it makes them. *)
Inductive event : Type :=
  | EvRetrieve (query : str) (k : Z)
  | EvGenerate (query : str) (context : list KnowledgeEntry)
  | EvPrimary (prompt : str)
  | EvLoad
  | EvFallback (prompt : str).

(** The attributes of an [ITMOAIChatbot] object, and the log of calls. *)
Record Bot (Vec : Type) : Type := {
  claude_api_key : option str;
  max_tokens_per_month : Z;
  used_tokens : Z;
  claude_client : option str;
  fallback_model : bool;
  knowledge_base : list KnowledgeEntry;
  index : list Vec;
  trace : list event
}.
Arguments claude_api_key {Vec}.
Arguments max_tokens_per_month {Vec}.
Arguments used_tokens {Vec}.
Arguments claude_client {Vec}.
Arguments fallback_model {Vec}.
Arguments knowledge_base {Vec}.
Arguments index {Vec}.
Arguments trace {Vec}.

(** The exceptions of the engine: [IndexError] and [AssertionError]
    of the interpreter, and whatever an external raises, named by the
    external: the remote model, the local model, and the embedder or
    the index library. *)
Inductive exn : Type :=
  | IndexError
  | AssertionError
  | ApiError
  | FallbackError
  | LibraryError.

Inductive outcome (A : Type) : Type :=
  | Return (a : A)
  | Raise (e : exn).
Arguments Return {A}.
Arguments Raise {A}.

(** Computations on the chatbot object: a result or an exception, and
    the object as the computation leaves it. *)
Definition M (Vec A : Type) : Type := Bot Vec -> outcome A * Bot Vec.

Section Effects.
Context {Vec : Type}.

Definition ret {A} (a : A) : M Vec A := fun b => (Return a, b).

Definition raise {A} (e : exn) : M Vec A := fun b => (Raise e, b).

Definition bind {A B} (m : M Vec A) (f : A -> M Vec B) : M Vec B :=
  fun b =>
    match m b with
    | (Return a, b') => f a b'
    | (Raise e, b') => (Raise e, b')
    end.

(** [try: m except Exception: h] *)
Definition try_except {A} (m : M Vec A) (h : exn -> M Vec A) : M Vec A :=
  fun b =>
    match m b with
    | (Return a, b') => (Return a, b')
    | (Raise e, b') => h e b'
    end.

Definition get : M Vec (Bot Vec) := fun b => (Return b, b).

Definition log_event (ev : event) (b : Bot Vec) : Bot Vec :=
  {| claude_api_key := claude_api_key b;
     max_tokens_per_month := max_tokens_per_month b;
     used_tokens := used_tokens b;
     claude_client := claude_client b;
     fallback_model := fallback_model b;
     knowledge_base := knowledge_base b;
     index := index b;
     trace := trace b ++ [ev] |}.

Definition set_used_tokens (n : Z) (b : Bot Vec) : Bot Vec :=
  {| claude_api_key := claude_api_key b;
     max_tokens_per_month := max_tokens_per_month b;
     used_tokens := n;
     claude_client := claude_client b;
     fallback_model := fallback_model b;
     knowledge_base := knowledge_base b;
     index := index b;
     trace := trace b |}.

Definition set_fallback_model (v : bool) (b : Bot Vec) : Bot Vec :=
  {| claude_api_key := claude_api_key b;
     max_tokens_per_month := max_tokens_per_month b;
     used_tokens := used_tokens b;
     claude_client := claude_client b;
     fallback_model := v;
     knowledge_base := knowledge_base b;
     index := index b;
     trace := trace b |}.

Definition log (ev : event) : M Vec unit := fun b => (Return tt, log_event ev b).

Definition modify (f : Bot Vec -> Bot Vec) : M Vec unit := fun b => (Return tt, f b).

(** The moment of a call: the number of events logged so far. *)
Definition now : M Vec nat := fun b => (Return (length (trace b)), b).

End Effects.

Notation "x <~ m ;; k" := (bind m (fun x => k))
  (at level 100, m at next level, right associativity).
Notation "m ;;; k" := (bind m (fun _ => k))
  (at level 100, right associativity).

(** ** Vector index and retriever *)

(** [l[i]] on a Python list: a negative index counts from the end, an
    index out of range raises [IndexError]. *)
Definition getitem {A} (l : list A) (i : Z) : outcome A :=
  let n := Z.of_nat (length l) in
  let j := if i <? 0 then i + n else i in
  if (0 <=? j) && (j <? n) then
    match l !! Z.to_nat j with
    | Some a => Return a
    | None => Raise IndexError
    end
  else Raise IndexError.

(** Insertion of position [i] into a ranking by descending score [s]:
    [i] is placed behind the positions that score strictly higher. *)
Fixpoint insert_ranked (s : nat -> Z) (i : nat) (l : list nat) : list nat :=
  match l with
  | [] => [i]
  | j :: l' => if s i <? s j then j :: insert_ranked s i l' else i :: l
  end.

(** Sort of the positions [l] by descending score; positions of equal
    score keep the order they have in [l]. *)
Definition rank (s : nat -> Z) (l : list nat) : list nat :=
  foldr (insert_ranked s) [] l.

(** An exact search by inner product [ip] over the stored vectors
    [xb], as a row of [k] labels: the positions of the highest scores
    first and [-1] where fewer than [k] vectors are stored
    (itmo_chat_bot.py:107).  Among equal scores the vector stored last
    comes first.  The worked examples search with it. *)
Definition flat_search {Vec} (ip : Vec -> Vec -> Z) (xb : list Vec)
    (q : Vec) (k : Z) : option (list Z) :=
  let s i := match xb !! i with Some v => ip q v | None => 0 end in
  let ranked := rank s (reverse (seq 0 (length xb))) in
  let top := take (Z.to_nat k) ranked in
  Some (map Z.of_nat top ++ replicate (Z.to_nat k - length top) (-1)).

Section Retriever.
Context {Vec : Type} (env : Externals Vec).

(** [create_faiss_index] (itmo_chat_bot.py:73-84): the normalized
    embeddings of the entries' texts, in corpus order, one row per
    text.  For an empty list of texts the embedder gives an array of
    a single dimension, of which [normalize_L2] (line 79) reads
    [shape[1]] as line 82 does: that raises [IndexError]. *)
Definition create_faiss_index (kb : list KnowledgeEntry)
    : outcome (list Vec) :=
  let texts := map text kb in
  match mapM (embed env) texts with
  | None => Raise LibraryError
  | Some [] => Raise IndexError
  | Some (row :: rows) => Return (row :: rows)
  end.

(** The attributes that [__init__] sets (itmo_chat_bot.py:40-63) once
    the index is built. *)
Definition constructed (api_key : option str) (max_tokens : Z)
    (kb : list KnowledgeEntry) (embeddings : list Vec) : Bot Vec :=
  {| claude_api_key := api_key;
     max_tokens_per_month := max_tokens;
     used_tokens := 0;
     claude_client :=
       match api_key with
       | Some (_ :: _) => api_key
       | _ => None
       end;
     fallback_model := false;
     knowledge_base := kb;
     index := embeddings;
     trace := [] |}.

(** [__init__] (itmo_chat_bot.py:32-63), with the loaded corpus as an
    argument: an exception of [create_faiss_index] leaves no object. *)
Definition init (api_key : option str) (max_tokens : Z)
    (kb : list KnowledgeEntry) : outcome (Bot Vec) :=
  match create_faiss_index kb with
  | Return embeddings => Return (constructed api_key max_tokens kb embeddings)
  | Raise e => Raise e
  end.

(** The score of the stored vector at position [i] for a query vector;
    positions outside the index never occur in a ranking. *)
Definition score_of (xb : list Vec) (q : Vec) (i : nat) : Z :=
  match xb !! i with
  | Some v => inner_product env q v
  | None => 0
  end.

(** [self.index.search(x, k)] (itmo_chat_bot.py:102) for the one row
    of the query.  The Python wrapper of the index library asserts
    [k > 0] before it searches; the search proper is the external
    [search]. *)
Definition index_search (xb : list Vec) (q : Vec) (k : Z)
    : outcome (list Z) :=
  if k <=? 0 then Raise AssertionError
  else
    match search env xb q k with
    | Some indices => Return indices
    | None => Raise LibraryError
    end.

(** The loop of [retrieve_relevant_info] (itmo_chat_bot.py:105-108). *)
Fixpoint collect (kb : list KnowledgeEntry) (indices : list Z)
    (results : list KnowledgeEntry) : outcome (list KnowledgeEntry) :=
  match indices with
  | [] => Return results
  | idx :: rest =>
    if negb (idx =? -1) then
      match getitem kb idx with
      | Return item => collect kb rest (results ++ [item])
      | Raise e => Raise e
      end
    else collect kb rest results
  end.

(** [retrieve_relevant_info] (itmo_chat_bot.py:86-110): the embedder
    and the search are called outside any [try], so what they raise
    reaches the caller. *)
Definition retrieve_relevant_info (query : str) (k : Z)
    : M Vec (list KnowledgeEntry) :=
  log (EvRetrieve query k) ;;;
  b <~ get ;;
  match embed env query with
  | None => raise LibraryError
  | Some query_embedding =>
    match index_search (index b) query_embedding k with
    | Raise e => raise e
    | Return indices =>
      match collect (knowledge_base b) indices [] with
      | Return results => ret results
      | Raise e => raise e
      end
    end
  end.

End Retriever.

(** ** Response generator *)

Section Generator.
Context {Vec : Type} (env : Externals Vec).

(** The prompt of [generate_response] (itmo_chat_bot.py:159-170). *)
Definition build_prompt (query : str) (context : list KnowledgeEntry) : str :=
  let context_text :=
    join [10; 10]%N (map (fun item => u8 "- " ++ text item) context) in
  prompt_head ++ context_text ++ prompt_mid ++ query ++ prompt_tail.

(** [_use_fallback_model] (itmo_chat_bot.py:112-144). *)
Definition _use_fallback_model (prompt : str) : M Vec str :=
  b <~ get ;;
  (if fallback_model b then ret tt
   else
     t <~ now ;;
     log EvLoad ;;;
     if llama_load env t then modify (set_fallback_model true)
     else raise FallbackError) ;;;
  t <~ now ;;
  log (EvFallback prompt) ;;;
  match llama_generate env t prompt with
  | None => raise FallbackError
  | Some response =>
    let response :=
      if contains prompt response
      then strip (drop (length prompt) response)
      else response in
    ret (strip (take 1000 response))
  end.

(** The guard of the primary call (itmo_chat_bot.py:174). *)
Definition primary_available (b : Bot Vec) : bool :=
  match claude_client b with
  | Some _ => used_tokens b <? max_tokens_per_month b
  | None => false
  end.

(** [generate_response] (itmo_chat_bot.py:147-195). *)
Definition generate_response (query : str) (context : list KnowledgeEntry)
    : M Vec str :=
  log (EvGenerate query context) ;;;
  let prompt := build_prompt query context in
  try_except
    (b <~ get ;;
     if primary_available b then
       t <~ now ;;
       log (EvPrimary prompt) ;;;
       match claude_create env t prompt with
       | None => raise ApiError
       | Some content =>
         match content with
         | [] => raise IndexError
         | completion :: _ =>
           modify (fun b =>
             set_used_tokens
               (used_tokens b + (word_count prompt + word_count completion)) b) ;;;
           ret completion
         end
       end
     else _use_fallback_model prompt)
    (fun _ => _use_fallback_model prompt).

(** ** Query router *)

(** The greeting test of [process_query] (itmo_chat_bot.py:208-209). *)
Definition is_greeting (query : str) : bool :=
  existsb (fun greeting => contains greeting (str_lower env query)) greetings.

(** [process_query] (itmo_chat_bot.py:197-235). *)
Definition process_query (query : str) : M Vec str :=
  if is_greeting query then ret onboarding_message
  else
    relevant_info <~ retrieve_relevant_info env query 5 ;;
    match relevant_info with
    | [] => ret not_found_message
    | _ :: _ => generate_response query relevant_info
    end.

(** A session: [generate_response] called on each request in turn,
    whatever each call returns or raises. *)
Fixpoint run_generate (calls : list (str * list KnowledgeEntry))
    (b : Bot Vec) : Bot Vec :=
  match calls with
  | [] => b
  | (query, context) :: rest =>
    run_generate rest (snd (generate_response query context b))
  end.

End Generator.

(** ** Instances used in the worked examples *)

Module Demo.

(** Texts are embedded by their length; a stored vector scores higher
    the closer its length is to that of the query, and the search is
    exact.  The remote model answers with two words; the local model
    echoes the prompt and adds nothing. *)
Definition score (q v : Z) : Z := - Z.abs (q - v).

Definition env : Externals Z := {|
  embed := fun s => Some (Z.of_nat (length s));
  inner_product := score;
  search := flat_search score;
  claude_create := fun _ _ => Some [u8 "Выбирайте программу"];
  llama_load := fun _ => true;
  llama_generate := fun _ prompt => Some prompt;
  str_lower := simple_lower
|}.

(** The same collaborators with a remote model that always fails. *)
Definition env_down : Externals Z := {|
  embed := embed env;
  inner_product := inner_product env;
  search := search env;
  claude_create := fun _ _ => None;
  llama_load := llama_load env;
  llama_generate := fun _ _ => Some (u8 "  Обе программы хороши.  ");
  str_lower := simple_lower
|}.

Definition entry (s : string) : KnowledgeEntry :=
  {| id := u8 s; text := u8 s; program := u8 "ai"; type := u8 "general" |}.

Definition kb : list KnowledgeEntry :=
  [entry "aaaa"; entry "b"; entry "cc"; entry "dd"; entry "eeeeeeee"].

(** The embeddings of [kb]. *)
Definition embeddings : list Z := [4; 1; 2; 2; 8].

(** The chatbot constructed over [kb] without an API key, and the one
    constructed with a key. *)
Definition offline : Bot Z := constructed None 100000 kb embeddings.

Definition online : Bot Z :=
  constructed (Some (u8 "sk-key")) 100000 kb embeddings.

(** A chatbot with a key whose month's budget is used up. *)
Definition exhausted : Bot Z := set_used_tokens 100000 online.

(** The same collaborators with an embedder that fails on texts of
    more than 1000 characters. *)
Definition env_short : Externals Z := {|
  embed := fun s =>
    if (length s <=? 1000)%nat then Some (Z.of_nat (length s)) else None;
  inner_product := inner_product env;
  search := search env;
  claude_create := claude_create env;
  llama_load := llama_load env;
  llama_generate := llama_generate env;
  str_lower := simple_lower
|}.

End Demo.

(** Two profiles: technical skills and programming experience only,
    and no factor at all. *)
Definition profile_technical : UserProfile :=
  {| technical_skills := true; management_interest := false;
     programming_experience := true; ml_knowledge := false;
     product_experience := false |}.

Definition profile_all_false : UserProfile :=
  {| technical_skills := false; management_interest := false;
     programming_experience := false; ml_knowledge := false;
     product_experience := false |}.

(** The weight table of the scorer, row by row. *)
Definition weight (factor : bool) (w : Z) : Z := if factor then w else 0.

Definition table_score_A (p : UserProfile) : Z :=
  weight (technical_skills p) 2 + weight (management_interest p) 0
  + weight (programming_experience p) 2 + weight (ml_knowledge p) 1
  + weight (product_experience p) 0.

Definition table_score_B (p : UserProfile) : Z :=
  weight (technical_skills p) 1 + weight (management_interest p) 2
  + weight (programming_experience p) 1 + weight (ml_knowledge p) 1
  + weight (product_experience p) 2.

(** ** Notions used to state the properties *)

(** Position [i] is ranked before position [j]: it scores strictly
    higher, or the two score the same and [i] comes first in the
    corpus. *)
Definition ranks_before (s : nat -> Z) (i j : nat) : Prop :=
  s j < s i \/ (s i = s j /\ (i < j)%nat).

(** The vector index holds the embeddings of the current knowledge
    base, as [__init__] leaves it. *)
Definition index_synced {Vec} (env : Externals Vec) (b : Bot Vec) : Prop :=
  create_faiss_index env (knowledge_base b) = Return (index b).

(** The inner-product score of the entry at position [i] for a query
    that the embedder takes. *)
Definition similarity {Vec} (env : Externals Vec) (b : Bot Vec)
    (query : str) (i : nat) : Z :=
  match embed env query with
  | Some query_embedding => score_of env (index b) query_embedding i
  | None => 0
  end.

(** What the index library documents of a search that returns: the
    flat inner-product index searches exactly.  The row holds [k]
    labels: first the positions of the [k] highest scores (of all
    stored vectors when there are fewer), descending by score, then
    [-1].  Nothing is said on the order among equal scores. *)
Definition exact_search {Vec} (env : Externals Vec) : Prop :=
  forall (xb : list Vec) (q : Vec) (k : Z) (indices : list Z),
    0 < k ->
    search env xb q k = Some indices ->
    exists ids : list nat,
      indices = map Z.of_nat ids ++ replicate (Z.to_nat k - length ids) (-1)
      /\ NoDup ids
      /\ length ids = Nat.min (Z.to_nat k) (length xb)
      /\ Forall (fun i => (i < length xb)%nat) ids
      /\ StronglySorted
           (fun i j => score_of env xb q j <= score_of env xb q i) ids
      /\ (forall i j, i ∈ ids -> (j < length xb)%nat -> j ∉ ids ->
          score_of env xb q j <= score_of env xb q i).

(** The text the remote model yields for a call made at moment [t]:
    none when the call raises or the response has no content block. *)
Definition primary_completion {Vec} (env : Externals Vec) (t : nat)
    (prompt : str) : option str :=
  match claude_create env t prompt with
  | Some (completion :: _) => Some completion
  | _ => None
  end.

(** The events of the local generator for a prompt. *)
Definition local_event (prompt : str) (ev : event) : Prop :=
  ev = EvLoad \/ ev = EvFallback prompt.

(** What the remote model answers to the call that [generate_response]
    makes when entered in state [b], right after the [EvGenerate]
    event. *)
Definition primary_reply {Vec} (env : Externals Vec) (b : Bot Vec)
    (query : str) (context : list KnowledgeEntry) : option str :=
  primary_completion env
    (length (trace (log_event (EvGenerate query context) b)))
    (build_prompt query context).

(** The fallback path of [generate_response]: the local generator, run
    again by the handler when its first run raises inside the [try]. *)
Definition fallback_path {Vec} (env : Externals Vec) (prompt : str)
    : M Vec str :=
  try_except (_use_fallback_model env prompt)
    (fun _ => _use_fallback_model env prompt).

(** The greeting test read as membership: the lowercased query is
    itself one of the tokens. *)
Definition greeting_token {Vec} (env : Externals Vec) (query : str) : Prop :=
  str_lower env query ∈ greetings.

(** ** Sessions *)

(** A session of the chatbot: [process_query] called on each query in
    turn, whatever each call returns or raises. *)
Fixpoint run_queries {Vec} (env : Externals Vec) (queries : list str)
    (b : Bot Vec) : Bot Vec :=
  match queries with
  | [] => b
  | query :: rest => run_queries env rest (snd (process_query env query b))
  end.

(** What one operation of the engine may do to the chatbot object: the
    corpus, the index and the configuration stay, the counter does not
    go down, the local model is not unloaded, and the call log grows
    at its end; no model is loaded again once one is loaded, and no
    remote call is made nor charged while the guard of the remote call
    is false. *)
Definition evolves {Vec} (b b' : Bot Vec) : Prop :=
  knowledge_base b' = knowledge_base b
  /\ index b' = index b
  /\ claude_api_key b' = claude_api_key b
  /\ claude_client b' = claude_client b
  /\ max_tokens_per_month b' = max_tokens_per_month b
  /\ used_tokens b <= used_tokens b'
  /\ (fallback_model b = true -> fallback_model b' = true)
  /\ exists evs,
       trace b' = trace b ++ evs
       /\ (fallback_model b = true -> EvLoad ∉ evs)
       /\ (primary_available b = false ->
           used_tokens b' = used_tokens b
           /\ forall prompt, EvPrimary prompt ∉ evs).

(** What the local model answers to the call that
    [_use_fallback_model] makes when entered in state [b]: none when
    loading or generating raises. *)
Definition local_reply {Vec} (env : Externals Vec) (b : Bot Vec)
    (prompt : str) : option str :=
  if fallback_model b then llama_generate env (length (trace b)) prompt
  else if llama_load env (length (trace b))
       then llama_generate env (length (trace b ++ [EvLoad])) prompt
       else None.

(** The number of calls of a session of [generate_response] in which
    the remote model is called and yields a completion. *)
Fixpoint completions {Vec} (env : Externals Vec)
    (calls : list (str * list KnowledgeEntry)) (b : Bot Vec) : nat :=
  match calls with
  | [] => O
  | (query, context) :: rest =>
    ((if primary_available b
      then match primary_reply env b query context with
           | Some _ => 1
           | None => 0
           end
      else 0)
     + completions env rest (snd (generate_response env query context b)))%nat
  end.

(** ** Prompts and word counts *)

(** The context block of [generate_response] (itmo_chat_bot.py:159):
    one bullet per entry, separated by empty lines. *)
Definition context_text (context : list KnowledgeEntry) : str :=
  join [10; 10]%N (map (fun item => u8 "- " ++ text item) context).

(** Whether a scan that is inside a word or not ([inw]) is inside a
    word after reading [s]. *)
Fixpoint in_word_after (inw : bool) (s : str) : bool :=
  match s with
  | [] => inw
  | c :: s' => in_word_after (negb (is_space c)) s'
  end.

(** * The chat front end ([src/app/telegram_bot.py])

    The handlers of [ITMOBot] in the order of their registration: the
    commands and the menu buttons, the intake of the five answers with
    the choice of the elective suggestions, and the default handler.
    A message that Telegram takes is appended to the list of sent
    messages; the state of the intake is kept per user. *)

(** ** The text literals of the front end *)

(** The answers that count as yes (telegram_bot.py:114). *)
Definition yes_answers : list str :=
  [u8 "да"; u8 "yes"; u8 "+"].

(** The opening of the intake and its first question (telegram_bot.py:235-236). *)
Definition question_technical_skills : str :=
  u8 "Отлично! Я задам вам несколько вопросов, чтобы дать персональную рекомендацию.

У вас есть технический бэкграунд (математика, программирование, инженерия)?".

(** The second question (telegram_bot.py:123). *)
Definition question_management_interest : str :=
  u8 "Интересует ли вас управление продуктами и проектами?".

(** The third question (telegram_bot.py:142). *)
Definition question_programming_experience : str :=
  u8 "Есть ли у вас опыт программирования (любой язык)?".

(** The fourth question (telegram_bot.py:161). *)
Definition question_ml_knowledge : str :=
  u8 "Знакомы ли вы с машинным обучением (хотя бы базово)?".

(** The fifth question (telegram_bot.py:180). *)
Definition question_product_experience : str :=
  u8 "Есть ли у вас опыт работы с цифровыми продуктами (разработка, управление, аналитика)?".

(** The name of the first programme as searched in the recommendation (telegram_bot.py:196). *)
Definition name_ai : str :=
  u8 "Искусственный интеллект".

(** The name of the second programme as searched in the recommendation (telegram_bot.py:196, 198). *)
Definition name_ai_product : str :=
  u8 "Управление ИИ-продуктами".

(** The buttons under each question (telegram_bot.py:117). *)
Definition yes_no_buttons : list (list str) :=
  [[u8 "Да"; u8 "Нет"]].

(** The buttons of the main menu (telegram_bot.py:206-209). *)
Definition main_menu_buttons : list (list str) :=
  [[u8 "🎓 О программах"];
   [u8 "💰 Стоимость обучения"; u8 "📚 Поступление"];
   [u8 "💼 Карьера"; u8 "📖 Дисциплины"];
   [u8 "🎯 Получить рекомендацию"]].

(** The welcome of [/start] (telegram_bot.py:37-43). *)
Definition welcome_text : str :=
  u8 "Привет! 👋 Я помощник по выбору магистерской программы в ИТМО.

Помогу разобраться между двумя программами:
• 🤖 **Искусственный интеллект** - для ML-инженеров
• 📊 **Управление ИИ-продуктами** - для AI Product Managers

Выберите интересующую тему или задайте свой вопрос!".

(** The text of [/help] (telegram_bot.py:50-61). *)
Definition help_text : str :=
  u8 "Я могу рассказать о:

📚 **Поступление** - способы поступления, конкурсы, олимпиады
💰 **Стоимость** - цены, бюджетные места, стипендии
📖 **Дисциплины** - учебные планы, предметы
💼 **Карьера** - кем можно работать, зарплаты
🏢 **Партнеры** - компании-партнеры программ
🌍 **Международные возможности** - стажировки, конференции

Или получите **персональную рекомендацию** по выбору программы!

Просто напишите свой вопрос или используйте кнопки меню.".

(** The button that starts the intake (telegram_bot.py:70). *)
Definition button_recommendation : str :=
  u8 "🎯 Получить рекомендацию".

(** The text of a topic button (telegram_bot.py:75). *)
Definition button_programs : str :=
  u8 "🎓 О программах".

(** The query behind that button (telegram_bot.py:78). *)
Definition query_programs : str :=
  u8 "расскажи подробно о программах магистратуры".

(** The text of a topic button (telegram_bot.py:81). *)
Definition button_cost : str :=
  u8 "💰 Стоимость обучения".

(** The query behind that button (telegram_bot.py:84). *)
Definition query_cost : str :=
  u8 "сколько стоит обучение и есть ли бюджетные места".

(** The text of a topic button (telegram_bot.py:87). *)
Definition button_admission : str :=
  u8 "📚 Поступление".

(** The query behind that button (telegram_bot.py:90). *)
Definition query_admission : str :=
  u8 "как поступить на программы, какие есть способы".

(** The text of a topic button (telegram_bot.py:93). *)
Definition button_career : str :=
  u8 "💼 Карьера".

(** The query behind that button (telegram_bot.py:96). *)
Definition query_career : str :=
  u8 "кем можно работать после окончания и какие зарплаты".

(** The text of a topic button (telegram_bot.py:99). *)
Definition button_disciplines : str :=
  u8 "📖 Дисциплины".

(** The query behind that button (telegram_bot.py:102). *)
Definition query_disciplines : str :=
  u8 "какие предметы изучают на программах".

(** ** Messages, keyboards and the state of the front end *)

(** The states of the intake ([RecommendationStates],
    itmo_chat_bot.py:18-23). *)
Inductive RecommendationStates : Type :=
  | asking_technical_skills
  | asking_management_interest
  | asking_programming_experience
  | asking_ml_knowledge
  | asking_product_experience.

(** An incoming message: its sender, its text, which a message
    without text (a photo, a sticker) does not have, and the caption
    that a photo or a document may carry; no handler reads the
    caption. *)
Record Message : Type := {
  from_user_id : Z;
  message_text : option str;
  message_caption : option str
}.

Record ReplyKeyboardMarkup : Type := {
  keyboard : list (list str);
  resize_keyboard : bool;
  one_time_keyboard : bool
}.

(** A message sent by [message.answer]. *)
Record Reply : Type := {
  reply_to : Z;
  reply_text : str;
  reply_markup : option ReplyKeyboardMarkup;
  parse_mode : option str
}.

(** [s.count(sub)] for a non-empty [sub]: occurrences are counted
    from the left without overlap; [skip] characters of the last
    occurrence are still to be passed. *)
Fixpoint count_from (sub : str) (skip : nat) (s : str) : nat :=
  match s with
  | [] => O
  | _ :: s' =>
    match skip with
    | S k => count_from sub k s'
    | O =>
      if starts_with sub s then S (count_from sub (length sub - 1) s')
      else count_from sub 0 s'
    end
  end.

(** [s.count(sub)]. *)
Definition count (sub s : str) : nat :=
  match sub with
  | [] => S (length s)
  | _ :: _ => count_from sub 0 s
  end.

(** The attributes of an [ITMOBot] object: the engine, the
    backgrounds collected per user, the intake state per user (the
    storage of the dispatcher, for users who write in a private chat),
    and the messages sent so far. *)
Record ITMOBot (Vec : Type) : Type := {
  chatbot : Bot Vec;
  user_backgrounds : gmap Z dict;
  fsm : gmap Z RecommendationStates;
  sent : list Reply
}.
Arguments chatbot {Vec}.
Arguments user_backgrounds {Vec}.
Arguments fsm {Vec}.
Arguments sent {Vec}.

(** What the front end consumes as black boxes: Telegram, and the
    command filter of the dispatcher library. *)
Record Telegram : Type := {
  (** [await message.answer(...)]: whether Telegram takes the message,
      sent when so many messages were sent before; when it does not,
      the call raises *)
  send_message : nat -> Reply -> bool;
  (** the filter [Command(name)] on an incoming message *)
  command : str -> Message -> bool
}.

(** The exceptions of a handler: those of the interpreter, what the
    engine raises, and what sending raises. *)
Inductive handler_error : Type :=
  | AttributeError
  | KeyError
  | EngineError (e : exn)
  | TelegramError.

(** The outcome of a handler: it ran to its end, or it raised, and the
    object as it leaves it. *)
Inductive handled (Vec : Type) : Type :=
  | Done (bot : ITMOBot Vec)
  | Failed (e : handler_error) (bot : ITMOBot Vec).
Arguments Done {Vec}.
Arguments Failed {Vec}.

(** A handler goes on with [k] when the step before it did not
    raise. *)
Definition and_then {Vec} (h : handled Vec)
    (k : ITMOBot Vec -> handled Vec) : handled Vec :=
  match h with
  | Done bot => k bot
  | Failed e bot => Failed e bot
  end.

Section FrontEnd.
Context {Vec : Type} (env : Externals Vec) (tg : Telegram).

Definition set_backgrounds (bgs : gmap Z dict) (bot : ITMOBot Vec)
    : ITMOBot Vec :=
  {| chatbot := chatbot bot; user_backgrounds := bgs;
     fsm := fsm bot; sent := sent bot |}.

Definition set_chatbot (b : Bot Vec) (bot : ITMOBot Vec) : ITMOBot Vec :=
  {| chatbot := b; user_backgrounds := user_backgrounds bot;
     fsm := fsm bot; sent := sent bot |}.

(** [await state.set_state(st)] for the sender of [message]. *)
Definition set_state (message : Message) (st : RecommendationStates)
    (bot : ITMOBot Vec) : ITMOBot Vec :=
  {| chatbot := chatbot bot; user_backgrounds := user_backgrounds bot;
     fsm := <[from_user_id message := st]> (fsm bot); sent := sent bot |}.

(** [await state.clear()]. *)
Definition clear_state (message : Message) (bot : ITMOBot Vec)
    : ITMOBot Vec :=
  {| chatbot := chatbot bot; user_backgrounds := user_backgrounds bot;
     fsm := delete (from_user_id message) (fsm bot); sent := sent bot |}.

Definition add_sent (reply : Reply) (bot : ITMOBot Vec) : ITMOBot Vec :=
  {| chatbot := chatbot bot; user_backgrounds := user_backgrounds bot;
     fsm := fsm bot; sent := sent bot ++ [reply] |}.

(** [await message.answer(text, reply_markup=..., parse_mode=...)]:
    the message is sent, or the call raises and nothing is sent. *)
Definition answer (message : Message) (text : str)
    (markup : option ReplyKeyboardMarkup) (mode : option str)
    (bot : ITMOBot Vec) : handled Vec :=
  let reply :=
    {| reply_to := from_user_id message; reply_text := text;
       reply_markup := markup; parse_mode := mode |} in
  if send_message tg (length (sent bot)) reply
  then Done (add_sent reply bot)
  else Failed TelegramError bot.

(** The keyboard under each question (telegram_bot.py:116-120). *)
Definition yes_no_keyboard : ReplyKeyboardMarkup :=
  {| keyboard := yes_no_buttons; resize_keyboard := true;
     one_time_keyboard := true |}.

(** The keyboard of the main menu (telegram_bot.py:204-212). *)
Definition main_menu_keyboard : ReplyKeyboardMarkup :=
  {| keyboard := main_menu_buttons; resize_keyboard := true;
     one_time_keyboard := false |}.

(** [answer in ['да', 'yes', '+']] for [answer = message.text.lower()]. *)
Definition says_yes (text : str) : bool :=
  bool_decide (str_lower env text ∈ yes_answers).

(** [start_recommendation] (telegram_bot.py:226-239). *)
Definition start_recommendation (message : Message) (bot : ITMOBot Vec)
    : handled Vec :=
  and_then
    (answer message question_technical_skills (Some yes_no_keyboard) None bot)
    (fun bot => Done (set_state message asking_technical_skills bot)).

(** [process_technical_skills] (telegram_bot.py:106-126): the
    background of the user is created when there is none, before the
    text of the message is read. *)
Definition process_technical_skills (message : Message) (bot : ITMOBot Vec)
    : handled Vec :=
  let user_id := from_user_id message in
  let bot :=
    match user_backgrounds bot !! user_id with
    | Some _ => bot
    | None => set_backgrounds (<[user_id := ∅]> (user_backgrounds bot)) bot
    end in
  match message_text message with
  | None => Failed AttributeError bot
  | Some text =>
    match user_backgrounds bot !! user_id with
    | None => Failed KeyError bot
    | Some background =>
      let bot :=
        set_backgrounds
          (<[user_id := <[u8 "technical_skills" := VBool (says_yes text)]>
                          background]> (user_backgrounds bot)) bot in
      and_then
        (answer message question_management_interest (Some yes_no_keyboard)
           None bot)
        (fun bot => Done (set_state message asking_management_interest bot))
    end
  end.

(** The body shared by the handlers of the second, third and fourth
    answer (telegram_bot.py:128-183): the answer is stored under [key]
    in the background of the user, which has to exist, the next
    question is asked and the next state is set. *)
Definition store_and_ask (key : string) (question : str)
    (next : RecommendationStates) (message : Message) (bot : ITMOBot Vec)
    : handled Vec :=
  let user_id := from_user_id message in
  match message_text message with
  | None => Failed AttributeError bot
  | Some text =>
    match user_backgrounds bot !! user_id with
    | None => Failed KeyError bot
    | Some background =>
      let bot :=
        set_backgrounds
          (<[user_id := <[u8 key := VBool (says_yes text)]> background]>
             (user_backgrounds bot)) bot in
      and_then (answer message question (Some yes_no_keyboard) None bot)
        (fun bot => Done (set_state message next bot))
    end
  end.

(** [process_management_interest] (telegram_bot.py:128-145). *)
Definition process_management_interest : Message -> ITMOBot Vec -> handled Vec :=
  store_and_ask "management_interest" question_programming_experience
    asking_programming_experience.

(** [process_programming_experience] (telegram_bot.py:147-164). *)
Definition process_programming_experience
    : Message -> ITMOBot Vec -> handled Vec :=
  store_and_ask "programming_experience" question_ml_knowledge
    asking_ml_knowledge.

(** [process_ml_knowledge] (telegram_bot.py:166-183). *)
Definition process_ml_knowledge : Message -> ITMOBot Vec -> handled Vec :=
  store_and_ask "ml_knowledge" question_product_experience
    asking_product_experience.

(** The choice of the elective suggestions for a recommendation
    (telegram_bot.py:196-201). *)
Definition disciplines_rec (recommendation : str) (background : dict) : str :=
  if contains name_ai recommendation
     && negb (contains name_ai_product recommendation)
     || (count name_ai_product recommendation <? count name_ai recommendation)%nat
  then get_disciplines_recommendation (u8 "ai") background
  else if contains name_ai_product recommendation
  then get_disciplines_recommendation (u8 "ai_product") background
  else [].

(** The final message of the intake (telegram_bot.py:193-214). *)
Definition full_response (background : dict) : str :=
  let recommendation := recommend_program background in
  let disciplines := disciplines_rec recommendation background in
  match disciplines with
  | [] => recommendation
  | _ :: _ => recommendation ++ [10; 10]%N ++ disciplines
  end.

(** [process_product_experience] (telegram_bot.py:185-217). *)
Definition process_product_experience (message : Message) (bot : ITMOBot Vec)
    : handled Vec :=
  let user_id := from_user_id message in
  match message_text message with
  | None => Failed AttributeError bot
  | Some text =>
    match user_backgrounds bot !! user_id with
    | None => Failed KeyError bot
    | Some background =>
      let background :=
        <[u8 "product_experience" := VBool (says_yes text)]> background in
      let bot :=
        set_backgrounds (<[user_id := background]> (user_backgrounds bot))
          bot in
      and_then
        (answer message (full_response background) (Some main_menu_keyboard)
           (Some (u8 "Markdown")) bot)
        (fun bot => Done (clear_state message bot))
    end
  end.

(** The two lines that the handlers of the topic buttons and the
    default handler share (telegram_bot.py:78-79 and the like): the
    answer of [process_query] is sent in Markdown mode; an error of
    the engine leaves the handler before a reply is sent. *)
Definition reply_to_query (query : str) (message : Message)
    (bot : ITMOBot Vec) : handled Vec :=
  match process_query env query (chatbot bot) with
  | (Return response, b) =>
    answer message response None (Some (u8 "Markdown")) (set_chatbot b bot)
  | (Raise e, b) => Failed (EngineError e) (set_chatbot b bot)
  end.

(** [general_message_handler] (telegram_bot.py:220-224): [process_query]
    reads [query.lower()] first, which a message without text does not
    have. *)
Definition general_message_handler (message : Message) (bot : ITMOBot Vec)
    : handled Vec :=
  match message_text message with
  | None => Failed AttributeError bot
  | Some text => reply_to_query text message bot
  end.

(** [start_handler] (telegram_bot.py:24-45). *)
Definition start_handler (message : Message) (bot : ITMOBot Vec)
    : handled Vec :=
  answer message welcome_text (Some main_menu_keyboard)
    (Some (u8 "Markdown")) bot.

(** [help_handler] (telegram_bot.py:47-63). *)
Definition help_handler (message : Message) (bot : ITMOBot Vec)
    : handled Vec :=
  answer message help_text None (Some (u8 "Markdown")) bot.

(** The filter [lambda message: message.text == button]. *)
Definition text_is (button : str) (message : Message) : bool :=
  bool_decide (message_text message = Some button).

(** The handlers registered behind the commands and the menu buttons:
    the one of the intake state of the sender, or the default handler
    when the sender has none (telegram_bot.py:106, 128, 147, 166, 185,
    220).  They take the messages that none of the filters before
    them takes. *)
Definition dispatch (message : Message) (bot : ITMOBot Vec) : handled Vec :=
  match fsm bot !! from_user_id message with
  | Some asking_technical_skills => process_technical_skills message bot
  | Some asking_management_interest => process_management_interest message bot
  | Some asking_programming_experience =>
    process_programming_experience message bot
  | Some asking_ml_knowledge => process_ml_knowledge message bot
  | Some asking_product_experience => process_product_experience message bot
  | None => general_message_handler message bot
  end.

(** Whether a filter registered before the intake handlers takes the
    message: a command or a menu button (telegram_bot.py:24-99). *)
Definition taken_by_menu (message : Message) : bool :=
  command tg (u8 "start") message
  || command tg (u8 "help") message
  || command tg (u8 "recommend") message
  || text_is button_recommendation message
  || text_is button_programs message
  || text_is button_cost message
  || text_is button_admission message
  || text_is button_career message
  || text_is button_disciplines message.

(** The dispatcher: of the handlers of [register_handlers], in the
    order in which they are registered, the first whose filter takes
    the message handles it (telegram_bot.py:24-224).  The commands and
    the menu buttons carry no filter on the intake state. *)
Definition route (message : Message) (bot : ITMOBot Vec) : handled Vec :=
  if command tg (u8 "start") message then start_handler message bot
  else if command tg (u8 "help") message then help_handler message bot
  else if command tg (u8 "recommend") message
  then start_recommendation message bot
  else if text_is button_recommendation message
  then start_recommendation message bot
  else if text_is button_programs message
  then reply_to_query query_programs message bot
  else if text_is button_cost message
  then reply_to_query query_cost message bot
  else if text_is button_admission message
  then reply_to_query query_admission message bot
  else if text_is button_career message
  then reply_to_query query_career message bot
  else if text_is button_disciplines message
  then reply_to_query query_disciplines message bot
  else dispatch message bot.

(** Messages handled one after the other, up to the first handler
    that raises. *)
Fixpoint handle_all (messages : list Message) (bot : ITMOBot Vec)
    : handled Vec :=
  match messages with
  | [] => Done bot
  | message :: rest => and_then (route message bot) (handle_all rest)
  end.

End FrontEnd.

Module DemoFront.

(** Telegram refuses a message without text; a command is a text, or
    the caption of a message without text, that is the slash and the
    name, alone or followed by a space. *)
Definition tg : Telegram := {|
  send_message := fun _ reply =>
    match reply_text reply with [] => false | _ :: _ => true end;
  command := fun name message =>
    let text :=
      match message_text message with
      | Some text => Some text
      | None => message_caption message
      end in
    match text with
    | Some text =>
      bool_decide (text = 47%N :: name)
      || starts_with (47%N :: name ++ [32%N]) text
    | None => false
    end
|}.

(** A front end that has handled nothing yet, and one whose user 7 has
    answered the first question of the intake with yes. *)
Definition fresh : ITMOBot Z :=
  {| chatbot := Demo.offline; user_backgrounds := ∅; fsm := ∅; sent := [] |}.

Definition text_from (user_id : Z) (text : string) : Message :=
  {| from_user_id := user_id; message_text := Some (u8 text);
     message_caption := None |}.

Definition photo_from (user_id : Z) : Message :=
  {| from_user_id := user_id; message_text := None;
     message_caption := None |}.

Definition captioned_photo_from (user_id : Z) (caption : string) : Message :=
  {| from_user_id := user_id; message_text := None;
     message_caption := Some (u8 caption) |}.

Definition asked : ITMOBot Z :=
  {| chatbot := Demo.offline;
     user_backgrounds := {[ 7 := {[ u8 "technical_skills" := VBool true ]} ]};
     fsm := {[ 7 := asking_management_interest ]};
     sent := [] |}.

End DemoFront.

(** The profile a dictionary stands for. *)
Definition profile_of (background : dict) : UserProfile :=
  {| technical_skills := flag background "technical_skills";
     management_interest := flag background "management_interest";
     programming_experience := flag background "programming_experience";
     ml_knowledge := flag background "ml_knowledge";
     product_experience := flag background "product_experience" |}.

(** Every user in the intake past its first question has a
    background. *)
Definition intake_invariant {Vec} (bot : ITMOBot Vec) : Prop :=
  forall user_id st,
    fsm bot !! user_id = Some st ->
    st <> asking_technical_skills ->
    is_Some (user_backgrounds bot !! user_id).

(** What a handler leaves of the intake: the backgrounds and the
    states of the other users as they were, and the state of the
    sender as it was or at the first question. *)
Definition intake_untouched {Vec} (message : Message) (bot : ITMOBot Vec)
    (h : handled Vec) : Prop :=
  let bot' := match h with Done bot' => bot' | Failed _ bot' => bot' end in
  user_backgrounds bot' = user_backgrounds bot
  /\ (forall other, other <> from_user_id message ->
        fsm bot' !! other = fsm bot !! other)
  /\ (fsm bot' !! from_user_id message = fsm bot !! from_user_id message
      \/ fsm bot' !! from_user_id message = Some asking_technical_skills).
(** * Building the knowledge base ([src/parsers/itmo_program_parser.py])

    [create_knowledge_base] turns the data parsed from the programme
    pages into the entries that the chatbot loads.  The parsed data
    are taken in the shape in which [parse_program_page] builds them:
    a field that page did not yield is absent or [None], and counts as
    not given, like the empty string. *)

Module Parser.

(** One direction of admission. *)
Record Direction : Type := {
  code : option str;
  name : option str;
  budget_places : option str;
  contract_places : option str
}.

(** One way of admission. *)
Record Method : Type := {
  title : option str;
  method_description : option str
}.

Record FaqItem : Type := {
  question : option str;
  faq_answer : option str
}.

(** The data of one programme: the fields of [general_info], of
    [admission] and of [career] that the knowledge base reads, the
    partners and the questions. *)
Record ProgramData : Type := {
  description : option str;
  cost : option str;
  duration : option str;
  form : option str;
  features : list str;
  directions : list Direction;
  methods : list Method;
  career_description : option str;
  partners : list str;
  faq : list FaqItem
}.

(** The test [if d.get(key):] on a string field. *)
Definition given (field : option str) : bool :=
  match field with
  | Some (_ :: _) => true
  | _ => false
  end.

(** The value [d[key]] of a field that is given. *)
Definition the (field : option str) : str := default [] field.

Fixpoint str_of_uint (d : Decimal.uint) : str :=
  match d with
  | Decimal.Nil => []
  | Decimal.D0 d => 48%N :: str_of_uint d
  | Decimal.D1 d => 49%N :: str_of_uint d
  | Decimal.D2 d => 50%N :: str_of_uint d
  | Decimal.D3 d => 51%N :: str_of_uint d
  | Decimal.D4 d => 52%N :: str_of_uint d
  | Decimal.D5 d => 53%N :: str_of_uint d
  | Decimal.D6 d => 54%N :: str_of_uint d
  | Decimal.D7 d => 55%N :: str_of_uint d
  | Decimal.D8 d => 56%N :: str_of_uint d
  | Decimal.D9 d => 57%N :: str_of_uint d
  end.

(** [str(i)] for an index [i]. *)
Definition str_of_nat (i : nat) : str := str_of_uint (Nat.to_uint i).

(** The name under which a programme appears in the texts
    (itmo_program_parser.py:491). *)
Definition program_name (program_key : str) : str :=
  if decide (program_key = (u8 "ai")) then (u8 "Искусственный интеллект") else (u8 "Управление ИИ-продуктами/AI Product").

(** The types of entries. *)
Definition entry_types : list str :=
  [(u8 "general"); (u8 "info"); (u8 "admission"); (u8 "career"); (u8 "partners"); (u8 "faq"); (u8 "features")].

(** What one direction adds to the text about the directions
    (itmo_program_parser.py:524-532). *)
Definition direction_text (direction : Direction) : str :=
  if given (name direction) then
    let parts := [the (name direction)] in
    let parts :=
      if given (code direction)
      then parts ++ [(u8 "код ") ++ the (code direction)] else parts in
    let parts :=
      if given (budget_places direction)
      then parts ++ [the (budget_places direction) ++ (u8 " бюджетных мест")] else parts in
    let parts :=
      if given (contract_places direction)
      then parts ++ [the (contract_places direction) ++ (u8 " контрактных мест")]
      else parts in
    join (u8 ", ") parts ++ (u8 ". ")
  else [].

(** The loop over the ways of admission, from index [i] on
    (itmo_program_parser.py:543-550). *)
Fixpoint method_entries (program_key : str) (i : nat) (l : list Method)
    : list KnowledgeEntry :=
  match l with
  | [] => []
  | method :: rest =>
    (if given (title method) && given (method_description method)
     then [{| id := program_key ++ (u8 "_admission_") ++ str_of_nat i;
              text := (u8 "Программа '") ++ program_name program_key ++ (u8 "' - способ поступления '")
                      ++ the (title method) ++ (u8 "': ")
                      ++ the (method_description method);
              program := program_key;
              type := (u8 "admission") |}]
     else [])
    ++ method_entries program_key (S i) rest
  end.

(** The loop over the questions, from index [i] on
    (itmo_program_parser.py:572-579). *)
Fixpoint faq_entries (program_key : str) (i : nat) (l : list FaqItem)
    : list KnowledgeEntry :=
  match l with
  | [] => []
  | faq_item :: rest =>
    (if given (question faq_item) && given (faq_answer faq_item)
     then [{| id := program_key ++ (u8 "_faq_") ++ str_of_nat i;
              text := (u8 "Программа '") ++ program_name program_key ++ (u8 "' - Вопрос: ")
                      ++ the (question faq_item) ++ (u8 " Ответ: ")
                      ++ the (faq_answer faq_item);
              program := program_key;
              type := (u8 "faq") |}]
     else [])
    ++ faq_entries program_key (S i) rest
  end.

(** The body of the loop of [create_knowledge_base] for one programme
    (itmo_program_parser.py:490-589): the entries it appends to
    [knowledge_base]. *)
Definition add_program (knowledge_base : list KnowledgeEntry)
    (program_key : str) (program_data : ProgramData)
    : list KnowledgeEntry :=
  let name := program_name program_key in
  let knowledge_base :=
    if given (description program_data)
    then knowledge_base
         ++ [{| id := program_key ++ (u8 "_general");
                text := (u8 "Программа '") ++ name ++ (u8 "': ")
                        ++ the (description program_data);
                program := program_key;
                type := (u8 "general") |}]
    else knowledge_base in
  let knowledge_base :=
    if given (cost program_data) || given (duration program_data) then
      let info_parts := [] in
      let info_parts :=
        if given (duration program_data)
        then info_parts ++ [(u8 "Длительность: ") ++ the (duration program_data)]
        else info_parts in
      let info_parts :=
        if given (cost program_data)
        then info_parts ++ [(u8 "Стоимость: ") ++ the (cost program_data)]
        else info_parts in
      let info_parts :=
        if given (form program_data)
        then info_parts ++ [(u8 "Форма обучения: ") ++ the (form program_data)]
        else info_parts in
      knowledge_base
      ++ [{| id := program_key ++ (u8 "_info");
             text := (u8 "Программа '") ++ name ++ (u8 "'. ")
                     ++ join (u8 ". ") info_parts;
             program := program_key;
             type := (u8 "info") |}]
    else knowledge_base in
  let knowledge_base :=
    match directions program_data with
    | [] => knowledge_base
    | _ :: _ =>
      let directions_text :=
        foldl (fun directions_text direction =>
                 directions_text ++ direction_text direction)
          ((u8 "Программа '") ++ name ++ (u8 "' имеет следующие направления подготовки: ")) (directions program_data) in
      knowledge_base
      ++ [{| id := program_key ++ (u8 "_directions");
             text := directions_text;
             program := program_key;
             type := (u8 "admission") |}]
    end in
  let knowledge_base :=
    knowledge_base ++ method_entries program_key 0 (methods program_data) in
  let knowledge_base :=
    if given (career_description program_data)
    then knowledge_base
         ++ [{| id := program_key ++ (u8 "_career");
                text := (u8 "Карьерные перспективы программы '") ++ name ++ (u8 "': ")
                        ++ the (career_description program_data);
                program := program_key;
                type := (u8 "career") |}]
    else knowledge_base in
  let knowledge_base :=
    match partners program_data with
    | [] => knowledge_base
    | _ :: _ =>
      knowledge_base
      ++ [{| id := program_key ++ (u8 "_partners");
             text := (u8 "Партнеры программы '") ++ name ++ (u8 "': ")
                     ++ join (u8 ", ") (partners program_data);
             program := program_key;
             type := (u8 "partners") |}]
    end in
  let knowledge_base :=
    knowledge_base ++ faq_entries program_key 0 (faq program_data) in
  let knowledge_base :=
    match features program_data with
    | [] => knowledge_base
    | _ :: _ =>
      knowledge_base
      ++ [{| id := program_key ++ (u8 "_features");
             text := ((u8 "Особенности программы '") ++ name ++ (u8 "': "))
                     ++ join (u8 "; ") (take 5 (features program_data));
             program := program_key;
             type := (u8 "features") |}]
    end in
  knowledge_base.

(** [create_knowledge_base] (itmo_program_parser.py:478-598); the
    programmes come in the order of the dictionary. *)
Definition create_knowledge_base (parsed_data : list (str * ProgramData))
    : list KnowledgeEntry :=
  foldl (fun knowledge_base item => add_program knowledge_base item.1 item.2)
    [] parsed_data.

(** The entries of one programme, section by section. *)
Definition general_entries (program_key : str) (program_data : ProgramData)
    : list KnowledgeEntry :=
  if given (description program_data)
  then [{| id := program_key ++ (u8 "_general");
           text := (u8 "Программа '") ++ program_name program_key ++ (u8 "': ")
                   ++ the (description program_data);
           program := program_key;
           type := (u8 "general") |}]
  else [].

Definition info_parts (program_data : ProgramData) : list str :=
  (if given (duration program_data)
   then [(u8 "Длительность: ") ++ the (duration program_data)] else [])
  ++ (if given (cost program_data)
      then [(u8 "Стоимость: ") ++ the (cost program_data)] else [])
  ++ (if given (form program_data)
      then [(u8 "Форма обучения: ") ++ the (form program_data)] else []).

Definition info_entries (program_key : str) (program_data : ProgramData)
    : list KnowledgeEntry :=
  if given (cost program_data) || given (duration program_data)
  then [{| id := program_key ++ (u8 "_info");
           text := (u8 "Программа '") ++ program_name program_key ++ (u8 "'. ")
                   ++ join (u8 ". ") (info_parts program_data);
           program := program_key;
           type := (u8 "info") |}]
  else [].

Definition directions_entries (program_key : str)
    (program_data : ProgramData) : list KnowledgeEntry :=
  match directions program_data with
  | [] => []
  | _ :: _ =>
    [{| id := program_key ++ (u8 "_directions");
        text := foldl (fun directions_text direction =>
                         directions_text ++ direction_text direction)
                  ((u8 "Программа '") ++ program_name program_key ++ (u8 "' имеет следующие направления подготовки: "))
                  (directions program_data);
        program := program_key;
        type := (u8 "admission") |}]
  end.

Definition career_entries (program_key : str) (program_data : ProgramData)
    : list KnowledgeEntry :=
  if given (career_description program_data)
  then [{| id := program_key ++ (u8 "_career");
           text := (u8 "Карьерные перспективы программы '") ++ program_name program_key ++ (u8 "': ")
                   ++ the (career_description program_data);
           program := program_key;
           type := (u8 "career") |}]
  else [].

Definition partners_entries (program_key : str) (program_data : ProgramData)
    : list KnowledgeEntry :=
  match partners program_data with
  | [] => []
  | _ :: _ =>
    [{| id := program_key ++ (u8 "_partners");
        text := (u8 "Партнеры программы '") ++ program_name program_key ++ (u8 "': ")
                ++ join (u8 ", ") (partners program_data);
        program := program_key;
        type := (u8 "partners") |}]
  end.

Definition features_entries (program_key : str) (program_data : ProgramData)
    : list KnowledgeEntry :=
  match features program_data with
  | [] => []
  | _ :: _ =>
    [{| id := program_key ++ (u8 "_features");
        text := ((u8 "Особенности программы '") ++ program_name program_key ++ (u8 "': "))
                ++ join (u8 "; ") (take 5 (features program_data));
        program := program_key;
        type := (u8 "features") |}]
  end.

(** The entries of one programme. *)
Definition program_entries (program_key : str) (program_data : ProgramData)
    : list KnowledgeEntry :=
  general_entries program_key program_data
  ++ info_entries program_key program_data
  ++ directions_entries program_key program_data
  ++ method_entries program_key 0 (methods program_data)
  ++ career_entries program_key program_data
  ++ partners_entries program_key program_data
  ++ faq_entries program_key 0 (faq program_data)
  ++ features_entries program_key program_data.

(** An entry made for the programme [program_key]: it carries the key
    as its programme, its id is the key and a suffix that starts with
    an underscore, its text names the programme, and its type is one
    of the seven types. *)
Definition entry_of (program_key : str) (entry : KnowledgeEntry) : Prop :=
  program entry = program_key
  /\ (exists suffix, id entry = program_key ++ suffix
                     /\ starts_with (u8 "_") suffix = true)
  /\ contains (program_name program_key) (text entry) = true
  /\ type entry ∈ entry_types.

(** Data of a programme page on which nothing was found. *)
Definition nothing : ProgramData :=
  {| description := None; cost := None; duration := None; form := None;
     features := []; directions := []; methods := [];
     career_description := None; partners := []; faq := [] |}.

(** Data as a page with a description, a cost, one way of admission
    and two questions, one of them without an answer, would give. *)
Definition sample : ProgramData :=
  {| description := Some (u8 "Программа готовит инженеров.");
     cost := Some (u8 "599 000 ₽"); duration := None;
     form := Some (u8 "очная");
     features := []; directions := [];
     methods := [{| title := Some (u8 "Экзамен");
                    method_description := Some (u8 "Письменный экзамен.") |}];
     career_description := None; partners := [u8 "X5"; u8 "Ozon"];
     faq := [{| question := Some (u8 "Есть ли общежитие?");
                faq_answer := None |};
             {| question := Some (u8 "Когда подавать?");
                faq_answer := Some (u8 "Летом.") |}] |}.

End Parser.

(** * Properties *)

(** ** Strings *)

Lemma texts_differ (a b : str) : bool_decide (a = b) = false -> a <> b.
Proof. intros H E. apply bool_decide_eq_false in H. contradiction. Qed.

Lemma recommendation_ai_not_product : recommendation_ai <> recommendation_ai_product.
Proof. apply texts_differ. vm_compute. reflexivity. Qed.

Lemma recommendation_ai_not_both : recommendation_ai <> recommendation_both.
Proof. apply texts_differ. vm_compute. reflexivity. Qed.

Lemma recommendation_product_not_both : recommendation_ai_product <> recommendation_both.
Proof. apply texts_differ. vm_compute. reflexivity. Qed.

(** ** Recommendation scorer *)

Lemma recommend_program_unfold (bg : dict) :
  recommend_program bg =
  if fst (scores bg) >? snd (scores bg) then recommendation_ai
  else if snd (scores bg) >? fst (scores bg) then recommendation_ai_product
  else recommendation_both.
Proof. unfold recommend_program. destruct (scores bg); reflexivity. Qed.

Lemma scores_profile (p : UserProfile) :
  scores (profile_dict p) = (table_score_A p, table_score_B p).
Proof.
  destruct p as [[] [] [] [] []]; vm_compute; reflexivity.
Qed.

(** C2: on a profile of five booleans the scorer computes the two
    sums of the weight table, returns the first programme's text
    exactly when score A is greater, the second programme's text
    exactly when score B is greater and the tie text exactly when the
    scores are equal; the technical profile scores 4 against 2 and
    gets programme A, the all-false profile scores 0 against 0 and
    gets the tie text. *)
Theorem recommend_program_weight_table :
  (forall p : UserProfile,
     scores (profile_dict p) = (table_score_A p, table_score_B p)
     /\ (recommend_program (profile_dict p) = recommendation_ai
         <-> table_score_A p > table_score_B p)
     /\ (recommend_program (profile_dict p) = recommendation_ai_product
         <-> table_score_B p > table_score_A p)
     /\ (recommend_program (profile_dict p) = recommendation_both
         <-> table_score_A p = table_score_B p))
  /\ scores (profile_dict profile_technical) = (4, 2)
  /\ recommend_program (profile_dict profile_technical) = recommendation_ai
  /\ scores (profile_dict profile_all_false) = (0, 0)
  /\ recommend_program (profile_dict profile_all_false) = recommendation_both.
Proof.
  split.
  - intros p. split; [apply scores_profile|].
    rewrite recommend_program_unfold, scores_profile.
    change (fst (table_score_A p, table_score_B p)) with (table_score_A p).
    change (snd (table_score_A p, table_score_B p)) with (table_score_B p).
    pose proof recommendation_ai_not_product as Hab.
    pose proof recommendation_ai_not_both as Hac.
    pose proof recommendation_product_not_both as Hbc.
    generalize dependent recommendation_ai.
    generalize dependent recommendation_ai_product.
    generalize dependent recommendation_both.
    intros tie prod Hbc ai Hab Hac.
    destruct (Z.gtb_spec (table_score_A p) (table_score_B p)) as [Hgt|Hle];
      [|destruct (Z.gtb_spec (table_score_B p) (table_score_A p)) as [Hgt'|Hle']].
    + split; [|split]; (split; [intros E|intros L]); try lia; congruence.
    + split; [|split]; (split; [intros E|intros L]); try lia; congruence.
    + split; [|split]; (split; [intros E|intros L]); try lia; congruence.
  - split; [|split; [|split]]; vm_compute; reflexivity.
Qed.

(** ** Partial profiles *)

Lemma all_false_lookup (key : str) (v : pyval) :
  profile_dict profile_all_false !! key = Some v -> v = VBool false.
Proof.
  unfold profile_dict. intros H.
  repeat (apply lookup_insert_Some in H as [[_ <-]|[_ H]]; [reflexivity|]).
  rewrite lookup_empty in H. discriminate.
Qed.

Lemma flag_absent (bg : dict) (key : string) :
  bg !! u8 key = None -> flag bg key = false.
Proof. intros H. unfold flag, dict_get. rewrite H. reflexivity. Qed.

Lemma flag_union_all_false (bg : dict) (key : string) :
  flag (bg ∪ profile_dict profile_all_false) key = flag bg key.
Proof.
  unfold flag, dict_get. rewrite lookup_union.
  destruct (bg !! u8 key) as [v|] eqn:Hbg.
  - destruct (profile_dict profile_all_false !! u8 key); reflexivity.
  - destruct (profile_dict profile_all_false !! u8 key) as [w|] eqn:Hd;
      [|reflexivity].
    apply all_false_lookup in Hd. subst w. reflexivity.
Qed.

(** C9: the scorer and the elective suggestions are defined on every
    dictionary, and a factor key that is absent counts as false:
    completing a profile with [False] for its absent keys changes
    neither the scores, nor the recommendation, nor the suggestions;
    the profile with no keys scores 0 for both programmes and gets the
    tie text. *)
Theorem absent_factors_count_as_false :
  (forall bg : dict,
     scores (bg ∪ profile_dict profile_all_false) = scores bg
     /\ recommend_program (bg ∪ profile_dict profile_all_false)
        = recommend_program bg
     /\ forall program : str,
          get_disciplines_recommendation program
            (bg ∪ profile_dict profile_all_false)
          = get_disciplines_recommendation program bg)
  /\ scores (∅ : dict) = (0, 0)
  /\ recommend_program (∅ : dict) = recommendation_both.
Proof.
  split; [|split; vm_compute; reflexivity].
  intros bg.
  assert (Hs : scores (bg ∪ profile_dict profile_all_false) = scores bg).
  { unfold scores. rewrite !flag_union_all_false. reflexivity. }
  split; [exact Hs|]. split.
  - unfold recommend_program. rewrite Hs. reflexivity.
  - intros program. unfold get_disciplines_recommendation.
    rewrite !flag_union_all_false. reflexivity.
Qed.

(** ** Elective suggestions *)

Lemma ai_product_is_not_ai : u8 "ai_product" <> u8 "ai".
Proof. apply texts_differ. vm_compute. reflexivity. Qed.

Lemma product_block_prefix (bg : dict) :
  line_358 `prefix_of` get_disciplines_recommendation (u8 "ai_product") bg.
Proof.
  unfold get_disciplines_recommendation.
  destruct (decide (u8 "ai_product" = u8 "ai")) as [E|_];
    [destruct (ai_product_is_not_ai E)|].
  repeat apply prefix_app_r.
  destruct (flag bg "product_experience"), (negb (flag bg "ml_knowledge")),
    (flag bg "management_interest");
    repeat apply prefix_app_r; reflexivity.
Qed.

(** C10: the elective suggestions never reject their program
    argument: for every program other than the string [ai] the result
    is the one computed for [ai_product], the block that starts with
    the header of the second programme. *)
Theorem get_disciplines_recommendation_other_program
    (program : str) (bg : dict) :
  program <> u8 "ai" ->
  get_disciplines_recommendation program bg
  = get_disciplines_recommendation (u8 "ai_product") bg
  /\ line_358 `prefix_of` get_disciplines_recommendation program bg
  /\ contains (u8 "Управление ИИ-продуктами") line_358 = true.
Proof.
  intros Hne.
  assert (E : get_disciplines_recommendation program bg
              = get_disciplines_recommendation (u8 "ai_product") bg).
  { unfold get_disciplines_recommendation.
    destruct (decide (program = u8 "ai")) as [E|_]; [contradiction|].
    destruct (decide (u8 "ai_product" = u8 "ai")) as [E|_];
      [destruct (ai_product_is_not_ai E)|reflexivity]. }
  split; [exact E|]. split.
  - rewrite E. apply product_block_prefix.
  - vm_compute. reflexivity.
Qed.

Lemma get_disciplines_recommendation_other_program_witness :
  get_disciplines_recommendation (u8 "robotics") ∅
  = get_disciplines_recommendation (u8 "ai_product") ∅
  /\ line_358 `prefix_of` get_disciplines_recommendation (u8 "robotics") ∅
  /\ contains (u8 "Управление ИИ-продуктами") line_358 = true.
Proof.
  apply (get_disciplines_recommendation_other_program (u8 "robotics") ∅).
  apply texts_differ. vm_compute. reflexivity.
Defined.

(** ** Ranking *)

Section Ranking.
Variable s : nat -> Z.

Lemma insert_ranked_perm (i : nat) (l : list nat) :
  insert_ranked s i l ≡ₚ i :: l.
Proof.
  induction l as [|j l IH]; simpl; [reflexivity|].
  destruct (s i <? s j); [|reflexivity].
  rewrite IH. apply Permutation_swap.
Qed.

Lemma insert_ranked_descending (i : nat) (l : list nat) :
  StronglySorted (fun a b => s b <= s a) l ->
  StronglySorted (fun a b => s b <= s a) (insert_ranked s i l).
Proof.
  induction l as [|j l IH]; simpl; intros Hs.
  - constructor; constructor.
  - apply StronglySorted_inv in Hs as [Hs Hj].
    destruct (Z.ltb_spec (s i) (s j)) as [Hlt|Hge].
    + constructor; [apply IH; assumption|].
      rewrite insert_ranked_perm. constructor; [lia|assumption].
    + constructor; [constructor; assumption|].
      constructor; [exact Hge|].
      eapply Forall_impl; [exact Hj|].
      intros k Hk. cbn beta in Hk. lia.
Qed.

Lemma rank_perm (l : list nat) : rank s l ≡ₚ l.
Proof.
  induction l as [|i l IH]; simpl; [reflexivity|].
  rewrite insert_ranked_perm, IH. reflexivity.
Qed.

Lemma rank_descending (l : list nat) :
  StronglySorted (fun a b => s b <= s a) (rank s l).
Proof.
  induction l as [|i l IH]; simpl; [constructor|].
  apply insert_ranked_descending, IH.
Qed.

End Ranking.

Lemma strongly_sorted_app_inv {A} (R : A -> A -> Prop) (l1 l2 : list A) :
  StronglySorted R (l1 ++ l2) ->
  StronglySorted R l1 /\ forall x y, x ∈ l1 -> y ∈ l2 -> R x y.
Proof.
  induction l1 as [|a l1 IH]; simpl; intros Hs.
  - split; [constructor|]. intros x y Hx. inversion Hx.
  - apply StronglySorted_inv in Hs as [Hs Ha].
    destruct (IH Hs) as [Hs1 Hcross].
    apply Forall_app in Ha as [Ha1 Ha2].
    split; [constructor; assumption|].
    intros x y Hx Hy. apply elem_of_cons in Hx as [->|Hx].
    + rewrite Forall_forall in Ha2. apply Ha2, Hy.
    + apply Hcross; assumption.
Qed.

(** The exact search of the worked examples keeps what the index
    library documents. *)
Lemma flat_search_exact {Vec} (env : Externals Vec) :
  search env = flat_search (inner_product env) -> exact_search env.
Proof.
  intros Hsearch xb q k indices Hk Hs. rewrite Hsearch in Hs.
  unfold flat_search in Hs. injection Hs as <-.
  change (fun i : nat => match xb !! i with
                         | Some v => inner_product env q v
                         | None => 0
                         end) with (score_of env xb q).
  set (s := score_of env xb q).
  set (ranked := rank s (reverse (seq 0 (length xb)))).
  assert (Hperm : ranked ≡ₚ seq 0 (length xb)).
  { unfold ranked. rewrite rank_perm. apply reverse_Permutation. }
  assert (Hsorted : StronglySorted (fun a b => s b <= s a) ranked)
    by apply rank_descending.
  assert (Hlen : length ranked = length xb).
  { rewrite Hperm. apply length_seq. }
  rewrite <- (take_drop (Z.to_nat k) ranked) in Hsorted, Hperm.
  apply strongly_sorted_app_inv in Hsorted as [Hs1 Hcross].
  exists (take (Z.to_nat k) ranked).
  split; [reflexivity|]. split; [|split; [|split; [|split]]].
  - assert (Hnd : NoDup (take (Z.to_nat k) ranked ++ drop (Z.to_nat k) ranked)).
    { rewrite Hperm. apply NoDup_seq. }
    apply NoDup_app in Hnd as [Hnd _]. exact Hnd.
  - rewrite length_take, Hlen. reflexivity.
  - apply Forall_forall. intros i Hi.
    assert (Hin : i ∈ seq 0 (length xb)).
    { rewrite <- Hperm. apply elem_of_app. left. exact Hi. }
    apply elem_of_seq in Hin. lia.
  - exact Hs1.
  - intros i j Hi Hj Hnot. apply Hcross; [exact Hi|].
    assert (Hin : j ∈ take (Z.to_nat k) ranked ++ drop (Z.to_nat k) ranked).
    { rewrite Hperm. apply elem_of_seq. lia. }
    apply elem_of_app in Hin as [Hin|Hin]; [contradiction|exact Hin].
Qed.

Lemma demo_search_exact : exact_search Demo.env.
Proof. apply flat_search_exact. reflexivity. Qed.

Lemma demo_offline_synced : index_synced Demo.env Demo.offline.
Proof. reflexivity. Qed.

(** ** Retriever *)

Lemma getitem_position {A} (l : list A) (i : nat) (a : A) :
  l !! i = Some a -> getitem l (Z.of_nat i) = Return a.
Proof.
  intros H. pose proof (lookup_lt_Some _ _ _ H) as Hlt.
  unfold getitem.
  destruct (Z.ltb_spec (Z.of_nat i) 0) as [Hneg|_]; [lia|].
  destruct (Z.leb_spec 0 (Z.of_nat i)) as [_|Hneg]; [|lia].
  destruct (Z.ltb_spec (Z.of_nat i) (Z.of_nat (length l))) as [_|Hge]; [|lia].
  simpl. rewrite Nat2Z.id, H. reflexivity.
Qed.

Lemma collect_padding (kb : list KnowledgeEntry) (pad : nat)
    (results : list KnowledgeEntry) :
  collect kb (replicate pad (-1)) results = Return results.
Proof. induction pad as [|pad IH]; simpl; [reflexivity|exact IH]. Qed.

Lemma collect_labels (kb : list KnowledgeEntry) (ids : list nat) (pad : nat)
    (results : list KnowledgeEntry) :
  Forall (fun i => (i < length kb)%nat) ids ->
  exists items,
    collect kb (map Z.of_nat ids ++ replicate pad (-1)) results
    = Return (results ++ items)
    /\ Forall2 (fun item i => kb !! i = Some item) items ids.
Proof.
  revert results. induction ids as [|i ids IH]; intros results Hlt; simpl.
  - exists []. rewrite collect_padding, app_nil_r. split; constructor.
  - apply Forall_cons in Hlt as [Hi Hlt].
    destruct (lookup_lt_is_Some_2 kb i Hi) as [item Hitem].
    destruct (Z.eqb_spec (Z.of_nat i) (-1)) as [Hneg|_]; [lia|]. simpl.
    rewrite (getitem_position _ _ _ Hitem).
    destruct (IH (results ++ [item]) Hlt) as (items & Hc & Hf).
    exists (item :: items). rewrite Hc, <- app_assoc. simpl.
    split; [reflexivity|]. constructor; assumption.
Qed.

Lemma lookup_positions {A} (l : list A) (d : A) :
  map (fun i => nth i l d) (seq 0 (length l)) = l.
Proof.
  apply list_eq. intros i.
  change (map (fun i => nth i l d) (seq 0 (length l)))
    with ((fun i => nth i l d) <$> seq 0 (length l)).
  rewrite list_lookup_fmap.
  destruct (Nat.lt_ge_cases i (length l)) as [Hlt|Hge].
  - rewrite lookup_seq_lt by exact Hlt. simpl.
    destruct (lookup_lt_is_Some_2 l i Hlt) as [a Ha].
    rewrite Ha. f_equal. apply nth_lookup_Some with (d := d) in Ha. exact Ha.
  - rewrite lookup_seq_ge by exact Hge. simpl.
    symmetry. apply lookup_ge_None_2. exact Hge.
Qed.

Lemma entries_at_all_positions {A} (l items : list A) (ids : list nat) :
  Forall2 (fun item i => l !! i = Some item) items ids ->
  ids ≡ₚ seq 0 (length l) ->
  items ≡ₚ l.
Proof.
  intros Hf Hp. destruct l as [|d l'].
  - apply Permutation_nil_r in Hp. subst ids.
    apply Forall2_nil_inv_r in Hf. subst items. reflexivity.
  - set (l := d :: l') in *.
    assert (E : items = map (fun i => nth i l d) ids).
    { clear Hp. induction Hf as [|item i items ids Hi _ IH]; simpl; [reflexivity|].
      f_equal.
      - symmetry. apply nth_lookup_Some with (d := d) in Hi. exact Hi.
      - apply IH. }
    rewrite E.
    transitivity (map (fun i => nth i l d) (seq 0 (length l))).
    + apply Permutation_map. exact Hp.
    + rewrite lookup_positions. reflexivity.
Qed.

Section RetrieverFacts.
Context {Vec : Type} (env : Externals Vec).

(** The outcome of [retrieve_relevant_info], case by case. *)
Lemma retrieve_relevant_info_unfold (query : str) (k : Z) (b : Bot Vec) :
  retrieve_relevant_info env query k b
  = (match embed env query with
     | None => Raise LibraryError
     | Some query_embedding =>
       match index_search env (index b) query_embedding k with
       | Raise e => Raise e
       | Return indices => collect (knowledge_base b) indices []
       end
     end, log_event (EvRetrieve query k) b).
Proof.
  unfold retrieve_relevant_info, bind, log, get, ret, raise. cbn beta iota.
  destruct (embed env query) as [v|]; [|reflexivity].
  destruct (index_search env _ v k) as [indices|e]; [|reflexivity].
  cbn [knowledge_base log_event].
  destruct (collect _ indices []); reflexivity.
Qed.

(** An index built from the knowledge base holds one vector per
    entry, and there is at least one. *)
Lemma index_synced_length (b : Bot Vec) :
  index_synced env b ->
  length (index b) = length (knowledge_base b)
  /\ (0 < length (knowledge_base b))%nat.
Proof.
  unfold index_synced, create_faiss_index. cbn zeta.
  destruct (mapM (embed env) (map text (knowledge_base b)))
    as [[|row rows]|] eqn:Hm; try discriminate.
  intros [= <-]. apply length_mapM in Hm.
  rewrite length_map in Hm. rewrite Hm. cbn [length]. lia.
Qed.

(** What a search that returns gives [retrieve_relevant_info]: the
    entries at the labelled positions, in the order of the labels. *)
Lemma search_results (b : Bot Vec) (v : Vec) (k : Z) (indices : list Z) :
  exact_search env ->
  index_synced env b ->
  0 < k ->
  search env (index b) v k = Some indices ->
  exists (ids : list nat) (results : list KnowledgeEntry),
    collect (knowledge_base b) indices [] = Return results
    /\ Forall2 (fun item i => knowledge_base b !! i = Some item) results ids
    /\ NoDup ids
    /\ length ids = Nat.min (Z.to_nat k) (length (knowledge_base b))
    /\ StronglySorted
         (fun i j => score_of env (index b) v j <= score_of env (index b) v i)
         ids
    /\ (forall i j, i ∈ ids -> (j < length (knowledge_base b))%nat ->
        j ∉ ids ->
        score_of env (index b) v j <= score_of env (index b) v i).
Proof.
  intros Hexact Hsync Hk Hs.
  destruct (index_synced_length b Hsync) as [Hn _].
  destruct (Hexact _ _ _ _ Hk Hs)
    as (ids & -> & Hnd & Hlen & Hlt & Hsorted & Hcross).
  rewrite Hn in Hlen, Hlt, Hcross.
  destruct (collect_labels (knowledge_base b) ids
              (Z.to_nat k - length ids) [] Hlt) as (items & Hc & Hf).
  exists ids, items. auto 10.
Qed.

Lemma positions_all (ids : list nat) (n : nat) :
  NoDup ids -> Forall (fun i => (i < n)%nat) ids -> length ids = n ->
  ids ≡ₚ seq 0 n.
Proof.
  intros Hnd Hlt Hlen. apply submseteq_length_Permutation.
  - apply NoDup_submseteq; [exact Hnd|].
    intros i Hi. rewrite Forall_forall in Hlt.
    apply elem_of_seq. specialize (Hlt i Hi). lia.
  - rewrite length_seq. lia.
Qed.

End RetrieverFacts.

(** C1 as amended: with the index built from the knowledge base and
    an index library that searches exactly, a query that the embedder
    takes and a [k >= 1] for which the search returns get exactly [k]
    entries when the corpus holds at least [k] entries and all corpus
    entries when it holds fewer; the returned entries are those at
    the positions [ids] of the labels, in the order of the labels:
    descending by similarity score, every position left out scoring
    no higher than any position returned.  The order among equal
    scores is the one the library gives.  For [k <= 0] the search
    raises an assertion error. *)
Theorem retrieve_relevant_info_top_k {Vec} (env : Externals Vec)
    (b : Bot Vec) (query : str) (k : Z) (query_embedding : Vec)
    (indices : list Z) :
  exact_search env ->
  index_synced env b ->
  embed env query = Some query_embedding ->
  0 < k ->
  search env (index b) query_embedding k = Some indices ->
  (exists (ids : list nat) (results : list KnowledgeEntry),
     retrieve_relevant_info env query k b
     = (Return results, log_event (EvRetrieve query k) b)
     /\ indices
        = map Z.of_nat ids ++ replicate (Z.to_nat k - length ids) (-1)
     /\ Forall2 (fun item i => knowledge_base b !! i = Some item) results ids
     /\ (k <= Z.of_nat (length (knowledge_base b)) ->
         Z.of_nat (length results) = k)
     /\ (Z.of_nat (length (knowledge_base b)) < k ->
         length results = length (knowledge_base b)
         /\ results ≡ₚ knowledge_base b)
     /\ StronglySorted
          (fun i j => similarity env b query j <= similarity env b query i)
          ids
     /\ (forall i j, i ∈ ids -> (j < length (knowledge_base b))%nat ->
         j ∉ ids -> similarity env b query j <= similarity env b query i))
  /\ (forall k', k' <= 0 ->
        retrieve_relevant_info env query k' b
        = (Raise AssertionError, log_event (EvRetrieve query k') b)).
Proof.
  intros Hexact Hsync Hv Hk Hs. split.
  - destruct (index_synced_length env b Hsync) as [Hn _].
    destruct (Hexact _ _ _ _ Hk Hs)
      as (ids & E & Hnd & Hlen & Hlt & Hsorted & Hcross).
    rewrite Hn in Hlen, Hlt, Hcross.
    destruct (collect_labels (knowledge_base b) ids
                (Z.to_nat k - length ids) [] Hlt) as (items & Hc & Hf).
    rewrite <- E in Hc. cbn [app] in Hc.
    assert (Hli : length items = length ids) by (eapply Forall2_length; eauto).
    exists ids, items.
    split; [|split; [exact E|split; [exact Hf|split; [|split; [|split]]]]].
    + rewrite retrieve_relevant_info_unfold, Hv. unfold index_search.
      destruct (Z.leb_spec k 0) as [Hle|_]; [lia|].
      rewrite Hs, Hc. reflexivity.
    + intros Hle. rewrite Hli, Hlen. lia.
    + intros Hgt. assert (Hall : length ids = length (knowledge_base b))
        by (rewrite Hlen; lia).
      split; [rewrite Hli; exact Hall|].
      eapply entries_at_all_positions; [exact Hf|].
      apply positions_all; assumption.
    + unfold similarity. rewrite Hv. exact Hsorted.
    + unfold similarity. rewrite Hv. exact Hcross.
  - intros k' Hle. rewrite retrieve_relevant_info_unfold, Hv.
    unfold index_search.
    destruct (Z.leb_spec k' 0) as [_|Hgt]; [reflexivity|lia].
Qed.

Lemma retrieve_relevant_info_top_k_witness :
  (exists (ids : list nat) (results : list KnowledgeEntry),
     retrieve_relevant_info Demo.env (u8 "xx") 7 Demo.offline
     = (Return results, log_event (EvRetrieve (u8 "xx") 7) Demo.offline)
     /\ [3; 2; 1; 0; 4; -1; -1]
        = map Z.of_nat ids ++ replicate (Z.to_nat 7 - length ids) (-1)
     /\ Forall2 (fun item i => knowledge_base Demo.offline !! i = Some item)
          results ids
     /\ (7 <= Z.of_nat (length (knowledge_base Demo.offline)) ->
         Z.of_nat (length results) = 7)
     /\ (Z.of_nat (length (knowledge_base Demo.offline)) < 7 ->
         length results = length (knowledge_base Demo.offline)
         /\ results ≡ₚ knowledge_base Demo.offline)
     /\ StronglySorted
          (fun i j => similarity Demo.env Demo.offline (u8 "xx") j
                      <= similarity Demo.env Demo.offline (u8 "xx") i)
          ids
     /\ (forall i j, i ∈ ids ->
         (j < length (knowledge_base Demo.offline))%nat ->
         j ∉ ids ->
         similarity Demo.env Demo.offline (u8 "xx") j
         <= similarity Demo.env Demo.offline (u8 "xx") i))
  /\ (forall k', k' <= 0 ->
        retrieve_relevant_info Demo.env (u8 "xx") k' Demo.offline
        = (Raise AssertionError,
           log_event (EvRetrieve (u8 "xx") k') Demo.offline)).
Proof.
  apply (retrieve_relevant_info_top_k Demo.env Demo.offline (u8 "xx") 7 2
           [3; 2; 1; 0; 4; -1; -1]).
  - apply demo_search_exact.
  - reflexivity.
  - reflexivity.
  - lia.
  - vm_compute. reflexivity.
Defined.

(** The claim C1 as stated fails twice.  For [k = 0] the search raises
    where the claim has it return no entry.  And an exact search need
    not break ties in corpus order: the entries at positions 2 and 3
    score the same for the query [xx], and the one at position 3 is
    returned first. *)
Lemma retrieve_relevant_info_top_k_counterexample :
  exact_search Demo.env
  /\ index_synced Demo.env Demo.offline
  /\ fst (retrieve_relevant_info Demo.env (u8 "xx") 0 Demo.offline)
     = Raise AssertionError
  /\ fst (retrieve_relevant_info Demo.env (u8 "xx") 3 Demo.offline)
     = Return [Demo.entry "dd"; Demo.entry "cc"; Demo.entry "b"]
  /\ knowledge_base Demo.offline !! 2%nat = Some (Demo.entry "cc")
  /\ knowledge_base Demo.offline !! 3%nat = Some (Demo.entry "dd")
  /\ similarity Demo.env Demo.offline (u8 "xx") 2
     = similarity Demo.env Demo.offline (u8 "xx") 3
  /\ ~ ranks_before (similarity Demo.env Demo.offline (u8 "xx")) 3 2.
Proof.
  split; [apply demo_search_exact|].
  split; [reflexivity|].
  split; [vm_compute; reflexivity|].
  split; [vm_compute; reflexivity|].
  split; [reflexivity|].
  split; [reflexivity|].
  split; [vm_compute; reflexivity|].
  unfold ranks_before.
  replace (similarity Demo.env Demo.offline (u8 "xx") 2) with 0
    by (vm_compute; reflexivity).
  replace (similarity Demo.env Demo.offline (u8 "xx") 3) with 0
    by (vm_compute; reflexivity).
  lia.
Qed.

(** ** Strings: stripping and containment *)

Lemma lstrip_length (s : str) : (length (lstrip s) <= length s)%nat.
Proof.
  induction s as [|c s IH]; simpl; [lia|].
  destruct (is_space c); simpl; lia.
Qed.

Lemma strip_length (s : str) : (length (strip s) <= length s)%nat.
Proof.
  unfold strip, rstrip. rewrite length_reverse.
  etransitivity; [apply lstrip_length|].
  rewrite length_reverse. apply lstrip_length.
Qed.

Lemma starts_with_spec (p s : str) :
  starts_with p s = true <-> exists post, s = p ++ post.
Proof.
  revert s. induction p as [|a p IH]; intros s; simpl.
  - split; [intros _; exists s; reflexivity|reflexivity].
  - destruct s as [|c s].
    + split; [discriminate|intros [post H]; discriminate].
    + rewrite andb_true_iff, N.eqb_eq, IH. split.
      * intros [-> [post ->]]. exists post. reflexivity.
      * intros [post H]. injection H as -> ->. split; [reflexivity|eauto].
Qed.

Lemma contains_spec (p s : str) :
  contains p s = true <-> exists pre post, s = pre ++ p ++ post.
Proof.
  induction s as [|c s IH].
  - change (contains p []) with (starts_with p [] || false).
    rewrite orb_false_r, starts_with_spec. split.
    + intros [post H]. exists [], post. exact H.
    + intros (pre & post & H). destruct pre; [|discriminate].
      exists post. exact H.
  - change (contains p (c :: s))
      with (starts_with p (c :: s) || contains p s).
    rewrite orb_true_iff, starts_with_spec, IH. split.
    + intros [[post H]|(pre & post & H)].
      * exists [], post. exact H.
      * exists (c :: pre), post. rewrite H. reflexivity.
    + intros (pre & post & H). destruct pre as [|c' pre].
      * left. exists post. exact H.
      * right. injection H as _ H. exists pre, post. exact H.
Qed.

(** ** Response generator *)

Section GeneratorFacts.
Context {Vec : Type} (env : Externals Vec).

(** What a run of the local generator does to the chatbot object. *)
Lemma use_fallback_model_effect (prompt : str) (b : Bot Vec) :
  let r := _use_fallback_model env prompt b in
  used_tokens (snd r) = used_tokens b
  /\ max_tokens_per_month (snd r) = max_tokens_per_month b
  /\ claude_client (snd r) = claude_client b
  /\ (exists evs, trace (snd r) = trace b ++ evs /\ evs <> []
                  /\ Forall (local_event prompt) evs)
  /\ match fst r with
     | Return s => (length s <= 1000)%nat
     | Raise e => e = FallbackError
     end.
Proof.
  unfold _use_fallback_model, bind, get, now, log, modify, ret, raise.
  cbn beta iota.
  destruct (fallback_model b) eqn:Hloaded; cbn beta iota.
  - destruct (llama_generate env (length (trace b)) prompt) as [response|];
      cbn; (split; [reflexivity|split; [reflexivity|split; [reflexivity|split]]]).
    + exists [EvFallback prompt]. split; [reflexivity|split; [discriminate|]].
      constructor; [right; reflexivity|constructor].
    + etransitivity; [apply strip_length|]. rewrite length_take. lia.
    + exists [EvFallback prompt]. split; [reflexivity|split; [discriminate|]].
      constructor; [right; reflexivity|constructor].
    + reflexivity.
  - destruct (llama_load env (length (trace b))); cbn.
    + destruct (llama_generate env (length (trace b ++ [EvLoad])) prompt)
        as [response|];
        cbn; (split; [reflexivity|split; [reflexivity|split; [reflexivity|split]]]).
      * exists [EvLoad; EvFallback prompt]. rewrite <- app_assoc.
        split; [reflexivity|split; [discriminate|]].
        constructor; [left; reflexivity|].
        constructor; [right; reflexivity|constructor].
      * etransitivity; [apply strip_length|]. rewrite length_take. lia.
      * exists [EvLoad; EvFallback prompt]. rewrite <- app_assoc.
        split; [reflexivity|split; [discriminate|]].
        constructor; [left; reflexivity|].
        constructor; [right; reflexivity|constructor].
      * reflexivity.
    + split; [reflexivity|split; [reflexivity|split; [reflexivity|split]]].
      * exists [EvLoad]. split; [reflexivity|split; [discriminate|]].
        constructor; [left; reflexivity|constructor].
      * reflexivity.
Qed.

End GeneratorFacts.

Section GenerateFacts.
Context {Vec : Type} (env : Externals Vec).

Lemma fallback_path_effect (prompt : str) (b : Bot Vec) :
  let r := fallback_path env prompt b in
  used_tokens (snd r) = used_tokens b
  /\ (exists evs, trace (snd r) = trace b ++ evs /\ evs <> []
                  /\ Forall (local_event prompt) evs)
  /\ match fst r with
     | Return s => (length s <= 1000)%nat
     | Raise e => e = FallbackError
     end.
Proof.
  unfold fallback_path, try_except.
  pose proof (use_fallback_model_effect env prompt b) as H1.
  destruct (_use_fallback_model env prompt b) as [[s|e] b1] eqn:E1;
    cbn [fst snd] in H1;
    destruct H1 as (Hu & _ & _ & (evs & Ht & Hne & Hev) & Hr); cbn [fst snd].
  - split; [exact Hu|]. split; [|exact Hr]. exists evs. auto.
  - pose proof (use_fallback_model_effect env prompt b1) as H2.
    destruct (_use_fallback_model env prompt b1) as [r2 b2] eqn:E2.
    cbn [fst snd] in H2.
    destruct H2 as (Hu2 & _ & _ & (evs2 & Ht2 & _ & Hev2) & Hr2).
    cbn [fst snd]. split; [congruence|]. split; [|exact Hr2].
    exists (evs ++ evs2). rewrite Ht2, Ht, app_assoc.
    split; [reflexivity|]. split.
    + destruct evs; [congruence|discriminate].
    + apply Forall_app. auto.
Qed.

(** The three ways through [generate_response]. *)
Lemma generate_response_unfold (query : str) (context : list KnowledgeEntry)
    (b : Bot Vec) :
  generate_response env query context b =
  let b0 := log_event (EvGenerate query context) b in
  let prompt := build_prompt query context in
  if primary_available b then
    match primary_reply env b query context with
    | Some completion =>
      (Return completion,
       set_used_tokens
         (used_tokens b + (word_count prompt + word_count completion))
         (log_event (EvPrimary prompt) b0))
    | None => _use_fallback_model env prompt (log_event (EvPrimary prompt) b0)
    end
  else fallback_path env prompt b0.
Proof.
  unfold generate_response, primary_reply, primary_completion, fallback_path.
  generalize (build_prompt query context). intros prompt.
  unfold bind, try_except, log, get, now, modify, ret, raise.
  cbn beta iota zeta.
  change (primary_available (log_event (EvGenerate query context) b))
    with (primary_available b).
  destruct (primary_available b); [|reflexivity].
  cbn [trace log_event].
  destruct (claude_create env (length (trace b ++ [EvGenerate query context]))
              prompt) as [[|completion rest]|]; reflexivity.
Qed.

Lemma generate_response_raises_only_fallback (query : str)
    (context : list KnowledgeEntry) (b : Bot Vec) (e : exn) :
  fst (generate_response env query context b) = Raise e -> e = FallbackError.
Proof.
  rewrite generate_response_unfold. cbn zeta.
  destruct (primary_available b).
  - destruct (primary_reply env b query context) as [c|]; [discriminate|].
    intros H.
    pose proof (use_fallback_model_effect env (build_prompt query context)
      (log_event (EvPrimary (build_prompt query context))
         (log_event (EvGenerate query context) b))) as (_ & _ & _ & _ & Hr).
    rewrite H in Hr. exact Hr.
  - intros H.
    pose proof (fallback_path_effect (build_prompt query context)
      (log_event (EvGenerate query context) b)) as (_ & _ & Hr).
    rewrite H in Hr. exact Hr.
Qed.

Lemma generate_response_used_tokens (query : str)
    (context : list KnowledgeEntry) (b : Bot Vec) :
  let r := generate_response env query context b in
  let prompt := build_prompt query context in
  if primary_available b then
    match primary_reply env b query context with
    | Some completion =>
      fst r = Return completion
      /\ used_tokens (snd r)
         = used_tokens b + (word_count prompt + word_count completion)
    | None => used_tokens (snd r) = used_tokens b
    end
  else used_tokens (snd r) = used_tokens b.
Proof.
  cbn zeta. rewrite generate_response_unfold. cbn zeta.
  destruct (primary_available b).
  - destruct (primary_reply env b query context) as [c|].
    + split; reflexivity.
    + pose proof (use_fallback_model_effect env (build_prompt query context)
        (log_event (EvPrimary (build_prompt query context))
           (log_event (EvGenerate query context) b))) as (Hu & _).
      exact Hu.
  - pose proof (fallback_path_effect (build_prompt query context)
      (log_event (EvGenerate query context) b)) as (Hu & _).
    exact Hu.
Qed.

Lemma word_count_nonneg (s : str) : 0 <= word_count s.
Proof. unfold word_count. lia. Qed.

Lemma generate_response_monotone (query : str)
    (context : list KnowledgeEntry) (b : Bot Vec) :
  used_tokens b <= used_tokens (snd (generate_response env query context b)).
Proof.
  pose proof (generate_response_used_tokens query context b) as H.
  cbn zeta in H.
  destruct (primary_available b);
    [destruct (primary_reply env b query context) as [c|]|].
  - destruct H as [_ ->].
    pose proof (word_count_nonneg (build_prompt query context)).
    pose proof (word_count_nonneg c). lia.
  - lia.
  - lia.
Qed.

End GenerateFacts.

(** C4: across every sequence of [generate_response] calls
    [used_tokens] never decreases; one call changes it only when the
    remote model is called and yields a completion, and then adds
    exactly the word count of the prompt plus the word count of the
    completion, which is returned; the local generator leaves it as it
    was, as does every call that takes the fallback path. *)
Theorem used_tokens_accounting {Vec} (env : Externals Vec) :
  (forall (calls : list (str * list KnowledgeEntry)) (b : Bot Vec),
     used_tokens b <= used_tokens (run_generate env calls b))
  /\ (forall (query : str) (context : list KnowledgeEntry) (b : Bot Vec),
        let r := generate_response env query context b in
        let prompt := build_prompt query context in
        used_tokens b <= used_tokens (snd r)
        /\ if primary_available b then
             match primary_reply env b query context with
             | Some completion =>
               fst r = Return completion
               /\ used_tokens (snd r)
                  = used_tokens b + (word_count prompt + word_count completion)
             | None => used_tokens (snd r) = used_tokens b
             end
           else used_tokens (snd r) = used_tokens b)
  /\ (forall (prompt : str) (b : Bot Vec),
        used_tokens (snd (_use_fallback_model env prompt b)) = used_tokens b
        /\ used_tokens (snd (fallback_path env prompt b)) = used_tokens b).
Proof.
  split; [|split].
  - induction calls as [|[query context] calls IH]; intros b; simpl; [lia|].
    etransitivity; [apply (generate_response_monotone env query context)|].
    apply IH.
  - intros query context b. cbn zeta. split.
    + apply generate_response_monotone.
    + apply generate_response_used_tokens.
  - intros prompt b. split.
    + apply (use_fallback_model_effect env prompt b).
    + apply (fallback_path_effect env prompt b).
Qed.

(** C3: when the budget is used up ([used_tokens >= max_tokens_per_month])
    or no client is configured, [generate_response] is the fallback
    path: after its own entry the only calls it makes are those of the
    local generator, at least one of them, and none to the remote
    model. *)
Theorem generate_response_skips_primary {Vec} (env : Externals Vec)
    (query : str) (context : list KnowledgeEntry) (b : Bot Vec) :
  max_tokens_per_month b <= used_tokens b \/ claude_client b = None ->
  generate_response env query context b
  = fallback_path env (build_prompt query context)
      (log_event (EvGenerate query context) b)
  /\ exists evs,
       trace (snd (generate_response env query context b))
       = trace b ++ EvGenerate query context :: evs
       /\ evs <> []
       /\ Forall (local_event (build_prompt query context)) evs
       /\ forall prompt, EvPrimary prompt ∉ evs.
Proof.
  intros Hgate.
  assert (Hoff : primary_available b = false).
  { unfold primary_available. destruct Hgate as [Hq| ->]; [|reflexivity].
    destruct (claude_client b); [|reflexivity].
    apply Z.ltb_ge. exact Hq. }
  rewrite generate_response_unfold. cbn zeta. rewrite Hoff.
  split; [reflexivity|].
  destruct (fallback_path_effect env (build_prompt query context)
              (log_event (EvGenerate query context) b))
    as (_ & (evs & Ht & Hne & Hev) & _).
  exists evs. split; [|split; [exact Hne|split; [exact Hev|]]].
  - rewrite Ht. cbn [trace log_event]. rewrite <- app_assoc. reflexivity.
  - intros prompt Hin. rewrite Forall_forall in Hev.
    destruct (Hev _ Hin) as [H|H]; discriminate.
Qed.

Lemma generate_response_skips_primary_witness :
  generate_response Demo.env (u8 "цена") [Demo.entry "cc"] Demo.exhausted
  = fallback_path Demo.env (build_prompt (u8 "цена") [Demo.entry "cc"])
      (log_event (EvGenerate (u8 "цена") [Demo.entry "cc"]) Demo.exhausted)
  /\ exists evs,
       trace (snd (generate_response Demo.env (u8 "цена") [Demo.entry "cc"]
                     Demo.exhausted))
       = trace Demo.exhausted
         ++ EvGenerate (u8 "цена") [Demo.entry "cc"] :: evs
       /\ evs <> []
       /\ Forall (local_event (build_prompt (u8 "цена") [Demo.entry "cc"])) evs
       /\ forall prompt, EvPrimary prompt ∉ evs.
Proof.
  apply (generate_response_skips_primary Demo.env (u8 "цена")
           [Demo.entry "cc"] Demo.exhausted).
  left. simpl. lia.
Defined.

(** C6: when the remote model is called and the call raises, or its
    response has no content block to read, [generate_response] runs the
    local generator and its outcome is that of the local generator; the
    error of the remote call never reaches the caller. *)
Theorem generate_response_absorbs_primary_failure {Vec} (env : Externals Vec)
    (query : str) (context : list KnowledgeEntry) (b : Bot Vec) :
  primary_available b = true ->
  primary_reply env b query context = None ->
  generate_response env query context b
  = _use_fallback_model env (build_prompt query context)
      (log_event (EvPrimary (build_prompt query context))
         (log_event (EvGenerate query context) b))
  /\ fst (generate_response env query context b) <> Raise ApiError
  /\ fst (generate_response env query context b) <> Raise IndexError.
Proof.
  intros Hon Hfail. split.
  - rewrite generate_response_unfold. cbn zeta. rewrite Hon, Hfail.
    reflexivity.
  - split; intros H;
      apply generate_response_raises_only_fallback in H; discriminate.
Qed.

Lemma generate_response_absorbs_primary_failure_witness :
  generate_response Demo.env_down (u8 "цена") [Demo.entry "cc"] Demo.online
  = _use_fallback_model Demo.env_down
      (build_prompt (u8 "цена") [Demo.entry "cc"])
      (log_event (EvPrimary (build_prompt (u8 "цена") [Demo.entry "cc"]))
         (log_event (EvGenerate (u8 "цена") [Demo.entry "cc"]) Demo.online))
  /\ fst (generate_response Demo.env_down (u8 "цена") [Demo.entry "cc"]
            Demo.online) <> Raise ApiError
  /\ fst (generate_response Demo.env_down (u8 "цена") [Demo.entry "cc"]
            Demo.online) <> Raise IndexError.
Proof.
  apply (generate_response_absorbs_primary_failure Demo.env_down (u8 "цена")
           [Demo.entry "cc"] Demo.online).
  - vm_compute. reflexivity.
  - vm_compute. reflexivity.
Defined.

(** ** Query router *)

Section RouterFacts.
Context {Vec : Type} (env : Externals Vec).

Lemma retrieve_relevant_info_state (query : str) (k : Z) (b : Bot Vec) :
  snd (retrieve_relevant_info env query k b) = log_event (EvRetrieve query k) b.
Proof.
  rewrite retrieve_relevant_info_unfold. reflexivity.
Qed.

Lemma generate_response_trace (query : str) (context : list KnowledgeEntry)
    (b : Bot Vec) :
  exists evs,
    trace (snd (generate_response env query context b))
    = trace b ++ EvGenerate query context :: evs.
Proof.
  rewrite generate_response_unfold. cbn zeta.
  destruct (primary_available b).
  - destruct (primary_reply env b query context) as [c|].
    + exists [EvPrimary (build_prompt query context)].
      cbn [snd trace set_used_tokens log_event].
      rewrite <- app_assoc. reflexivity.
    + destruct (use_fallback_model_effect env (build_prompt query context)
        (log_event (EvPrimary (build_prompt query context))
           (log_event (EvGenerate query context) b)))
        as (_ & _ & _ & (evs & Ht & _) & _).
      exists (EvPrimary (build_prompt query context) :: evs).
      rewrite Ht. cbn [trace log_event]. rewrite <- !app_assoc. reflexivity.
  - destruct (fallback_path_effect env (build_prompt query context)
        (log_event (EvGenerate query context) b)) as (_ & (evs & Ht & _) & _).
    exists evs. rewrite Ht. cbn [trace log_event].
    rewrite <- app_assoc. reflexivity.
Qed.

(** The three ways through [process_query]. *)
Lemma process_query_unfold (query : str) (b : Bot Vec) :
  process_query env query b =
  if is_greeting env query then (Return onboarding_message, b)
  else
    match fst (retrieve_relevant_info env query 5 b) with
    | Return [] => (Return not_found_message, log_event (EvRetrieve query 5) b)
    | Return (item :: items) =>
      generate_response env query (item :: items)
        (log_event (EvRetrieve query 5) b)
    | Raise e => (Raise e, log_event (EvRetrieve query 5) b)
    end.
Proof.
  unfold process_query. destruct (is_greeting env query); [reflexivity|].
  unfold bind.
  pose proof (retrieve_relevant_info_state query 5 b) as Hs.
  destruct (retrieve_relevant_info env query 5 b) as [[[|item items]|e] b1];
    cbn [fst snd] in *; subst b1; reflexivity.
Qed.

Lemma is_greeting_spec (query : str) :
  is_greeting env query = true
  <-> exists greeting pre post,
        greeting ∈ greetings
        /\ str_lower env query = pre ++ greeting ++ post.
Proof.
  unfold is_greeting. rewrite existsb_exists. split.
  - intros (g & Hin & Hc). apply list_elem_of_In in Hin.
    apply contains_spec in Hc as (pre & post & E). eauto.
  - intros (g & pre & post & Hin & E). exists g.
    split; [apply list_elem_of_In; exact Hin|].
    apply contains_spec. eauto.
Qed.

End RouterFacts.

Lemma onboarding_message_nonempty : onboarding_message <> [].
Proof. apply texts_differ. vm_compute. reflexivity. Qed.

Lemma not_found_message_nonempty : not_found_message <> [].
Proof. apply texts_differ. vm_compute. reflexivity. Qed.

(** C5 as amended: [process_query] lowercases the query and tests
    whether one of the greeting and start tokens occurs in it as a
    substring; exactly when one does it returns the onboarding message
    and leaves the chatbot object, its call log included, as it was, so
    neither the retriever nor the generator is invoked; for every other
    query the first call it makes is the retrieval with [k = 5].  With
    the lowercasing of [Demo.env] the query [привет] gets the
    onboarding message. *)
Theorem process_query_greeting :
  (forall Vec (env : Externals Vec) (query : str) (b : Bot Vec),
     (is_greeting env query = true
      <-> exists greeting pre post,
            greeting ∈ greetings
            /\ str_lower env query = pre ++ greeting ++ post)
     /\ (process_query env query b = (Return onboarding_message, b)
         <-> is_greeting env query = true)
     /\ if is_greeting env query
        then process_query env query b = (Return onboarding_message, b)
        else exists evs,
               trace (snd (process_query env query b))
               = trace b ++ EvRetrieve query 5 :: evs)
  /\ (forall b : Bot Z,
        process_query Demo.env (u8 "привет") b
        = (Return onboarding_message, b)).
Proof.
  split.
  - intros Vec env query b. split; [apply is_greeting_spec|].
    assert (Hretr : is_greeting env query = false ->
              exists evs, trace (snd (process_query env query b))
                          = trace b ++ EvRetrieve query 5 :: evs).
    { intros Hg. rewrite process_query_unfold, Hg.
      destruct (fst (retrieve_relevant_info env query 5 b))
        as [[|item items]|e].
      - exists []. reflexivity.
      - destruct (generate_response_trace env query (item :: items)
                    (log_event (EvRetrieve query 5) b)) as [evs Ht].
        exists (EvGenerate query (item :: items) :: evs).
        rewrite Ht. cbn [trace log_event]. rewrite <- app_assoc. reflexivity.
      - exists []. reflexivity. }
    destruct (is_greeting env query) eqn:Hg.
    + assert (E : process_query env query b = (Return onboarding_message, b))
        by (rewrite process_query_unfold, Hg; reflexivity).
      split; [|exact E]. split; [reflexivity|intros _; exact E].
    + split; [|apply Hretr; reflexivity].
      split; [|discriminate].
      intros E. destruct (Hretr eq_refl) as [evs Ht].
      rewrite E in Ht. cbn [snd] in Ht.
      apply (f_equal length) in Ht. rewrite length_app in Ht.
      cbn [length] in Ht. lia.
  - intros b. rewrite process_query_unfold.
    replace (is_greeting Demo.env (u8 "привет")) with true
      by (vm_compute; reflexivity).
    reflexivity.
Qed.

(** The membership reading of C5 fails: the query [restart] is not one
    of the tokens, yet it contains [start], so it gets the onboarding
    message and no retrieval is made. *)
Lemma process_query_greeting_counterexample :
  ~ greeting_token Demo.env (u8 "restart")
  /\ process_query Demo.env (u8 "restart") Demo.offline
     = (Return onboarding_message, Demo.offline).
Proof.
  split.
  - unfold greeting_token. intros H.
    assert (Hd : bool_decide (simple_lower (u8 "restart") ∈ greetings) = true)
      by (apply bool_decide_eq_true; exact H).
    vm_compute in Hd. discriminate.
  - rewrite process_query_unfold.
    replace (is_greeting Demo.env (u8 "restart")) with true
      by (vm_compute; reflexivity).
    reflexivity.
Qed.

(** C7: an empty knowledge base gives no chatbot.  On the empty
    corpus [create_faiss_index] raises [IndexError] before any text is
    embedded, and with it the constructor, whatever the key and the
    limit; an index that was built from the knowledge base therefore
    belongs to a knowledge base with an entry. *)
Theorem empty_knowledge_base_raises {Vec} (env : Externals Vec)
    (api_key : option str) (max_tokens : Z) :
  create_faiss_index env [] = Raise IndexError
  /\ init env api_key max_tokens [] = Raise IndexError
  /\ forall b : Bot Vec, index_synced env b -> knowledge_base b <> [].
Proof.
  split; [reflexivity|]. split; [reflexivity|].
  intros b Hsync Hkb.
  destruct (index_synced_length env b Hsync) as [_ Hpos].
  rewrite Hkb in Hpos. cbn [length] in Hpos. lia.
Qed.

(** C8 as amended: the onboarding and the not-found message are not
    empty, so an answer of [process_query] is empty only when it is
    the output of [generate_response] for the retrieved context and
    that output is empty; the output of the local generator, stripped
    of the echoed prompt, has at most 1000 characters. *)
Theorem process_query_answer_nonempty :
  onboarding_message <> [] /\ not_found_message <> []
  /\ (forall Vec (env : Externals Vec) (query : str) (b : Bot Vec),
        match fst (process_query env query b) with
        | Return answer =>
          answer <> []
          \/ (is_greeting env query = false
              /\ exists context,
                   context <> []
                   /\ fst (retrieve_relevant_info env query 5 b)
                      = Return context
                   /\ fst (generate_response env query context
                             (log_event (EvRetrieve query 5) b))
                      = Return [])
        | Raise e => True
        end)
  /\ (forall Vec (env : Externals Vec) (prompt : str) (b : Bot Vec),
        match fst (_use_fallback_model env prompt b) with
        | Return answer => (length answer <= 1000)%nat
        | Raise e => True
        end).
Proof.
  split; [apply onboarding_message_nonempty|].
  split; [apply not_found_message_nonempty|]. split.
  - intros Vec env query b. rewrite process_query_unfold.
    destruct (is_greeting env query) eqn:Hg.
    + left. apply onboarding_message_nonempty.
    + destruct (fst (retrieve_relevant_info env query 5 b))
        as [[|item items]|e] eqn:Hr.
      * left. apply not_found_message_nonempty.
      * destruct (fst (generate_response env query (item :: items)
                         (log_event (EvRetrieve query 5) b)))
          as [[|c answer]|e] eqn:Hgen; [|left; discriminate|exact I].
        right. split; [reflexivity|].
        exists (item :: items). split; [discriminate|].
        split; [reflexivity|exact Hgen].
      * exact I.
  - intros Vec env prompt b.
    pose proof (use_fallback_model_effect env prompt b) as (_ & _ & _ & _ & H).
    destruct (fst (_use_fallback_model env prompt b)); [exact H|exact I].
Qed.

(** The claim C8 fails where the local model adds nothing to the
    prompt it echoes: the answer is the empty string. *)
Lemma process_query_answer_nonempty_counterexample :
  fst (process_query Demo.env (u8 "цена") Demo.offline) = Return [].
Proof. vm_compute. reflexivity. Qed.

(** ** Worked examples *)

Example u8_decodes_cyrillic :
  u8 "привет" = [1087; 1088; 1080; 1074; 1077; 1090]%N.
Proof. vm_compute. reflexivity. Qed.

Example split_counts_words : word_count (u8 "  два   слова
") = 2.
Proof. vm_compute. reflexivity. Qed.

Example getitem_from_the_end : getitem [10; 20; 30] (-2) = Return 20.
Proof. vm_compute. reflexivity. Qed.

Example getitem_out_of_range : getitem [10; 20; 30] 3 = Raise IndexError.
Proof. vm_compute. reflexivity. Qed.

(** The chatbots of the examples are the ones the constructor gives. *)
Example offline_constructed :
  init Demo.env None 100000 Demo.kb = Return Demo.offline
  /\ init Demo.env (Some (u8 "sk-key")) 100000 Demo.kb = Return Demo.online.
Proof. split; reflexivity. Qed.

(** A corpus with a text that the embedder refuses gives no chatbot. *)
Example init_embedder_fails :
  init Demo.env_short None 100000
    [Demo.entry "aaaa";
     {| id := u8 "long"; text := replicate 1001 120%N; program := u8 "ai";
        type := u8 "general" |}]
  = Raise LibraryError.
Proof. vm_compute. reflexivity. Qed.

(** The two entries of length two tie for the query [xx]; a search for
    seven results finds the row filled up with [-1]. *)
Example index_search_pads :
  index_search Demo.env (index Demo.offline) 2 7
  = Return [3; 2; 1; 0; 4; -1; -1].
Proof. vm_compute. reflexivity. Qed.

Example retrieve_seven :
  fst (retrieve_relevant_info Demo.env (u8 "xx") 7 Demo.offline)
  = Return [Demo.entry "dd"; Demo.entry "cc"; Demo.entry "b";
            Demo.entry "aaaa"; Demo.entry "eeeeeeee"].
Proof. vm_compute. reflexivity. Qed.

(** A query that the embedder refuses: the error reaches the caller of
    [process_query]. *)
Example process_query_embedder_fails :
  fst (process_query Demo.env_short (replicate 1001 120%N) Demo.offline)
  = Raise LibraryError.
Proof. vm_compute. reflexivity. Qed.

(** The prompt for one context entry has 57 words and the completion
    two. *)
Example generate_online :
  let r := generate_response Demo.env (u8 "цена") [Demo.entry "cc"]
             Demo.online in
  fst r = Return (u8 "Выбирайте программу")
  /\ used_tokens (snd r) = 59
  /\ trace (snd r)
     = [EvGenerate (u8 "цена") [Demo.entry "cc"];
        EvPrimary (build_prompt (u8 "цена") [Demo.entry "cc"])].
Proof. vm_compute. repeat split. Qed.

Example generate_exhausted :
  let r := generate_response Demo.env_down (u8 "цена") [Demo.entry "cc"]
             Demo.exhausted in
  fst r = Return (u8 "Обе программы хороши.")
  /\ used_tokens (snd r) = 100000
  /\ trace (snd r)
     = [EvGenerate (u8 "цена") [Demo.entry "cc"]; EvLoad;
        EvFallback (build_prompt (u8 "цена") [Demo.entry "cc"])].
Proof. vm_compute. repeat split. Qed.

Example greeting_in_capitals :
  process_query Demo.env (u8 "ПРИВЕТ, сколько стоит обучение?") Demo.offline
  = (Return onboarding_message, Demo.offline).
Proof. vm_compute. reflexivity. Qed.

(** * Further properties of the engine *)

(** ** The chatbot object across operations *)

Section Evolution.
Context {Vec : Type} (env : Externals Vec).

Lemma primary_available_frame (b b' : Bot Vec) :
  claude_client b' = claude_client b ->
  max_tokens_per_month b' = max_tokens_per_month b ->
  used_tokens b' = used_tokens b ->
  primary_available b' = primary_available b.
Proof. unfold primary_available. intros -> -> ->. reflexivity. Qed.

Lemma evolves_refl (b : Bot Vec) : evolves b b.
Proof.
  unfold evolves. repeat (split; [reflexivity || lia || auto|]).
  exists []. rewrite app_nil_r. split; [reflexivity|].
  split; [intros _ H; inversion H|].
  intros _. split; [reflexivity|]. intros prompt H. inversion H.
Qed.

Lemma evolves_trans (b1 b2 b3 : Bot Vec) :
  evolves b1 b2 -> evolves b2 b3 -> evolves b1 b3.
Proof.
  intros (Hk1 & Hi1 & Ha1 & Hc1 & Hm1 & Hu1 & Hf1 & evs1 & Ht1 & Hl1 & Hp1)
         (Hk2 & Hi2 & Ha2 & Hc2 & Hm2 & Hu2 & Hf2 & evs2 & Ht2 & Hl2 & Hp2).
  unfold evolves.
  split; [congruence|]. split; [congruence|]. split; [congruence|].
  split; [congruence|]. split; [congruence|]. split; [lia|].
  split; [auto|].
  exists (evs1 ++ evs2). split; [rewrite Ht2, Ht1, app_assoc; reflexivity|].
  split.
  - intros Hl Hin. apply elem_of_app in Hin as [Hin|Hin].
    + exact (Hl1 Hl Hin).
    + exact (Hl2 (Hf1 Hl) Hin).
  - intros Hoff. destruct (Hp1 Hoff) as [Hu Hno1].
    assert (Hoff2 : primary_available b2 = false).
    { rewrite (primary_available_frame b1 b2); assumption. }
    destruct (Hp2 Hoff2) as [Hu' Hno2].
    split; [congruence|].
    intros prompt Hin. apply elem_of_app in Hin as [Hin|Hin].
    + exact (Hno1 prompt Hin).
    + exact (Hno2 prompt Hin).
Qed.

Lemma evolves_log (b : Bot Vec) (ev : event) :
  ev <> EvLoad -> (forall prompt, ev <> EvPrimary prompt) ->
  evolves b (log_event ev b).
Proof.
  intros Hl Hp. unfold evolves. cbn [knowledge_base index claude_api_key
    claude_client max_tokens_per_month used_tokens fallback_model trace
    log_event].
  repeat (split; [reflexivity || lia || auto|]).
  exists [ev]. split; [reflexivity|]. split.
  - intros _ Hin. apply list_elem_of_singleton in Hin. congruence.
  - intros _. split; [reflexivity|].
    intros prompt Hin. apply list_elem_of_singleton in Hin.
    symmetry in Hin. exact (Hp prompt Hin).
Qed.

Lemma use_fallback_model_evolves (prompt : str) (b : Bot Vec) :
  evolves b (snd (_use_fallback_model env prompt b)).
Proof.
  unfold _use_fallback_model, bind, get, now, log, modify, ret, raise.
  cbn beta iota.
  destruct (fallback_model b) eqn:Hloaded; cbn beta iota.
  - assert (E : forall r : outcome str * Bot Vec,
              snd r = log_event (EvFallback prompt) b -> evolves b (snd r)).
    { intros r ->. apply evolves_log; [discriminate|discriminate]. }
    apply E.
    destruct (llama_generate env (length (trace b)) prompt); reflexivity.
  - unfold evolves.
    destruct (llama_load env (length (trace b))); cbn beta iota.
    + destruct (llama_generate env _ prompt);
        cbn [snd knowledge_base index claude_api_key claude_client
             max_tokens_per_month used_tokens fallback_model trace
             log_event set_fallback_model];
        (repeat (split; [reflexivity || lia || auto|]));
        exists [EvLoad; EvFallback prompt]; rewrite <- app_assoc;
        (split; [reflexivity|]);
        (split; [intros Hl; rewrite Hloaded in Hl; discriminate|]);
        intros _; (split; [reflexivity|]);
        intros p Hin; apply elem_of_cons in Hin as [Hin|Hin];
        try discriminate;
        apply list_elem_of_singleton in Hin; discriminate.
    + cbn [snd knowledge_base index claude_api_key claude_client
           max_tokens_per_month used_tokens fallback_model trace log_event].
      repeat (split; [reflexivity || lia || auto|]).
      exists [EvLoad]. split; [reflexivity|].
      split; [intros Hl; rewrite Hloaded in Hl; discriminate|].
      intros _. split; [reflexivity|].
      intros p Hin. apply list_elem_of_singleton in Hin. discriminate.
Qed.

Lemma fallback_path_evolves (prompt : str) (b : Bot Vec) :
  evolves b (snd (fallback_path env prompt b)).
Proof.
  unfold fallback_path, try_except.
  pose proof (use_fallback_model_evolves prompt b) as H1.
  destruct (_use_fallback_model env prompt b) as [[s|e] b1];
    cbn [snd] in *; [exact H1|].
  eapply evolves_trans; [exact H1|]. apply use_fallback_model_evolves.
Qed.

Lemma generate_response_evolves (query : str) (context : list KnowledgeEntry)
    (b : Bot Vec) :
  evolves b (snd (generate_response env query context b)).
Proof.
  rewrite generate_response_unfold. cbn zeta.
  set (prompt := build_prompt query context).
  set (b0 := log_event (EvGenerate query context) b).
  assert (H0 : evolves b b0)
    by (apply evolves_log; [discriminate|discriminate]).
  destruct (primary_available b) eqn:Hon.
  - assert (Hlog : forall b1 : Bot Vec,
        knowledge_base b1 = knowledge_base b0 -> index b1 = index b0 ->
        claude_api_key b1 = claude_api_key b0 ->
        claude_client b1 = claude_client b0 ->
        max_tokens_per_month b1 = max_tokens_per_month b0 ->
        used_tokens b <= used_tokens b1 ->
        fallback_model b1 = fallback_model b0 ->
        trace b1 = trace b0 ++ [EvPrimary prompt] ->
        evolves b b1).
    { intros b1 Hk Hi Ha Hc Hm Hu Hf Ht. unfold evolves.
      split; [exact Hk|]. split; [exact Hi|]. split; [exact Ha|].
      split; [exact Hc|]. split; [exact Hm|]. split; [exact Hu|].
      split; [rewrite Hf; auto|].
      exists [EvGenerate query context; EvPrimary prompt].
      split; [rewrite Ht; unfold b0; cbn [trace log_event];
              rewrite <- app_assoc; reflexivity|].
      split.
      - intros _ Hin. apply elem_of_cons in Hin as [Hin|Hin];
          [discriminate|].
        apply list_elem_of_singleton in Hin. discriminate.
      - intros Hoff. rewrite Hon in Hoff. discriminate. }
    destruct (primary_reply env b query context) as [c|].
    + cbn [snd]. apply Hlog; try reflexivity.
      cbn [used_tokens set_used_tokens].
      pose proof (word_count_nonneg prompt).
      pose proof (word_count_nonneg c). lia.
    + eapply evolves_trans; [|apply use_fallback_model_evolves].
      apply Hlog; reflexivity.
  - eapply evolves_trans; [exact H0|]. apply fallback_path_evolves.
Qed.

Lemma retrieve_relevant_info_evolves (query : str) (k : Z) (b : Bot Vec) :
  evolves b (snd (retrieve_relevant_info env query k b)).
Proof.
  rewrite retrieve_relevant_info_state.
  apply evolves_log; [discriminate|discriminate].
Qed.

Lemma process_query_evolves (query : str) (b : Bot Vec) :
  evolves b (snd (process_query env query b)).
Proof.
  rewrite process_query_unfold.
  destruct (is_greeting env query); [apply evolves_refl|].
  assert (H0 : evolves b (log_event (EvRetrieve query 5) b))
    by (apply evolves_log; [discriminate|discriminate]).
  destruct (fst (retrieve_relevant_info env query 5 b)) as [[|item items]|e];
    [exact H0| |exact H0].
  eapply evolves_trans; [exact H0|]. apply generate_response_evolves.
Qed.

Lemma run_queries_evolves (queries : list str) (b : Bot Vec) :
  evolves b (run_queries env queries b).
Proof.
  revert b. induction queries as [|query rest IH]; intros b; simpl.
  - apply evolves_refl.
  - eapply evolves_trans; [apply process_query_evolves|apply IH].
Qed.

Lemma run_generate_evolves (calls : list (str * list KnowledgeEntry))
    (b : Bot Vec) :
  evolves b (run_generate env calls b).
Proof.
  revert b. induction calls as [|[query context] rest IH]; intros b; simpl.
  - apply evolves_refl.
  - eapply evolves_trans; [apply generate_response_evolves|apply IH].
Qed.

End Evolution.

(** ** Sessions *)

(** X1: in every session of [process_query] calls the knowledge base,
    the index and the configuration of the chatbot stay as they were,
    so an index built from the knowledge base remains the index of the
    knowledge base. *)
Theorem session_keeps_index {Vec} (env : Externals Vec)
    (queries : list str) (b : Bot Vec) :
  index_synced env b ->
  index_synced env (run_queries env queries b)
  /\ knowledge_base (run_queries env queries b) = knowledge_base b
  /\ claude_api_key (run_queries env queries b) = claude_api_key b
  /\ claude_client (run_queries env queries b) = claude_client b
  /\ max_tokens_per_month (run_queries env queries b)
     = max_tokens_per_month b.
Proof.
  intros Hsync.
  destruct (run_queries_evolves env queries b)
    as (Hk & Hi & Ha & Hc & Hm & _).
  split; [|auto].
  unfold index_synced. rewrite Hi, Hk. exact Hsync.
Qed.

Lemma session_keeps_index_witness :
  index_synced Demo.env
    (run_queries Demo.env [u8 "привет"; u8 "цена"] Demo.online)
  /\ knowledge_base (run_queries Demo.env [u8 "привет"; u8 "цена"] Demo.online)
     = knowledge_base Demo.online
  /\ claude_api_key (run_queries Demo.env [u8 "привет"; u8 "цена"] Demo.online)
     = claude_api_key Demo.online
  /\ claude_client (run_queries Demo.env [u8 "привет"; u8 "цена"] Demo.online)
     = claude_client Demo.online
  /\ max_tokens_per_month
       (run_queries Demo.env [u8 "привет"; u8 "цена"] Demo.online)
     = max_tokens_per_month Demo.online.
Proof.
  apply (session_keeps_index Demo.env [u8 "привет"; u8 "цена"] Demo.online).
  reflexivity.
Defined.

(** X2: once the guard of the remote call is false (no client, or
    the budget used up) it stays false: in every later session no
    remote call is made and [used_tokens] keeps its value. *)
Theorem closed_gate_stays_closed {Vec} (env : Externals Vec)
    (queries : list str) (b : Bot Vec) :
  primary_available b = false ->
  primary_available (run_queries env queries b) = false
  /\ used_tokens (run_queries env queries b) = used_tokens b
  /\ exists evs,
       trace (run_queries env queries b) = trace b ++ evs
       /\ forall prompt, EvPrimary prompt ∉ evs.
Proof.
  intros Hoff.
  destruct (run_queries_evolves env queries b)
    as (_ & _ & _ & Hc & Hm & _ & _ & evs & Ht & _ & Hp).
  destruct (Hp Hoff) as [Hu Hno].
  split; [|split; [exact Hu|exists evs; auto]].
  rewrite (primary_available_frame b); assumption.
Qed.

Lemma closed_gate_stays_closed_witness :
  primary_available
    (run_queries Demo.env [u8 "цена"; u8 "сроки"] Demo.exhausted) = false
  /\ used_tokens (run_queries Demo.env [u8 "цена"; u8 "сроки"] Demo.exhausted)
     = used_tokens Demo.exhausted
  /\ exists evs,
       trace (run_queries Demo.env [u8 "цена"; u8 "сроки"] Demo.exhausted)
       = trace Demo.exhausted ++ evs
       /\ forall prompt, EvPrimary prompt ∉ evs.
Proof.
  apply (closed_gate_stays_closed Demo.env [u8 "цена"; u8 "сроки"]
           Demo.exhausted).
  vm_compute. reflexivity.
Defined.

(** X3: a chatbot constructed without an API key, or with the empty
    string as key, has no client; in every session it makes no remote
    call and its [used_tokens] stays 0. *)
Theorem init_without_key {Vec} (env : Externals Vec) (api_key : option str)
    (max_tokens : Z) (kb : list KnowledgeEntry) (queries : list str)
    (b : Bot Vec) :
  api_key = None \/ api_key = Some [] ->
  init env api_key max_tokens kb = Return b ->
  claude_client b = None
  /\ used_tokens (run_queries env queries b) = 0
  /\ forall prompt, EvPrimary prompt ∉ trace (run_queries env queries b).
Proof.
  intros Hkey Hinit. unfold init in Hinit.
  destruct (create_faiss_index env kb) as [embeddings|e]; [|discriminate].
  injection Hinit as <-.
  set (b := constructed api_key max_tokens kb embeddings).
  assert (Hc : claude_client b = None)
    by (destruct Hkey as [-> | ->]; reflexivity).
  assert (Hoff : primary_available b = false)
    by (unfold primary_available; rewrite Hc; reflexivity).
  destruct (run_queries_evolves env queries b)
    as (_ & _ & _ & _ & _ & _ & _ & evs & Ht & _ & Hp).
  destruct (Hp Hoff) as [Hu Hno].
  split; [exact Hc|]. split; [rewrite Hu; reflexivity|].
  intros prompt. rewrite Ht. cbn [trace b constructed]. exact (Hno prompt).
Qed.

Lemma init_without_key_witness :
  claude_client (constructed (Some []) 100000 Demo.kb Demo.embeddings) = None
  /\ used_tokens
       (run_queries Demo.env [u8 "цена"]
          (constructed (Some []) 100000 Demo.kb Demo.embeddings))
     = 0
  /\ forall prompt,
       EvPrimary prompt
       ∉ trace (run_queries Demo.env [u8 "цена"]
                  (constructed (Some []) 100000 Demo.kb Demo.embeddings)).
Proof.
  apply (init_without_key Demo.env (Some []) 100000 Demo.kb [u8 "цена"]).
  - right. reflexivity.
  - reflexivity.
Defined.

(** X4: once the local model is loaded it stays loaded: in every
    later session it is never loaded again. *)
Theorem local_model_loaded_once {Vec} (env : Externals Vec)
    (queries : list str) (b : Bot Vec) :
  fallback_model b = true ->
  fallback_model (run_queries env queries b) = true
  /\ exists evs,
       trace (run_queries env queries b) = trace b ++ evs
       /\ EvLoad ∉ evs.
Proof.
  intros Hl.
  destruct (run_queries_evolves env queries b)
    as (_ & _ & _ & _ & _ & _ & Hf & evs & Ht & Hno & _).
  split; [exact (Hf Hl)|]. exists evs. auto.
Qed.

Lemma local_model_loaded_once_witness :
  fallback_model
    (run_queries Demo.env [u8 "цена"; u8 "сроки"]
       (set_fallback_model true Demo.offline)) = true
  /\ exists evs,
       trace (run_queries Demo.env [u8 "цена"; u8 "сроки"]
                (set_fallback_model true Demo.offline))
       = trace (set_fallback_model true Demo.offline) ++ evs
       /\ EvLoad ∉ evs.
Proof.
  apply (local_model_loaded_once Demo.env [u8 "цена"; u8 "сроки"]
           (set_fallback_model true Demo.offline)).
  reflexivity.
Defined.

(** ** The local generator *)

Lemma lstrip_idem (s : str) : lstrip (lstrip s) = lstrip s.
Proof.
  induction s as [|c s IH]; simpl; [reflexivity|].
  destruct (is_space c) eqn:Hc; [exact IH|].
  simpl. rewrite Hc. reflexivity.
Qed.

Lemma rstrip_idem (s : str) : rstrip (rstrip s) = rstrip s.
Proof.
  unfold rstrip. rewrite reverse_involutive, lstrip_idem. reflexivity.
Qed.

Lemma lstrip_app (a b : str) :
  lstrip (a ++ b) = if forallb is_space a then lstrip b else lstrip a ++ b.
Proof.
  induction a as [|c a IH]; simpl; [reflexivity|].
  destruct (is_space c); simpl; [exact IH|reflexivity].
Qed.

Lemma lstrip_fixed_head (s : str) (c : N) :
  lstrip s = s -> head s = Some c -> is_space c = false.
Proof.
  destruct s as [|c' s]; simpl; [discriminate|].
  intros Hfix [= <-].
  destruct (is_space c') eqn:Hc; [|reflexivity].
  pose proof (lstrip_length s) as Hlen. rewrite Hfix in Hlen.
  simpl in Hlen. lia.
Qed.

Lemma rstrip_keeps_lstrip (s : str) :
  lstrip s = s -> lstrip (rstrip s) = rstrip s.
Proof.
  intros Hfix. destruct s as [|c s]; [reflexivity|].
  assert (Hc : is_space c = false)
    by (eapply lstrip_fixed_head; [exact Hfix|reflexivity]).
  unfold rstrip. rewrite reverse_cons, lstrip_app.
  destruct (forallb is_space (reverse s)).
  - simpl. rewrite Hc. rewrite reverse_singleton. simpl. rewrite Hc.
    reflexivity.
  - rewrite reverse_snoc. simpl. rewrite Hc. reflexivity.
Qed.

Lemma strip_fixed (s : str) :
  lstrip (strip s) = strip s /\ rstrip (strip s) = strip s.
Proof.
  unfold strip. split.
  - apply rstrip_keeps_lstrip, lstrip_idem.
  - apply rstrip_idem.
Qed.

Lemma rstrip_fixed_last (s : str) (c : N) :
  rstrip s = s -> last s = Some c -> is_space c = false.
Proof.
  unfold rstrip. intros Hfix Hlast.
  apply (lstrip_fixed_head (reverse s)).
  - rewrite <- Hfix at 2. rewrite reverse_involutive. reflexivity.
  - rewrite head_reverse. exact Hlast.
Qed.

Section LocalGenerator.
Context {Vec : Type} (env : Externals Vec).

(** The result of the local generator in terms of the model's reply. *)
Lemma use_fallback_model_result (prompt : str) (b : Bot Vec) :
  fst (_use_fallback_model env prompt b) =
  match local_reply env b prompt with
  | None => Raise FallbackError
  | Some response =>
    Return (strip (take 1000
              (if contains prompt response
               then strip (drop (length prompt) response)
               else response)))
  end.
Proof.
  unfold _use_fallback_model, local_reply, bind, get, now, log, modify, ret,
    raise.
  cbn beta iota.
  destruct (fallback_model b); cbn beta iota.
  - destruct (llama_generate env (length (trace b)) prompt); reflexivity.
  - destruct (llama_load env (length (trace b))); cbn beta iota;
      [|reflexivity].
    cbn [trace log_event set_fallback_model].
    destruct (llama_generate env (length (trace b ++ [EvLoad])) prompt);
      reflexivity.
Qed.

Lemma use_fallback_model_loaded (prompt : str) (b : Bot Vec) :
  match fst (_use_fallback_model env prompt b) with
  | Return _ => fallback_model (snd (_use_fallback_model env prompt b)) = true
  | Raise _ => True
  end.
Proof.
  unfold _use_fallback_model, bind, get, now, log, modify, ret, raise.
  cbn beta iota.
  destruct (fallback_model b) eqn:Hl; cbn beta iota.
  - destruct (llama_generate env (length (trace b)) prompt); cbn;
      [exact Hl|exact I].
  - destruct (llama_load env (length (trace b))); cbn beta iota; [|exact I].
    destruct (llama_generate env _ prompt); cbn; [reflexivity|exact I].
Qed.

End LocalGenerator.

(** X5: when the local generator returns an answer, the local model
    is loaded from then on, and the answer has no whitespace at either
    end: stripping it again changes nothing, and its first and its last
    character are not whitespace. *)
Theorem use_fallback_model_answer {Vec} (env : Externals Vec) (prompt : str)
    (b b' : Bot Vec) (answer : str) :
  _use_fallback_model env prompt b = (Return answer, b') ->
  fallback_model b' = true
  /\ strip answer = answer
  /\ (forall c, head answer = Some c -> is_space c = false)
  /\ (forall c, last answer = Some c -> is_space c = false).
Proof.
  intros Hrun.
  pose proof (use_fallback_model_loaded env prompt b) as Hl.
  pose proof (use_fallback_model_result env prompt b) as Hr.
  rewrite Hrun in Hl, Hr. cbn [fst snd] in Hl, Hr.
  split; [exact Hl|].
  destruct (local_reply env b prompt) as [response|]; [|discriminate].
  injection Hr as ->.
  match goal with |- strip (strip ?t) = _ /\ _ => set (u := t) end.
  destruct (strip_fixed u) as [Hls Hrs].
  split; [|split].
  - unfold strip at 1. rewrite Hls. exact Hrs.
  - intros c. apply lstrip_fixed_head. exact Hls.
  - intros c. apply rstrip_fixed_last. exact Hrs.
Qed.

Lemma use_fallback_model_answer_witness :
  fallback_model
    (snd (_use_fallback_model Demo.env_down (u8 "вопрос") Demo.offline)) = true
  /\ strip (u8 "Обе программы хороши.") = u8 "Обе программы хороши."
  /\ (forall c, head (u8 "Обе программы хороши.") = Some c ->
      is_space c = false)
  /\ (forall c, last (u8 "Обе программы хороши.") = Some c ->
      is_space c = false).
Proof.
  apply (use_fallback_model_answer Demo.env_down (u8 "вопрос") Demo.offline).
  vm_compute. reflexivity.
Defined.

(** X6: the local generator cuts the first [len(prompt)] characters
    of the model's output whenever the prompt occurs somewhere in it,
    and strips and cuts the rest to 1000 characters; for an output
    that echoes the prompt and continues it, the answer is the
    stripped continuation, cut to 1000 characters and stripped. *)
Theorem use_fallback_model_cuts_prompt {Vec} (env : Externals Vec)
    (prompt pre post : str) (b : Bot Vec) :
  local_reply env b prompt = Some (pre ++ prompt ++ post) ->
  fst (_use_fallback_model env prompt b)
  = Return (strip (take 1000
              (strip (drop (length prompt) (pre ++ prompt ++ post)))))
  /\ (pre = [] ->
      fst (_use_fallback_model env prompt b)
      = Return (strip (take 1000 (strip post)))).
Proof.
  intros Hreply.
  assert (Hc : contains prompt (pre ++ prompt ++ post) = true)
    by (apply contains_spec; eauto).
  assert (E : fst (_use_fallback_model env prompt b)
              = Return (strip (take 1000
                  (strip (drop (length prompt) (pre ++ prompt ++ post)))))).
  { rewrite use_fallback_model_result, Hreply, Hc. reflexivity. }
  split; [exact E|].
  intros ->. rewrite E. cbn [app]. rewrite drop_app_length. reflexivity.
Qed.

Lemma use_fallback_model_cuts_prompt_witness :
  fst (_use_fallback_model Demo.env (u8 "вопрос") Demo.offline)
  = Return (strip (take 1000
              (strip (drop (length (u8 "вопрос")) ([] ++ u8 "вопрос" ++ [])))))
  /\ ([] = @nil N ->
      fst (_use_fallback_model Demo.env (u8 "вопрос") Demo.offline)
      = Return (strip (take 1000 (strip [])))).
Proof.
  apply (use_fallback_model_cuts_prompt Demo.env (u8 "вопрос") [] []
           Demo.offline).
  vm_compute. reflexivity.
Defined.

(** ** The prompt and the cost of a remote call *)

Lemma build_prompt_parts (query : str) (context : list KnowledgeEntry) :
  build_prompt query context
  = prompt_head ++ context_text context ++ prompt_mid ++ query ++ prompt_tail.
Proof. reflexivity. Qed.

Lemma count_words_app (inw : bool) (a b : str) :
  count_words inw (a ++ b)
  = (count_words inw a + count_words (in_word_after inw a) b)%nat.
Proof.
  revert inw. induction a as [|c a IH]; intros inw; simpl; [reflexivity|].
  destruct (is_space c); simpl; [apply IH|].
  destruct inw; rewrite IH; reflexivity.
Qed.

Lemma prompt_head_words (rest : str) :
  count_words false (prompt_head ++ rest)
  = (35 + count_words false rest)%nat.
Proof.
  rewrite count_words_app.
  replace (count_words false prompt_head) with 35%nat
    by (vm_compute; reflexivity).
  replace (in_word_after false prompt_head) with false
    by (vm_compute; reflexivity).
  reflexivity.
Qed.

Lemma prompt_mid_words (inw : bool) (rest : str) :
  count_words inw (prompt_mid ++ rest) = (2 + count_words false rest)%nat.
Proof.
  rewrite count_words_app.
  destruct inw.
  - replace (count_words true prompt_mid) with 2%nat
      by (vm_compute; reflexivity).
    replace (in_word_after true prompt_mid) with false
      by (vm_compute; reflexivity).
    reflexivity.
  - replace (count_words false prompt_mid) with 2%nat
      by (vm_compute; reflexivity).
    replace (in_word_after false prompt_mid) with false
      by (vm_compute; reflexivity).
    reflexivity.
Qed.

Lemma prompt_tail_words (inw : bool) : count_words inw prompt_tail = 17%nat.
Proof. destruct inw; vm_compute; reflexivity. Qed.

Lemma build_prompt_words (query : str) (context : list KnowledgeEntry) :
  word_count (build_prompt query context)
  = 54 + word_count (context_text context) + word_count query.
Proof.
  rewrite build_prompt_parts. unfold word_count.
  rewrite prompt_head_words, count_words_app, prompt_mid_words,
    count_words_app, prompt_tail_words.
  lia.
Qed.

(** X7: a remote call that yields a completion is charged the 54
    words of the prompt template, the words of the context block, the
    words of the query and the words of the completion; it is the only
    way [used_tokens] changes, so every such call adds at least 54. *)
Theorem remote_call_charge {Vec} (env : Externals Vec) (query : str)
    (context : list KnowledgeEntry) (b : Bot Vec) (completion : str) :
  primary_available b = true ->
  primary_reply env b query context = Some completion ->
  used_tokens (snd (generate_response env query context b))
  = used_tokens b + 54 + word_count (context_text context)
    + word_count query + word_count completion
  /\ used_tokens b + 54
     <= used_tokens (snd (generate_response env query context b)).
Proof.
  intros Hon Hreply.
  pose proof (generate_response_used_tokens env query context b) as H.
  cbn zeta in H. rewrite Hon, Hreply in H. destruct H as [_ Hu].
  rewrite build_prompt_words in Hu.
  pose proof (word_count_nonneg (context_text context)).
  pose proof (word_count_nonneg query).
  pose proof (word_count_nonneg completion).
  split; lia.
Qed.

Lemma remote_call_charge_witness :
  used_tokens (snd (generate_response Demo.env (u8 "цена") [Demo.entry "cc"]
                      Demo.online))
  = used_tokens Demo.online + 54
    + word_count (context_text [Demo.entry "cc"])
    + word_count (u8 "цена") + word_count (u8 "Выбирайте программу")
  /\ used_tokens Demo.online + 54
     <= used_tokens (snd (generate_response Demo.env (u8 "цена")
                            [Demo.entry "cc"] Demo.online)).
Proof.
  apply (remote_call_charge Demo.env (u8 "цена") [Demo.entry "cc"]
           Demo.online (u8 "Выбирайте программу")).
  - vm_compute. reflexivity.
  - vm_compute. reflexivity.
Defined.

Section Budget.
Context {Vec : Type} (env : Externals Vec).

Lemma completions_step (query : str) (context : list KnowledgeEntry)
    (b : Bot Vec) :
  let b' := snd (generate_response env query context b) in
  max_tokens_per_month b' = max_tokens_per_month b
  /\ if primary_available b
     then match primary_reply env b query context with
          | Some _ =>
            used_tokens b < max_tokens_per_month b
            /\ used_tokens b + 54 <= used_tokens b'
          | None => used_tokens b' = used_tokens b
          end
     else used_tokens b' = used_tokens b.
Proof.
  cbn zeta. split.
  - apply (generate_response_evolves env query context b).
  - pose proof (generate_response_used_tokens env query context b) as H.
    cbn zeta in H.
    destruct (primary_available b) eqn:Hon; [|exact H].
    destruct (primary_reply env b query context) as [c|] eqn:Hreply;
      [|exact H].
    split.
    + unfold primary_available in Hon.
      destruct (claude_client b); [|discriminate].
      apply Z.ltb_lt. exact Hon.
    + destruct H as [_ Hu]. rewrite Hu, build_prompt_words.
      pose proof (word_count_nonneg (context_text context)).
      pose proof (word_count_nonneg query).
      pose proof (word_count_nonneg c). lia.
Qed.

Lemma completions_charged (calls : list (str * list KnowledgeEntry))
    (b : Bot Vec) :
  used_tokens b + 54 * Z.of_nat (completions env calls b)
  <= used_tokens (run_generate env calls b).
Proof.
  revert b. induction calls as [|[query context] rest IH]; intros b;
    simpl; [lia|].
  specialize (IH (snd (generate_response env query context b))).
  destruct (completions_step query context b) as [_ Hstep].
  destruct (primary_available b);
    [destruct (primary_reply env b query context)|]; lia.
Qed.

Lemma completions_within_budget (calls : list (str * list KnowledgeEntry))
    (b : Bot Vec) :
  completions env calls b = O
  \/ used_tokens b + 54 * (Z.of_nat (completions env calls b) - 1)
     < max_tokens_per_month b.
Proof.
  revert b. induction calls as [|[query context] rest IH]; intros b;
    simpl; [left; reflexivity|].
  specialize (IH (snd (generate_response env query context b))).
  destruct (completions_step query context b) as [Hm Hstep].
  rewrite Hm in IH.
  destruct (primary_available b);
    [destruct (primary_reply env b query context)|].
  - right. destruct IH as [-> |IH]; lia.
  - destruct IH as [IH|IH]; [left; exact IH|right; lia].
  - destruct IH as [IH|IH]; [left; exact IH|right; lia].
Qed.

End Budget.

(** X8: in a session of [generate_response] calls every completed
    remote call raises [used_tokens] by at least 54, and each one
    needs [used_tokens] below the monthly limit when it is made: with
    [n > 0] completed remote calls, [used_tokens + 54 * (n - 1)] at the
    start of the session was below the limit. *)
Theorem completed_remote_calls_bounded {Vec} (env : Externals Vec)
    (calls : list (str * list KnowledgeEntry)) (b : Bot Vec) :
  used_tokens b + 54 * Z.of_nat (completions env calls b)
  <= used_tokens (run_generate env calls b)
  /\ (completions env calls b = O
      \/ used_tokens b + 54 * (Z.of_nat (completions env calls b) - 1)
         < max_tokens_per_month b).
Proof.
  split; [apply completions_charged|apply completions_within_budget].
Qed.

(** ** What the prompt holds *)

Lemma join_contains (sep part : str) (parts : list str) :
  part ∈ parts -> contains part (join sep parts) = true.
Proof.
  intros Hin. apply contains_spec.
  induction parts as [|p rest IH]; [inversion Hin|].
  apply elem_of_cons in Hin as [->|Hin].
  - destruct rest as [|p' rest'].
    + exists [], []. simpl. rewrite app_nil_r. reflexivity.
    + exists [], (sep ++ join sep (p' :: rest')). reflexivity.
  - destruct (IH Hin) as (pre & post & E).
    destruct rest as [|p' rest']; [inversion Hin|].
    exists (p ++ sep ++ pre), post.
    change (join sep (p :: p' :: rest'))
      with (p ++ sep ++ join sep (p' :: rest')).
    rewrite E, <- !app_assoc. reflexivity.
Qed.

(** X9: the prompt built for the models starts with the fixed role
    description, ends with the fixed request, and holds the query and
    the text of every context entry, each as a bullet, verbatim. *)
Theorem prompt_holds_query_and_context (query : str)
    (context : list KnowledgeEntry) :
  starts_with prompt_head (build_prompt query context) = true
  /\ (exists pre, build_prompt query context = pre ++ prompt_tail)
  /\ contains query (build_prompt query context) = true
  /\ Forall (fun item =>
       contains (u8 "- " ++ text item) (build_prompt query context) = true)
       context.
Proof.
  rewrite build_prompt_parts. split; [|split; [|split]].
  - apply starts_with_spec. eauto.
  - exists (prompt_head ++ context_text context ++ prompt_mid ++ query).
    rewrite <- !app_assoc. reflexivity.
  - apply contains_spec.
    exists (prompt_head ++ context_text context ++ prompt_mid), prompt_tail.
    rewrite <- !app_assoc. reflexivity.
  - apply Forall_forall. intros item Hin.
    assert (Hc : contains (u8 "- " ++ text item) (context_text context) = true).
    { apply join_contains.
      apply list_elem_of_In, in_map_iff. exists item.
      split; [reflexivity|apply list_elem_of_In; exact Hin]. }
    apply contains_spec in Hc as (pre & post & E).
    apply contains_spec.
    exists (prompt_head ++ pre), (post ++ prompt_mid ++ query ++ prompt_tail).
    rewrite E, <- !app_assoc. reflexivity.
Qed.

(** ** The scorer in closed form *)

Lemma flag_insert (bg : dict) (key : string) (v : pyval) :
  flag (<[u8 key := v]> bg) key = truthy v.
Proof. unfold flag, dict_get. rewrite lookup_insert_eq. reflexivity. Qed.

Lemma flag_insert_ne (bg : dict) (key key' : string) (v : pyval) :
  bool_decide (u8 key = u8 key') = false ->
  flag (<[u8 key := v]> bg) key' = flag bg key'.
Proof.
  intros Hne. apply bool_decide_eq_false in Hne.
  unfold flag, dict_get. rewrite lookup_insert_ne by exact Hne. reflexivity.
Qed.

(** X10: the answer about machine learning never changes the
    recommendation, since it adds one point to both scores.  On a
    profile of five booleans the first programme is recommended exactly
    when there are technical skills or programming experience and
    neither management interest nor product experience; the tie text
    is returned when all four are false, or when both technical
    factors are true and exactly one of the two product factors is;
    in every other case the second programme is recommended. *)
Theorem recommend_program_closed_form :
  (forall (bg : dict) (v : pyval),
     recommend_program (<[u8 "ml_knowledge" := v]> bg) = recommend_program bg)
  /\ (forall p : UserProfile,
        recommend_program (profile_dict p) =
        if (technical_skills p || programming_experience p)
           && negb (management_interest p || product_experience p)
        then recommendation_ai
        else if negb (technical_skills p) && negb (programming_experience p)
                && negb (management_interest p) && negb (product_experience p)
                || technical_skills p && programming_experience p
                   && xorb (management_interest p) (product_experience p)
        then recommendation_both
        else recommendation_ai_product).
Proof.
  split.
  - intros bg v. unfold recommend_program, scores.
    rewrite flag_insert.
    rewrite !flag_insert_ne by (vm_compute; reflexivity).
    destruct (flag bg "technical_skills"), (flag bg "management_interest"),
      (flag bg "programming_experience"), (flag bg "product_experience"),
      (flag bg "ml_knowledge"), (truthy v); vm_compute; reflexivity.
  - intros [[] [] [] [] []]; vm_compute; reflexivity.
Qed.

(** ** Errors of the router *)

Section RouterErrors.
Context {Vec : Type} (env : Externals Vec).

(** The outcome of a search on an index built from the knowledge
    base: between one and [k] entries of the knowledge base, or the
    error of the embedder or of the index library. *)
Lemma retrieve_relevant_info_outcome (query : str) (k : Z) (b : Bot Vec) :
  exact_search env ->
  index_synced env b ->
  0 < k ->
  match fst (retrieve_relevant_info env query k b) with
  | Return results =>
    (1 <= length results <= Z.to_nat k)%nat
    /\ Forall (fun item => item ∈ knowledge_base b) results
    /\ exists query_embedding indices,
         embed env query = Some query_embedding
         /\ search env (index b) query_embedding k = Some indices
  | Raise e =>
    e = LibraryError
    /\ (embed env query = None
        \/ exists query_embedding,
             embed env query = Some query_embedding
             /\ search env (index b) query_embedding k = None)
  end.
Proof.
  intros Hexact Hsync Hk.
  rewrite retrieve_relevant_info_unfold. cbn [fst].
  destruct (embed env query) as [v|]; [|split; [reflexivity|left; reflexivity]].
  unfold index_search. destruct (Z.leb_spec k 0) as [Hle|_]; [lia|].
  destruct (search env (index b) v k) as [indices|] eqn:Hs;
    [|split; [reflexivity|right; exists v; split; [reflexivity|exact Hs]]].
  destruct (search_results env b v k indices Hexact Hsync Hk Hs)
    as (ids & results & -> & Hf & _ & Hlen & _).
  destruct (index_synced_length env b Hsync) as [_ Hpos].
  rewrite <- (Forall2_length _ _ _ Hf) in Hlen.
  split; [lia|]. split; [|exists v, indices; split; [reflexivity|exact Hs]].
  clear Hlen Hs. induction Hf as [|item i items ids' Hi _ IH]; constructor.
  - apply list_elem_of_lookup. eauto.
  - apply IH.
Qed.


End RouterErrors.



(** X21: on a chatbot whose index was built from the knowledge base,
    with an index library that searches exactly, the branch of
    [process_query] that answers with the not-found message is never
    taken: a query that is no greeting either fails in retrieval or
    enters the generator with the entries retrieved, of which there
    is at least one. *)
Theorem not_found_branch_unreachable {Vec} (env : Externals Vec)
    (query : str) (b : Bot Vec) :
  exact_search env ->
  index_synced env b ->
  is_greeting env query = false ->
  match fst (retrieve_relevant_info env query 5 b) with
  | Return results =>
    results <> []
    /\ process_query env query b
       = generate_response env query results (log_event (EvRetrieve query 5) b)
  | Raise e =>
    process_query env query b = (Raise e, log_event (EvRetrieve query 5) b)
  end.
Proof.
  intros Hexact Hsync Hg.
  pose proof (retrieve_relevant_info_outcome env query 5 b Hexact Hsync
                ltac:(lia)) as Hr.
  rewrite process_query_unfold, Hg.
  destruct (fst (retrieve_relevant_info env query 5 b)) as [[|item items]|e].
  - destruct Hr as [Hlen _]. cbn [length] in Hlen. lia.
  - split; [discriminate|reflexivity].
  - reflexivity.
Qed.

Lemma not_found_branch_unreachable_witness :
  match fst (retrieve_relevant_info Demo.env (u8 "цена") 5 Demo.offline) with
  | Return results =>
    results <> []
    /\ process_query Demo.env (u8 "цена") Demo.offline
       = generate_response Demo.env (u8 "цена") results
           (log_event (EvRetrieve (u8 "цена") 5) Demo.offline)
  | Raise e =>
    process_query Demo.env (u8 "цена") Demo.offline
    = (Raise e, log_event (EvRetrieve (u8 "цена") 5) Demo.offline)
  end.
Proof.
  apply (not_found_branch_unreachable Demo.env (u8 "цена") Demo.offline).
  - apply demo_search_exact.
  - reflexivity.
  - vm_compute. reflexivity.
Defined.

(** * Properties of the chat front end *)

(** ** The final message of the intake *)

Lemma get_disciplines_recommendation_nonempty (program : str) (bg : dict) :
  get_disciplines_recommendation program bg <> [].
Proof.
  intros E. apply (f_equal length) in E.
  unfold get_disciplines_recommendation in E.
  destruct (decide (program = u8 "ai")); rewrite !length_app in E;
    [assert (length line_355 <> O) by (vm_compute; discriminate)
    |assert (length line_376 <> O) by (vm_compute; discriminate)];
    simpl in E; lia.
Qed.

Lemma disciplines_rec_ai (bg : dict) :
  disciplines_rec recommendation_ai bg
  = get_disciplines_recommendation (u8 "ai") bg.
Proof.
  unfold disciplines_rec.
  replace (contains name_ai recommendation_ai) with true
    by (vm_compute; reflexivity).
  replace (contains name_ai_product recommendation_ai) with false
    by (vm_compute; reflexivity).
  reflexivity.
Qed.

Lemma disciplines_rec_ai_product (bg : dict) :
  disciplines_rec recommendation_ai_product bg
  = get_disciplines_recommendation (u8 "ai_product") bg.
Proof.
  unfold disciplines_rec.
  replace (contains name_ai recommendation_ai_product) with false
    by (vm_compute; reflexivity).
  replace (contains name_ai_product recommendation_ai_product) with true
    by (vm_compute; reflexivity).
  replace (count name_ai_product recommendation_ai_product
           <? count name_ai recommendation_ai_product)%nat with false
    by (vm_compute; reflexivity).
  reflexivity.
Qed.

Lemma disciplines_rec_both (bg : dict) :
  disciplines_rec recommendation_both bg
  = get_disciplines_recommendation (u8 "ai_product") bg.
Proof.
  unfold disciplines_rec.
  replace (contains name_ai recommendation_both) with true
    by (vm_compute; reflexivity).
  replace (contains name_ai_product recommendation_both) with true
    by (vm_compute; reflexivity).
  replace (count name_ai_product recommendation_both
           <? count name_ai recommendation_both)%nat with false
    by (vm_compute; reflexivity).
  reflexivity.
Qed.

(** X12: the final message of the intake is the recommendation, an
    empty line and the elective suggestions, for every background: the
    suggestions of the first programme when it is recommended, and
    those of the second programme otherwise, also when the scores tie
    and the text names both programmes; the branch that leaves the
    suggestions out is never taken. *)
Theorem full_response_electives (bg : dict) :
  full_response bg
  = recommend_program bg ++ [10; 10]%N
    ++ get_disciplines_recommendation
         (if fst (scores bg) >? snd (scores bg)
          then u8 "ai" else u8 "ai_product") bg.
Proof.
  unfold full_response. rewrite recommend_program_unfold.
  assert (Hcons : forall (rec : str) (program : str),
    match get_disciplines_recommendation program bg with
    | [] => rec
    | _ :: _ => rec ++ [10; 10]%N ++ get_disciplines_recommendation program bg
    end = rec ++ [10; 10]%N ++ get_disciplines_recommendation program bg).
  { intros rec program.
    pose proof (get_disciplines_recommendation_nonempty program bg) as Hne.
    destruct (get_disciplines_recommendation program bg);
      [contradiction|reflexivity]. }
  destruct (fst (scores bg) >? snd (scores bg)).
  - rewrite disciplines_rec_ai. apply Hcons.
  - destruct (snd (scores bg) >? fst (scores bg)).
    + rewrite disciplines_rec_ai_product. apply Hcons.
    + rewrite disciplines_rec_both. apply Hcons.
Qed.

(** ** Backgrounds as profiles *)

Lemma flag_profile_dict (p : UserProfile) :
  flag (profile_dict p) "technical_skills" = technical_skills p
  /\ flag (profile_dict p) "management_interest" = management_interest p
  /\ flag (profile_dict p) "programming_experience" = programming_experience p
  /\ flag (profile_dict p) "ml_knowledge" = ml_knowledge p
  /\ flag (profile_dict p) "product_experience" = product_experience p.
Proof.
  unfold profile_dict.
  repeat split;
    repeat (rewrite flag_insert_ne by (vm_compute; reflexivity));
    rewrite flag_insert; reflexivity.
Qed.

Lemma scores_profile_of (bg : dict) :
  scores (profile_dict (profile_of bg)) = scores bg.
Proof.
  destruct (flag_profile_dict (profile_of bg)) as (H1 & H2 & H3 & H4 & H5).
  unfold scores. rewrite H1, H2, H3, H4, H5. reflexivity.
Qed.

Lemma recommend_program_profile_of (bg : dict) :
  recommend_program (profile_dict (profile_of bg)) = recommend_program bg.
Proof. unfold recommend_program. rewrite scores_profile_of. reflexivity. Qed.

Lemma get_disciplines_recommendation_profile_of (program : str) (bg : dict) :
  get_disciplines_recommendation program (profile_dict (profile_of bg))
  = get_disciplines_recommendation program bg.
Proof.
  destruct (flag_profile_dict (profile_of bg)) as (H1 & H2 & H3 & H4 & H5).
  unfold get_disciplines_recommendation.
  rewrite H1, H2, H3, H4, H5. reflexivity.
Qed.

Lemma full_response_profile_of (bg : dict) :
  full_response (profile_dict (profile_of bg)) = full_response bg.
Proof.
  unfold full_response, disciplines_rec.
  rewrite recommend_program_profile_of,
    !get_disciplines_recommendation_profile_of.
  reflexivity.
Qed.
(** ** The intake *)

Section Intake.
Context {Vec : Type} (env : Externals Vec) (tg : Telegram).

Lemma answer_sent (message : Message) (text : str)
    (markup : option ReplyKeyboardMarkup) (mode : option str)
    (bot : ITMOBot Vec) :
  send_message tg (length (sent bot))
    {| reply_to := from_user_id message; reply_text := text;
       reply_markup := markup; parse_mode := mode |} = true ->
  answer tg message text markup mode bot
  = Done (add_sent
            {| reply_to := from_user_id message; reply_text := text;
               reply_markup := markup; parse_mode := mode |} bot).
Proof. intros H. unfold answer. cbn zeta. rewrite H. reflexivity. Qed.

(** What [answer] leaves, sent or not. *)
Lemma answer_frame (message : Message) (text : str)
    (markup : option ReplyKeyboardMarkup) (mode : option str)
    (bot : ITMOBot Vec) :
  match answer tg message text markup mode bot with
  | Done bot' =>
    bot' = add_sent {| reply_to := from_user_id message; reply_text := text;
                       reply_markup := markup; parse_mode := mode |} bot
  | Failed e bot' => e = TelegramError /\ bot' = bot
  end.
Proof.
  unfold answer. cbn zeta.
  destruct (send_message tg _ _); [reflexivity|split; reflexivity].
Qed.

Lemma start_recommendation_run (message : Message) (bot : ITMOBot Vec) :
  send_message tg (length (sent bot))
    {| reply_to := from_user_id message;
       reply_text := question_technical_skills;
       reply_markup := Some yes_no_keyboard; parse_mode := None |} = true ->
  exists bot',
    start_recommendation tg message bot = Done bot'
    /\ chatbot bot' = chatbot bot
    /\ user_backgrounds bot' = user_backgrounds bot
    /\ fsm bot' = <[from_user_id message := asking_technical_skills]> (fsm bot)
    /\ sent bot'
       = sent bot
         ++ [{| reply_to := from_user_id message;
                reply_text := question_technical_skills;
                reply_markup := Some yes_no_keyboard; parse_mode := None |}].
Proof.
  intros Hs. unfold start_recommendation. rewrite answer_sent by exact Hs.
  eexists. split; [reflexivity|]. repeat split.
Qed.

Lemma store_and_ask_run (key : string) (question : str)
    (next : RecommendationStates) (message : Message) (text : str)
    (bot : ITMOBot Vec) (background : dict) :
  message_text message = Some text ->
  user_backgrounds bot !! from_user_id message = Some background ->
  send_message tg (length (sent bot))
    {| reply_to := from_user_id message; reply_text := question;
       reply_markup := Some yes_no_keyboard; parse_mode := None |} = true ->
  exists bot',
    store_and_ask env tg key question next message bot = Done bot'
    /\ chatbot bot' = chatbot bot
    /\ user_backgrounds bot'
       = <[from_user_id message :=
             <[u8 key := VBool (says_yes env text)]> background]>
           (user_backgrounds bot)
    /\ fsm bot' = <[from_user_id message := next]> (fsm bot)
    /\ sent bot'
       = sent bot
         ++ [{| reply_to := from_user_id message; reply_text := question;
                reply_markup := Some yes_no_keyboard; parse_mode := None |}].
Proof.
  intros Ht Hb Hs. unfold store_and_ask. rewrite Ht, Hb.
  rewrite answer_sent by exact Hs.
  eexists. split; [reflexivity|]. repeat split.
Qed.

Lemma process_technical_skills_run (message : Message) (text : str)
    (bot : ITMOBot Vec) :
  message_text message = Some text ->
  send_message tg (length (sent bot))
    {| reply_to := from_user_id message;
       reply_text := question_management_interest;
       reply_markup := Some yes_no_keyboard; parse_mode := None |} = true ->
  exists bot',
    process_technical_skills env tg message bot = Done bot'
    /\ chatbot bot' = chatbot bot
    /\ user_backgrounds bot' !! from_user_id message
       = Some (<[u8 "technical_skills" := VBool (says_yes env text)]>
                 (default ∅ (user_backgrounds bot !! from_user_id message)))
    /\ (forall user_id, user_id <> from_user_id message ->
          user_backgrounds bot' !! user_id = user_backgrounds bot !! user_id)
    /\ fsm bot'
       = <[from_user_id message := asking_management_interest]> (fsm bot)
    /\ sent bot'
       = sent bot
         ++ [{| reply_to := from_user_id message;
                reply_text := question_management_interest;
                reply_markup := Some yes_no_keyboard; parse_mode := None |}].
Proof.
  intros Ht Hs. unfold process_technical_skills. rewrite Ht.
  destruct (user_backgrounds bot !! from_user_id message) as [d|] eqn:Hd.
  - rewrite Hd. rewrite answer_sent by exact Hs.
    eexists. split; [reflexivity|].
    cbn [chatbot user_backgrounds fsm sent set_state add_sent set_backgrounds].
    split; [reflexivity|]. split; [apply lookup_insert_eq|].
    split; [|split; reflexivity].
    intros user_id Hne. apply lookup_insert_ne. congruence.
  - cbn [user_backgrounds set_backgrounds]. rewrite lookup_insert_eq.
    rewrite answer_sent by exact Hs.
    eexists. split; [reflexivity|].
    cbn [chatbot user_backgrounds fsm sent set_state add_sent set_backgrounds].
    split; [reflexivity|]. split; [apply lookup_insert_eq|].
    split; [|split; reflexivity].
    intros user_id Hne. rewrite !lookup_insert_ne by congruence. reflexivity.
Qed.

Lemma process_product_experience_run (message : Message) (text : str)
    (bot : ITMOBot Vec) (background : dict) :
  message_text message = Some text ->
  user_backgrounds bot !! from_user_id message = Some background ->
  send_message tg (length (sent bot))
    {| reply_to := from_user_id message;
       reply_text :=
         full_response
           (<[u8 "product_experience" := VBool (says_yes env text)]>
              background);
       reply_markup := Some main_menu_keyboard;
       parse_mode := Some (u8 "Markdown") |} = true ->
  exists bot',
    process_product_experience env tg message bot = Done bot'
    /\ chatbot bot' = chatbot bot
    /\ user_backgrounds bot'
       = <[from_user_id message :=
             <[u8 "product_experience" := VBool (says_yes env text)]>
               background]> (user_backgrounds bot)
    /\ fsm bot' = delete (from_user_id message) (fsm bot)
    /\ sent bot'
       = sent bot
         ++ [{| reply_to := from_user_id message;
                reply_text :=
                  full_response
                    (<[u8 "product_experience" := VBool (says_yes env text)]>
                       background);
                reply_markup := Some main_menu_keyboard;
                parse_mode := Some (u8 "Markdown") |}].
Proof.
  intros Ht Hb Hs. unfold process_product_experience. rewrite Ht, Hb.
  rewrite answer_sent by exact Hs.
  eexists. split; [reflexivity|]. repeat split.
Qed.

Lemma dispatch_state (message : Message) (bot : ITMOBot Vec)
    (st : RecommendationStates) :
  fsm bot !! from_user_id message = Some st ->
  dispatch env tg message bot =
  match st with
  | asking_technical_skills => process_technical_skills env tg message bot
  | asking_management_interest =>
    process_management_interest env tg message bot
  | asking_programming_experience =>
    process_programming_experience env tg message bot
  | asking_ml_knowledge => process_ml_knowledge env tg message bot
  | asking_product_experience =>
    process_product_experience env tg message bot
  end.
Proof. intros H. unfold dispatch. rewrite H. reflexivity. Qed.

(** A message that no command and no menu button takes goes to the
    handler of the intake state, or to the default handler. *)
Lemma route_dispatch (message : Message) (bot : ITMOBot Vec) :
  taken_by_menu tg message = false ->
  route env tg message bot = dispatch env tg message bot.
Proof.
  unfold taken_by_menu, route. intros H.
  repeat (apply orb_false_elim in H as [H ?]).
  repeat match goal with E : _ = false |- _ => rewrite E; clear E end.
  reflexivity.
Qed.

Lemma profile_of_answers (d : dict) (a1 a2 a3 a4 a5 : bool) :
  profile_of
    (<[u8 "product_experience" := VBool a5]>
       (<[u8 "ml_knowledge" := VBool a4]>
          (<[u8 "programming_experience" := VBool a3]>
             (<[u8 "management_interest" := VBool a2]>
                (<[u8 "technical_skills" := VBool a1]> d)))))
  = {| technical_skills := a1; management_interest := a2;
       programming_experience := a3; ml_knowledge := a4;
       product_experience := a5 |}.
Proof.
  unfold profile_of. f_equal;
    repeat (rewrite flag_insert_ne by (vm_compute; reflexivity));
    rewrite flag_insert; reflexivity.
Qed.

End Intake.

(** X13: an intake that is started and then gets five text answers
    from the same user, none of them a command or the text of a menu
    button, with Telegram taking each message, runs through the five
    handlers without an error: it asks the five questions, sends as
    its last message the recommendation with the elective suggestions
    for the profile that the five answers spell (an answer is a yes
    exactly when its lowercased text is one of the three yes words),
    whatever background an earlier intake of the user left, and then
    clears the state of the user; the engine and the other users are
    left as they were. *)
Theorem intake_flow {Vec} (env : Externals Vec) (tg : Telegram)
    (bot : ITMOBot Vec) (user_id : Z) (opening : option str)
    (t1 t2 t3 t4 t5 : str) :
  let message text := {| from_user_id := user_id; message_text := text;
       message_caption := None |} in
  let question text :=
    {| reply_to := user_id; reply_text := text;
       reply_markup := Some yes_no_keyboard; parse_mode := None |} in
  let p :=
    {| technical_skills := says_yes env t1;
       management_interest := says_yes env t2;
       programming_experience := says_yes env t3;
       ml_knowledge := says_yes env t4;
       product_experience := says_yes env t5 |} in
  let replies :=
    [question question_technical_skills;
     question question_management_interest;
     question question_programming_experience;
     question question_ml_knowledge;
     question question_product_experience;
     {| reply_to := user_id;
        reply_text := full_response (profile_dict p);
        reply_markup := Some main_menu_keyboard;
        parse_mode := Some (u8 "Markdown") |}] in
  Forall (fun text => taken_by_menu tg (message (Some text)) = false)
    [t1; t2; t3; t4; t5] ->
  (forall i reply, replies !! i = Some reply ->
     send_message tg (length (sent bot) + i) reply = true) ->
  exists bot0 bot',
    start_recommendation tg (message opening) bot = Done bot0
    /\ fsm bot0 !! user_id = Some asking_technical_skills
    /\ handle_all env tg
         [message (Some t1); message (Some t2); message (Some t3);
          message (Some t4); message (Some t5)] bot0
       = Done bot'
    /\ fsm bot' !! user_id = None
    /\ chatbot bot' = chatbot bot
    /\ sent bot' = sent bot ++ replies
    /\ profile_of <$> (user_backgrounds bot' !! user_id) = Some p
    /\ forall other, other <> user_id ->
         user_backgrounds bot' !! other = user_backgrounds bot !! other
         /\ fsm bot' !! other = fsm bot !! other.
Proof.
  cbn zeta. intros Hplain Hsend.
  set (m := fun text => {| from_user_id := user_id; message_text := text;
       message_caption := None |}).
  set (q := fun text =>
              {| reply_to := user_id; reply_text := text;
                 reply_markup := Some yes_no_keyboard; parse_mode := None |}).
  set (d0 := default ∅ (user_backgrounds bot !! user_id)).
  set (d1 := <[u8 "technical_skills" := VBool (says_yes env t1)]> d0).
  set (d2 := <[u8 "management_interest" := VBool (says_yes env t2)]> d1).
  set (d3 := <[u8 "programming_experience" := VBool (says_yes env t3)]> d2).
  set (d4 := <[u8 "ml_knowledge" := VBool (says_yes env t4)]> d3).
  set (d5 := <[u8 "product_experience" := VBool (says_yes env t5)]> d4).
  assert (Hp : profile_of d5
               = {| technical_skills := says_yes env t1;
                    management_interest := says_yes env t2;
                    programming_experience := says_yes env t3;
                    ml_knowledge := says_yes env t4;
                    product_experience := says_yes env t5 |})
    by apply profile_of_answers.
  assert (Hfull : full_response d5
                  = full_response
                      (profile_dict
                         {| technical_skills := says_yes env t1;
                            management_interest := says_yes env t2;
                            programming_experience := says_yes env t3;
                            ml_knowledge := says_yes env t4;
                            product_experience := says_yes env t5 |})).
  { rewrite <- Hp. symmetry. apply full_response_profile_of. }
  rewrite <- Hfull in Hsend |- *. clear Hfull.
  assert (Hs : forall pre reply post,
            [q question_technical_skills; q question_management_interest;
             q question_programming_experience; q question_ml_knowledge;
             q question_product_experience;
             {| reply_to := user_id; reply_text := full_response d5;
                reply_markup := Some main_menu_keyboard;
                parse_mode := Some (u8 "Markdown") |}]
            = pre ++ reply :: post ->
            send_message tg (length (sent bot ++ pre)) reply = true).
  { intros pre reply post E. rewrite length_app. apply Hsend.
    unfold q in E. rewrite E. apply list_lookup_middle. reflexivity. }
  clear Hsend.
  repeat match goal with
         | H : Forall _ (_ :: _) |- _ => apply Forall_cons in H as [? H]
         end.
  clear Hplain.
  (* the opening *)
  destruct (start_recommendation_run tg (m opening) bot)
    as (bot0 & E0 & Hc0 & Hb0 & Hf0 & Hs0).
  { rewrite <- (app_nil_r (sent bot)). eapply (Hs []). reflexivity. }
  cbn [from_user_id m] in Hf0, Hs0.
  exists bot0.
  (* the first answer *)
  destruct (process_technical_skills_run env tg (m (Some t1)) t1 bot0 eq_refl)
    as (bot1 & E1 & Hc1 & Hu1 & Ho1 & Hf1 & Hs1).
  { rewrite Hs0. eapply (Hs [_]). reflexivity. }
  cbn [from_user_id m] in Hu1, Ho1, Hf1, Hs1.
  rewrite Hb0 in Hu1. fold d0 d1 in Hu1.
  rewrite Hs0, <- app_assoc in Hs1. cbn [app] in Hs1.
  (* the second, third and fourth answer *)
  destruct (store_and_ask_run env tg "management_interest"
              question_programming_experience asking_programming_experience
              (m (Some t2)) t2 bot1 d1 eq_refl Hu1)
    as (bot2 & E2 & Hc2 & Hu2 & Hf2 & Hs2).
  { rewrite Hs1. eapply (Hs [_; _]). reflexivity. }
  cbn [from_user_id m] in Hu2, Hf2, Hs2. fold d2 in Hu2.
  rewrite Hs1, <- app_assoc in Hs2. cbn [app] in Hs2.
  destruct (store_and_ask_run env tg "programming_experience"
              question_ml_knowledge asking_ml_knowledge
              (m (Some t3)) t3 bot2 d2 eq_refl)
    as (bot3 & E3 & Hc3 & Hu3 & Hf3 & Hs3).
  { rewrite Hu2. apply lookup_insert_eq. }
  { rewrite Hs2. eapply (Hs [_; _; _]). reflexivity. }
  cbn [from_user_id m] in Hu3, Hf3, Hs3. fold d3 in Hu3.
  rewrite Hs2, <- app_assoc in Hs3. cbn [app] in Hs3.
  destruct (store_and_ask_run env tg "ml_knowledge"
              question_product_experience asking_product_experience
              (m (Some t4)) t4 bot3 d3 eq_refl)
    as (bot4 & E4 & Hc4 & Hu4 & Hf4 & Hs4).
  { rewrite Hu3. apply lookup_insert_eq. }
  { rewrite Hs3. eapply (Hs [_; _; _; _]). reflexivity. }
  cbn [from_user_id m] in Hu4, Hf4, Hs4. fold d4 in Hu4.
  rewrite Hs3, <- app_assoc in Hs4. cbn [app] in Hs4.
  (* the fifth answer *)
  destruct (process_product_experience_run env tg (m (Some t5)) t5 bot4 d4
              eq_refl)
    as (bot5 & E5 & Hc5 & Hu5 & Hf5 & Hs5).
  { rewrite Hu4. apply lookup_insert_eq. }
  { fold d5. rewrite Hs4. eapply (Hs [_; _; _; _; _]). reflexivity. }
  cbn [from_user_id m] in Hu5, Hf5, Hs5. fold d5 in Hu5, Hs5.
  rewrite Hs4, <- app_assoc in Hs5. cbn [app] in Hs5.
  exists bot5.
  split; [exact E0|]. split; [rewrite Hf0; apply lookup_insert_eq|].
  split.
  { cbn [handle_all].
    rewrite route_dispatch by assumption.
    rewrite (dispatch_state env tg _ _ asking_technical_skills)
      by (rewrite Hf0; apply lookup_insert_eq).
    rewrite E1. cbn [and_then].
    rewrite route_dispatch by assumption.
    rewrite (dispatch_state env tg _ _ asking_management_interest)
      by (rewrite Hf1; apply lookup_insert_eq).
    unfold process_management_interest. rewrite E2. cbn [and_then].
    rewrite route_dispatch by assumption.
    rewrite (dispatch_state env tg _ _ asking_programming_experience)
      by (rewrite Hf2; apply lookup_insert_eq).
    unfold process_programming_experience. rewrite E3. cbn [and_then].
    rewrite route_dispatch by assumption.
    rewrite (dispatch_state env tg _ _ asking_ml_knowledge)
      by (rewrite Hf3; apply lookup_insert_eq).
    unfold process_ml_knowledge. rewrite E4. cbn [and_then].
    rewrite route_dispatch by assumption.
    rewrite (dispatch_state env tg _ _ asking_product_experience)
      by (rewrite Hf4; apply lookup_insert_eq).
    rewrite E5. reflexivity. }
  split; [rewrite Hf5; apply lookup_delete_eq|].
  split; [congruence|]. split; [exact Hs5|].
  split.
  { rewrite Hu5, lookup_insert_eq. cbn [fmap option_fmap option_map].
    rewrite Hp. reflexivity. }
  intros other Hne. split.
  - rewrite Hu5, Hu4, Hu3, Hu2, !lookup_insert_ne by congruence.
    rewrite <- Hb0. apply Ho1. exact Hne.
  - rewrite Hf5, lookup_delete_ne by congruence.
    rewrite Hf4, Hf3, Hf2, Hf1, Hf0, !lookup_insert_ne by congruence.
    reflexivity.
Qed.

Lemma intake_flow_witness :
  let message text := {| from_user_id := 7; message_text := text;
       message_caption := None |} in
  let question text :=
    {| reply_to := 7; reply_text := text;
       reply_markup := Some yes_no_keyboard; parse_mode := None |} in
  let p :=
    {| technical_skills := says_yes Demo.env (u8 "Да");
       management_interest := says_yes Demo.env (u8 "нет");
       programming_experience := says_yes Demo.env (u8 "yes");
       ml_knowledge := says_yes Demo.env (u8 "+");
       product_experience := says_yes Demo.env (u8 "start?") |} in
  let replies :=
    [question question_technical_skills;
     question question_management_interest;
     question question_programming_experience;
     question question_ml_knowledge;
     question question_product_experience;
     {| reply_to := 7;
        reply_text := full_response (profile_dict p);
        reply_markup := Some main_menu_keyboard;
        parse_mode := Some (u8 "Markdown") |}] in
  exists bot0 bot',
    start_recommendation DemoFront.tg (message (Some (u8 "/recommend")))
      DemoFront.fresh = Done bot0
    /\ fsm bot0 !! 7 = Some asking_technical_skills
    /\ handle_all Demo.env DemoFront.tg
         [message (Some (u8 "Да")); message (Some (u8 "нет"));
          message (Some (u8 "yes")); message (Some (u8 "+"));
          message (Some (u8 "start?"))] bot0
       = Done bot'
    /\ fsm bot' !! 7 = None
    /\ chatbot bot' = chatbot DemoFront.fresh
    /\ sent bot' = sent DemoFront.fresh ++ replies
    /\ profile_of <$> (user_backgrounds bot' !! 7) = Some p
    /\ forall other, other <> 7 ->
         user_backgrounds bot' !! other
         = user_backgrounds DemoFront.fresh !! other
         /\ fsm bot' !! other = fsm DemoFront.fresh !! other.
Proof.
  apply (intake_flow Demo.env DemoFront.tg DemoFront.fresh 7
           (Some (u8 "/recommend")) (u8 "Да") (u8 "нет") (u8 "yes") (u8 "+")
           (u8 "start?")).
  - repeat (apply Forall_cons; split; [vm_compute; reflexivity|]).
    apply Forall_nil. exact I.
  - intros i reply H.
    destruct i as [|[|[|[|[|[|i]]]]]]; vm_compute in H;
      try discriminate; injection H as <-; vm_compute; reflexivity.
Defined.

(** ** The background a handler relies on *)

Section IntakeInvariant.
Context {Vec : Type} (env : Externals Vec) (tg : Telegram).

Lemma intake_invariant_step (bot bot' : ITMOBot Vec) :
  (forall user_id, is_Some (user_backgrounds bot !! user_id) ->
     is_Some (user_backgrounds bot' !! user_id)) ->
  (forall user_id st, fsm bot' !! user_id = Some st ->
     st <> asking_technical_skills ->
     fsm bot !! user_id = Some st
     \/ is_Some (user_backgrounds bot' !! user_id)) ->
  intake_invariant bot -> intake_invariant bot'.
Proof.
  intros Hbg Hfsm Hinv user_id st Hst Hne.
  destruct (Hfsm user_id st Hst Hne) as [Hold|Hnew]; [|exact Hnew].
  apply Hbg. exact (Hinv user_id st Hold Hne).
Qed.

Lemma insert_keeps_backgrounds (bgs : gmap Z dict) (user_id other : Z)
    (d : dict) :
  is_Some (bgs !! other) -> is_Some (<[user_id := d]> bgs !! other).
Proof.
  intros H. destruct (decide (user_id = other)) as [->|Hne].
  - rewrite lookup_insert_eq. eauto.
  - rewrite lookup_insert_ne by exact Hne. exact H.
Qed.

(** A handler that stores an answer for the sender, sends a message
    and sets or clears the state of the sender keeps the invariant. *)
Lemma stored_answer_keeps_invariant (message : Message) (bot : ITMOBot Vec)
    (d : dict) (fsm' : gmap Z RecommendationStates) (sent' : list Reply) :
  (forall other, other <> from_user_id message ->
     fsm' !! other = fsm bot !! other) ->
  intake_invariant bot ->
  intake_invariant
    {| chatbot := chatbot bot;
       user_backgrounds := <[from_user_id message := d]> (user_backgrounds bot);
       fsm := fsm'; sent := sent' |}.
Proof.
  intros Hother. apply intake_invariant_step;
    cbn [user_backgrounds fsm].
  - intros other. apply insert_keeps_backgrounds.
  - intros other st Hst _.
    destruct (decide (other = from_user_id message)) as [->|Hne].
    + right. rewrite lookup_insert_eq. eauto.
    + left. rewrite <- Hother by exact Hne. exact Hst.
Qed.

Lemma add_sent_keeps_invariant (reply : Reply) (bot : ITMOBot Vec) :
  intake_invariant bot -> intake_invariant (add_sent reply bot).
Proof. intros Hinv user_id st. apply Hinv. Qed.

Lemma set_state_keeps_invariant (message : Message)
    (st : RecommendationStates) (bot : ITMOBot Vec) :
  st = asking_technical_skills
  \/ is_Some (user_backgrounds bot !! from_user_id message) ->
  intake_invariant bot -> intake_invariant (set_state message st bot).
Proof.
  intros Hst. apply intake_invariant_step; cbn [user_backgrounds fsm set_state].
  - auto.
  - intros other st' Hst' Hne.
    destruct (decide (other = from_user_id message)) as [->|Hother].
    + rewrite lookup_insert_eq in Hst'. injection Hst' as <-.
      destruct Hst as [Hst|Hst]; [contradiction|right; exact Hst].
    + rewrite lookup_insert_ne in Hst' by congruence. left. exact Hst'.
Qed.

Lemma clear_state_keeps_invariant (message : Message) (bot : ITMOBot Vec) :
  intake_invariant bot -> intake_invariant (clear_state message bot).
Proof.
  apply intake_invariant_step; cbn [user_backgrounds fsm clear_state].
  - auto.
  - intros other st Hst _. left.
    apply lookup_delete_Some in Hst as [_ Hst]. exact Hst.
Qed.

(** A message is sent and the state of the sender is then set or
    cleared by [finish]: the invariant is kept, sent or not. *)
Lemma answer_then_keeps_invariant (message : Message) (text : str)
    (markup : option ReplyKeyboardMarkup) (mode : option str)
    (finish : ITMOBot Vec -> ITMOBot Vec) (bot : ITMOBot Vec) :
  intake_invariant bot ->
  (forall reply, intake_invariant (finish (add_sent reply bot))) ->
  match and_then (answer tg message text markup mode bot)
          (fun bot => Done (finish bot)) with
  | Done bot' => intake_invariant bot'
  | Failed e bot' => e <> KeyError /\ intake_invariant bot'
  end.
Proof.
  intros Hinv Hfinish. unfold answer. cbn zeta.
  destruct (send_message tg _ _); cbn [and_then].
  - apply Hfinish.
  - split; [discriminate|exact Hinv].
Qed.

Lemma answer_keeps_invariant (message : Message) (text : str)
    (markup : option ReplyKeyboardMarkup) (mode : option str)
    (bot : ITMOBot Vec) :
  intake_invariant bot ->
  match answer tg message text markup mode bot with
  | Done bot' => intake_invariant bot'
  | Failed e bot' => e <> KeyError /\ intake_invariant bot'
  end.
Proof.
  intros Hinv. unfold answer. cbn zeta.
  destruct (send_message tg _ _).
  - apply add_sent_keeps_invariant, Hinv.
  - split; [discriminate|exact Hinv].
Qed.

Lemma start_recommendation_keeps_invariant (message : Message)
    (bot : ITMOBot Vec) :
  intake_invariant bot ->
  match start_recommendation tg message bot with
  | Done bot' => intake_invariant bot'
  | Failed e bot' => e <> KeyError /\ intake_invariant bot'
  end.
Proof.
  intros Hinv. unfold start_recommendation.
  apply answer_then_keeps_invariant; [exact Hinv|].
  intros reply. apply set_state_keeps_invariant; [left; reflexivity|].
  apply add_sent_keeps_invariant, Hinv.
Qed.

Lemma reply_to_query_keeps_invariant (query : str) (message : Message)
    (bot : ITMOBot Vec) :
  intake_invariant bot ->
  match reply_to_query env tg query message bot with
  | Done bot' => intake_invariant bot'
  | Failed e bot' => e <> KeyError /\ intake_invariant bot'
  end.
Proof.
  intros Hinv. unfold reply_to_query.
  destruct (process_query env query (chatbot bot)) as [[response|e] b].
  - apply answer_keeps_invariant. exact Hinv.
  - split; [discriminate|exact Hinv].
Qed.

Lemma store_and_ask_keeps_invariant (key : string) (question : str)
    (next : RecommendationStates) (message : Message) (bot : ITMOBot Vec) :
  is_Some (user_backgrounds bot !! from_user_id message) ->
  intake_invariant bot ->
  match store_and_ask env tg key question next message bot with
  | Done bot' => intake_invariant bot'
  | Failed e bot' => e <> KeyError /\ intake_invariant bot'
  end.
Proof.
  intros [d Hd] Hinv. unfold store_and_ask.
  destruct (message_text message) as [text|]; [|split; [discriminate|exact Hinv]].
  rewrite Hd.
  assert (Hinv1 : intake_invariant
            (set_backgrounds
               (<[from_user_id message :=
                    <[u8 key := VBool (says_yes env text)]> d]>
                  (user_backgrounds bot)) bot)).
  { apply (stored_answer_keeps_invariant message bot); [auto|exact Hinv]. }
  apply answer_then_keeps_invariant; [exact Hinv1|].
  intros reply. apply set_state_keeps_invariant.
  - right. cbn [user_backgrounds add_sent set_backgrounds].
    rewrite lookup_insert_eq. eauto.
  - apply add_sent_keeps_invariant, Hinv1.
Qed.

Lemma dispatch_keeps_invariant (message : Message) (bot : ITMOBot Vec) :
  intake_invariant bot ->
  match dispatch env tg message bot with
  | Done bot' => intake_invariant bot'
  | Failed e bot' => e <> KeyError /\ intake_invariant bot'
  end.
Proof.
  intros Hinv. unfold dispatch.
  destruct (fsm bot !! from_user_id message) as [st|] eqn:Hst.
  - assert (Hbg : st <> asking_technical_skills ->
              is_Some (user_backgrounds bot !! from_user_id message))
      by (apply Hinv; exact Hst).
    destruct st.
    + clear Hbg. unfold process_technical_skills.
      set (bot1 :=
        match user_backgrounds bot !! from_user_id message with
        | Some _ => bot
        | None =>
          set_backgrounds
            (<[from_user_id message := ∅]> (user_backgrounds bot)) bot
        end).
      assert (Hinv1 : intake_invariant bot1).
      { unfold bot1.
        destruct (user_backgrounds bot !! from_user_id message);
          [exact Hinv|].
        apply (stored_answer_keeps_invariant message bot); [auto|exact Hinv]. }
      assert (Hbg1 : is_Some (user_backgrounds bot1 !! from_user_id message)).
      { unfold bot1.
        destruct (user_backgrounds bot !! from_user_id message) eqn:E;
          [rewrite E; eauto|].
        cbn [user_backgrounds set_backgrounds].
        rewrite lookup_insert_eq. eauto. }
      destruct (message_text message) as [text|];
        [|split; [discriminate|exact Hinv1]].
      destruct Hbg1 as [d Hd]. rewrite Hd.
      assert (Hinv2 : intake_invariant
                (set_backgrounds
                   (<[from_user_id message :=
                        <[u8 "technical_skills" := VBool (says_yes env text)]>
                          d]> (user_backgrounds bot1)) bot1)).
      { apply (stored_answer_keeps_invariant message bot1); [auto|exact Hinv1]. }
      apply answer_then_keeps_invariant; [exact Hinv2|].
      intros reply. apply set_state_keeps_invariant.
      * right. cbn [user_backgrounds add_sent set_backgrounds].
        rewrite lookup_insert_eq. eauto.
      * apply add_sent_keeps_invariant, Hinv2.
    + apply store_and_ask_keeps_invariant; [apply Hbg; discriminate|exact Hinv].
    + apply store_and_ask_keeps_invariant; [apply Hbg; discriminate|exact Hinv].
    + apply store_and_ask_keeps_invariant; [apply Hbg; discriminate|exact Hinv].
    + unfold process_product_experience.
      destruct (message_text message) as [text|];
        [|split; [discriminate|exact Hinv]].
      destruct (Hbg ltac:(discriminate)) as [d Hd]. rewrite Hd.
      assert (Hinv1 : intake_invariant
                (set_backgrounds
                   (<[from_user_id message :=
                        <[u8 "product_experience" := VBool (says_yes env text)]>
                          d]> (user_backgrounds bot)) bot)).
      { apply (stored_answer_keeps_invariant message bot); [auto|exact Hinv]. }
      apply answer_then_keeps_invariant; [exact Hinv1|].
      intros reply. apply clear_state_keeps_invariant.
      apply add_sent_keeps_invariant, Hinv1.
  - unfold general_message_handler.
    destruct (message_text message) as [text|];
      [|split; [discriminate|exact Hinv]].
    apply reply_to_query_keeps_invariant. exact Hinv.
Qed.

End IntakeInvariant.

(** X14: in every state of the front end in which each user past the
    first question of the intake has a background, the handler that
    takes a message never raises [KeyError], although only the handler
    of the first answer creates the background; that condition holds
    again after the handler, whether it ran to its end or raised, and
    after an intake is started.  This holds of the intake handlers and
    the default handler, and of the dispatcher as a whole. *)
Theorem intake_never_key_error {Vec} (env : Externals Vec) (tg : Telegram)
    (message : Message) (bot : ITMOBot Vec) :
  intake_invariant bot ->
  match start_recommendation tg message bot with
  | Done bot' => intake_invariant bot'
  | Failed e bot' => e <> KeyError /\ intake_invariant bot'
  end
  /\ match dispatch env tg message bot with
     | Done bot' => intake_invariant bot'
     | Failed e bot' => e <> KeyError /\ intake_invariant bot'
     end
  /\ match route env tg message bot with
     | Done bot' => intake_invariant bot'
     | Failed e bot' => e <> KeyError /\ intake_invariant bot'
     end.
Proof.
  intros Hinv.
  split; [apply start_recommendation_keeps_invariant; exact Hinv|].
  split; [apply dispatch_keeps_invariant; exact Hinv|].
  unfold route, start_handler, help_handler.
  repeat match goal with
         | |- context [if ?c then _ else _] => destruct c
         end;
    first [ apply answer_keeps_invariant
          | apply start_recommendation_keeps_invariant
          | apply reply_to_query_keeps_invariant
          | apply dispatch_keeps_invariant ];
    exact Hinv.
Qed.

Lemma intake_never_key_error_witness :
  match start_recommendation DemoFront.tg (DemoFront.text_from 7 "нет")
          DemoFront.asked with
  | Done bot' => intake_invariant bot'
  | Failed e bot' => e <> KeyError /\ intake_invariant bot'
  end
  /\ match dispatch Demo.env DemoFront.tg (DemoFront.text_from 7 "нет")
             DemoFront.asked with
     | Done bot' => intake_invariant bot'
     | Failed e bot' => e <> KeyError /\ intake_invariant bot'
     end
  /\ match route Demo.env DemoFront.tg (DemoFront.text_from 7 "нет")
             DemoFront.asked with
     | Done bot' => intake_invariant bot'
     | Failed e bot' => e <> KeyError /\ intake_invariant bot'
     end.
Proof.
  apply (intake_never_key_error Demo.env DemoFront.tg
           (DemoFront.text_from 7 "нет") DemoFront.asked).
  intros user_id st Hst Hne. simpl in Hst.
  apply lookup_singleton_Some in Hst as [<- _].
  simpl. rewrite lookup_singleton_eq. eauto.
Defined.

(** ** Messages without text, and the default handler *)

(** X15: a message without text makes the handler that takes it
    raise [AttributeError]: no reply is sent, the state of every user
    and the engine stay as they were, and no background is lost.  The
    handler that takes it is the one of the intake state of the
    sender, or the default handler, unless a command filter takes the
    message: the filters of the menu buttons compare the text. *)
Theorem message_without_text {Vec} (env : Externals Vec) (tg : Telegram)
    (message : Message) (bot : ITMOBot Vec) :
  message_text message = None ->
  (exists bot',
     dispatch env tg message bot = Failed AttributeError bot'
     /\ sent bot' = sent bot
     /\ fsm bot' = fsm bot
     /\ chatbot bot' = chatbot bot
     /\ forall user_id d,
          user_backgrounds bot !! user_id = Some d ->
          user_backgrounds bot' !! user_id = Some d)
  /\ (command tg (u8 "start") message = false ->
      command tg (u8 "help") message = false ->
      command tg (u8 "recommend") message = false ->
      route env tg message bot = dispatch env tg message bot).
Proof.
  intros Ht. split.
  - unfold dispatch.
    destruct (fsm bot !! from_user_id message) as [[]|];
      unfold process_technical_skills, process_management_interest,
        process_programming_experience, process_ml_knowledge, store_and_ask,
        process_product_experience, general_message_handler;
      rewrite Ht;
      try (exists bot; repeat split; auto; fail).
    destruct (user_backgrounds bot !! from_user_id message) as [d0|] eqn:Hd0.
    + exists bot. repeat split; auto.
    + eexists. split; [reflexivity|].
      cbn [sent fsm chatbot user_backgrounds set_backgrounds].
      repeat split.
      intros user_id d Hd.
      rewrite lookup_insert_ne by congruence. exact Hd.
  - intros H1 H2 H3. apply route_dispatch.
    unfold taken_by_menu, text_is. rewrite H1, H2, H3, Ht. reflexivity.
Qed.

Lemma message_without_text_witness :
  (exists bot',
     dispatch Demo.env DemoFront.tg (DemoFront.photo_from 7) DemoFront.asked
     = Failed AttributeError bot'
     /\ sent bot' = sent DemoFront.asked
     /\ fsm bot' = fsm DemoFront.asked
     /\ chatbot bot' = chatbot DemoFront.asked
     /\ forall user_id d,
          user_backgrounds DemoFront.asked !! user_id = Some d ->
          user_backgrounds bot' !! user_id = Some d)
  /\ (command DemoFront.tg (u8 "start") (DemoFront.photo_from 7) = false ->
      command DemoFront.tg (u8 "help") (DemoFront.photo_from 7) = false ->
      command DemoFront.tg (u8 "recommend") (DemoFront.photo_from 7) = false ->
      route Demo.env DemoFront.tg (DemoFront.photo_from 7) DemoFront.asked
      = dispatch Demo.env DemoFront.tg (DemoFront.photo_from 7)
          DemoFront.asked).
Proof.
  apply (message_without_text Demo.env DemoFront.tg (DemoFront.photo_from 7)
           DemoFront.asked).
  reflexivity.
Defined.

(** The errors of [process_query] on an index built from the
    knowledge base. *)
Lemma process_query_errors {Vec} (env : Externals Vec)
    (query : str) (b : Bot Vec) (e : exn) :
  exact_search env ->
  index_synced env b ->
  fst (process_query env query b) = Raise e ->
  e = LibraryError \/ e = FallbackError.
Proof.
  intros Hexact Hsync.
  pose proof (retrieve_relevant_info_outcome env query 5 b Hexact Hsync
                ltac:(lia)) as Hr.
  rewrite process_query_unfold.
  destruct (is_greeting env query); [discriminate|].
  destruct (fst (retrieve_relevant_info env query 5 b)) as [[|item items]|e'].
  - discriminate.
  - intros H. right. apply generate_response_raises_only_fallback in H.
    exact H.
  - destruct Hr as [-> _]. intros [= <-]. left. reflexivity.
Qed.

(** X16: the default handler passes the text of a message to
    [process_query] and sends its answer as one message in Markdown
    mode and without keyboard.  With the index built from the
    knowledge base and an index library that searches exactly, the
    handler raises in three cases only, and then no message is sent:
    the embedder or the search raises, the local generator raises, or
    Telegram does not take the message.  The engine is left as
    [process_query] leaves it; the intake states and the backgrounds
    are not touched. *)
Theorem general_message_handler_reply {Vec} (env : Externals Vec)
    (tg : Telegram) (message : Message) (text : str) (bot : ITMOBot Vec) :
  message_text message = Some text ->
  exact_search env ->
  index_synced env (chatbot bot) ->
  let reply response :=
    {| reply_to := from_user_id message; reply_text := response;
       reply_markup := None; parse_mode := Some (u8 "Markdown") |} in
  match general_message_handler env tg message bot with
  | Done bot' =>
    exists response,
      fst (process_query env text (chatbot bot)) = Return response
      /\ send_message tg (length (sent bot)) (reply response) = true
      /\ sent bot' = sent bot ++ [reply response]
      /\ chatbot bot' = snd (process_query env text (chatbot bot))
      /\ fsm bot' = fsm bot
      /\ user_backgrounds bot' = user_backgrounds bot
  | Failed e bot' =>
    (e = EngineError LibraryError
     /\ fst (process_query env text (chatbot bot)) = Raise LibraryError
     \/ e = EngineError FallbackError
        /\ fst (process_query env text (chatbot bot)) = Raise FallbackError
     \/ e = TelegramError
        /\ exists response,
             fst (process_query env text (chatbot bot)) = Return response
             /\ send_message tg (length (sent bot)) (reply response) = false)
    /\ sent bot' = sent bot
    /\ chatbot bot' = snd (process_query env text (chatbot bot))
    /\ fsm bot' = fsm bot
    /\ user_backgrounds bot' = user_backgrounds bot
  end.
Proof.
  intros Ht Hexact Hsync. cbn zeta.
  unfold general_message_handler, reply_to_query. rewrite Ht.
  pose proof (process_query_errors env text (chatbot bot)) as Hr.
  destruct (process_query env text (chatbot bot)) as [[response|e] b].
  - unfold answer. cbn zeta. cbn [sent set_chatbot fst snd].
    destruct (send_message tg (length (sent bot)) _) eqn:Hs.
    + exists response. repeat split. exact Hs.
    + split; [|repeat split].
      right. right. split; [reflexivity|].
      exists response. split; [reflexivity|exact Hs].
  - cbn [fst snd] in *.
    destruct (Hr e Hexact Hsync eq_refl) as [-> | ->].
    + split; [|repeat split]. left. split; reflexivity.
    + split; [|repeat split]. right. left. split; reflexivity.
Qed.

Lemma general_message_handler_reply_witness :
  let message := DemoFront.text_from 9 "цена" in
  let bot := set_chatbot Demo.online DemoFront.fresh in
  let reply response :=
    {| reply_to := from_user_id message; reply_text := response;
       reply_markup := None; parse_mode := Some (u8 "Markdown") |} in
  match general_message_handler Demo.env DemoFront.tg message bot with
  | Done bot' =>
    exists response,
      fst (process_query Demo.env (u8 "цена") (chatbot bot)) = Return response
      /\ send_message DemoFront.tg (length (sent bot)) (reply response) = true
      /\ sent bot' = sent bot ++ [reply response]
      /\ chatbot bot' = snd (process_query Demo.env (u8 "цена") (chatbot bot))
      /\ fsm bot' = fsm bot
      /\ user_backgrounds bot' = user_backgrounds bot
  | Failed e bot' =>
    (e = EngineError LibraryError
     /\ fst (process_query Demo.env (u8 "цена") (chatbot bot))
        = Raise LibraryError
     \/ e = EngineError FallbackError
        /\ fst (process_query Demo.env (u8 "цена") (chatbot bot))
           = Raise FallbackError
     \/ e = TelegramError
        /\ exists response,
             fst (process_query Demo.env (u8 "цена") (chatbot bot))
             = Return response
             /\ send_message DemoFront.tg (length (sent bot)) (reply response)
                = false)
    /\ sent bot' = sent bot
    /\ chatbot bot' = snd (process_query Demo.env (u8 "цена") (chatbot bot))
    /\ fsm bot' = fsm bot
    /\ user_backgrounds bot' = user_backgrounds bot
  end.
Proof.
  apply (general_message_handler_reply Demo.env DemoFront.tg
           (DemoFront.text_from 9 "цена") (u8 "цена")
           (set_chatbot Demo.online DemoFront.fresh)).
  - reflexivity.
  - apply demo_search_exact.
  - reflexivity.
Defined.

(** ** Commands and menu buttons during an intake *)

Section MenuFirst.
Context {Vec : Type} (env : Externals Vec) (tg : Telegram).

Lemma answer_untouched (message : Message) (text : str)
    (markup : option ReplyKeyboardMarkup) (mode : option str)
    (bot : ITMOBot Vec) :
  intake_untouched message bot (answer tg message text markup mode bot).
Proof.
  unfold intake_untouched, answer. cbn zeta.
  destruct (send_message tg _ _); repeat split; auto.
Qed.

Lemma start_recommendation_untouched (message : Message) (bot : ITMOBot Vec) :
  intake_untouched message bot (start_recommendation tg message bot).
Proof.
  unfold intake_untouched, start_recommendation, answer. cbn zeta.
  destruct (send_message tg _ _); cbn [and_then]; [|repeat split; auto].
  cbn [user_backgrounds fsm set_state add_sent].
  split; [reflexivity|]. split.
  - intros other Hne. apply lookup_insert_ne. congruence.
  - right. apply lookup_insert_eq.
Qed.

Lemma reply_to_query_untouched (query : str) (message : Message)
    (bot : ITMOBot Vec) :
  intake_untouched message bot (reply_to_query env tg query message bot).
Proof.
  unfold reply_to_query.
  destruct (process_query env query (chatbot bot)) as [[response|e] b].
  - apply (answer_untouched message response None (Some (u8 "Markdown"))
             (set_chatbot b bot)).
  - unfold intake_untouched. repeat split; auto.
Qed.

End MenuFirst.

(** X22: a message that a command filter or a menu button takes is
    never read as an answer of the intake, in whatever state of the
    intake its sender is: no background is written, the states of the
    other users stay, and the state of the sender stays as it was or
    is set to the first question (the intake starts again). *)
Theorem menu_before_intake {Vec} (env : Externals Vec) (tg : Telegram)
    (message : Message) (bot : ITMOBot Vec) :
  taken_by_menu tg message = true ->
  intake_untouched message bot (route env tg message bot).
Proof.
  unfold taken_by_menu, route, start_handler, help_handler. intros H.
  repeat match goal with
         | |- context [if ?c then _ else _] => destruct c
         end;
    first [ apply answer_untouched
          | apply start_recommendation_untouched
          | apply reply_to_query_untouched
          | discriminate H ].
Qed.

Lemma menu_before_intake_witness :
  intake_untouched (DemoFront.text_from 7 "/recommend") DemoFront.asked
    (route Demo.env DemoFront.tg (DemoFront.text_from 7 "/recommend")
       DemoFront.asked).
Proof.
  apply (menu_before_intake Demo.env DemoFront.tg
           (DemoFront.text_from 7 "/recommend") DemoFront.asked).
  vm_compute. reflexivity.
Defined.

(** ** Worked examples of the front end *)

Example count_without_overlap : count (u8 "aa") (u8 "aaa") = 1%nat.
Proof. vm_compute. reflexivity. Qed.

Example yes_in_capitals :
  says_yes Demo.env (u8 "ДА") = true /\ says_yes Demo.env (u8 "да!") = false.
Proof. split; vm_compute; reflexivity. Qed.

(** A user whose answers are all no gets the tie text, followed by the
    elective suggestions of the second programme. *)
Example tie_gets_product_electives :
  full_response (profile_dict profile_all_false)
  = recommendation_both ++ [10; 10]%N
    ++ get_disciplines_recommendation (u8 "ai_product")
         (profile_dict profile_all_false).
Proof. vm_compute. reflexivity. Qed.

Example second_answer_without_background :
  process_management_interest Demo.env DemoFront.tg
    (DemoFront.text_from 7 "да") DemoFront.fresh
  = Failed KeyError DemoFront.fresh.
Proof. vm_compute. reflexivity. Qed.

(** The local model of [Demo.env] adds nothing to the prompt, the
    answer is empty, and Telegram refuses it: the default handler
    raises after the engine has run. *)
Example empty_answer_is_refused :
  general_message_handler Demo.env DemoFront.tg (DemoFront.text_from 9 "цена")
    DemoFront.fresh
  = Failed TelegramError
      (set_chatbot (snd (process_query Demo.env (u8 "цена") Demo.offline))
         DemoFront.fresh).
Proof. vm_compute. reflexivity. Qed.

(** A photo whose caption is a command is taken by the handler of
    the command, not by the handler of the intake state. *)
Example captioned_photo :
  command DemoFront.tg (u8 "start") (DemoFront.captioned_photo_from 7 "/start")
  = true
  /\ route Demo.env DemoFront.tg (DemoFront.captioned_photo_from 7 "/start")
       DemoFront.asked
     = start_handler DemoFront.tg (DemoFront.captioned_photo_from 7 "/start")
         DemoFront.asked.
Proof. split; vm_compute; reflexivity. Qed.

(** In the middle of an intake the command [/recommend] is not read as
    an answer: the intake starts again with its first question. *)
Example command_during_intake :
  exists bot',
    route Demo.env DemoFront.tg (DemoFront.text_from 7 "/recommend")
      DemoFront.asked = Done bot'
    /\ fsm bot' !! 7 = Some asking_technical_skills
    /\ user_backgrounds bot' = user_backgrounds DemoFront.asked
    /\ reply_text <$> sent bot' = [question_technical_skills].
Proof.
  eexists. split; [vm_compute; reflexivity|].
  split; [reflexivity|]. split; reflexivity.
Qed.

(** * Properties of the knowledge base builder *)

Module ParserFacts.
Import Parser.

Lemma append_if {A} (c : bool) (kb entries : list A) :
  (if c then kb ++ entries else kb) = kb ++ (if c then entries else []).
Proof. destruct c; [reflexivity|rewrite app_nil_r; reflexivity]. Qed.

Lemma append_if_any {A B} (l : list B) (kb entries : list A) :
  match l with [] => kb | _ :: _ => kb ++ entries end
  = kb ++ match l with [] => [] | _ :: _ => entries end.
Proof. destruct l; [rewrite app_nil_r; reflexivity|reflexivity]. Qed.

Lemma add_program_entries (kb : list KnowledgeEntry) (program_key : str)
    (program_data : ProgramData) :
  add_program kb program_key program_data
  = kb ++ program_entries program_key program_data.
Proof.
  unfold add_program, program_entries, general_entries, info_entries,
    directions_entries, career_entries, partners_entries, features_entries.
  cbv zeta.
  rewrite !append_if, !append_if_any, <- !app_assoc.
  unfold info_parts. reflexivity.
Qed.

Lemma create_knowledge_base_from (kb : list KnowledgeEntry)
    (parsed_data : list (str * ProgramData)) :
  foldl (fun knowledge_base item => add_program knowledge_base item.1 item.2)
    kb parsed_data
  = kb ++ concat (map (fun item => program_entries item.1 item.2) parsed_data).
Proof.
  revert kb. induction parsed_data as [|item rest IH]; intros kb; simpl.
  - rewrite app_nil_r. reflexivity.
  - rewrite IH, add_program_entries, <- app_assoc. reflexivity.
Qed.

Lemma create_knowledge_base_concat (parsed_data : list (str * ProgramData)) :
  create_knowledge_base parsed_data
  = concat (map (fun item => program_entries item.1 item.2) parsed_data).
Proof. unfold create_knowledge_base. apply create_knowledge_base_from. Qed.

Lemma starts_with_app (p s t : str) :
  starts_with p s = true -> starts_with p (s ++ t) = true.
Proof.
  rewrite !starts_with_spec. intros [post ->]. exists (post ++ t).
  rewrite app_assoc. reflexivity.
Qed.

Lemma directions_text_prefix (init : str) (l : list Direction) :
  exists rest,
    foldl (fun directions_text direction =>
             directions_text ++ direction_text direction) init l
    = init ++ rest.
Proof.
  revert init. induction l as [|d l IH]; intros init; simpl.
  - exists []. rewrite app_nil_r. reflexivity.
  - destruct (IH (init ++ direction_text d)) as [rest ->].
    exists (direction_text d ++ rest). rewrite app_assoc. reflexivity.
Qed.

(** An entry with the four fields as every section sets them. *)
Lemma entry_of_intro (program_key suffix pre post ty : str) :
  starts_with (u8 "_") suffix = true ->
  ty ∈ entry_types ->
  entry_of program_key
    {| id := program_key ++ suffix;
       text := pre ++ program_name program_key ++ post;
       program := program_key;
       type := ty |}.
Proof.
  intros Hs Hty. unfold entry_of. cbn [id text program type].
  split; [reflexivity|]. split; [eauto|]. split; [|exact Hty].
  apply contains_spec. eauto.
Qed.

Lemma entry_type_listed (ty : str) :
  bool_decide (ty ∈ entry_types) = true -> ty ∈ entry_types.
Proof. apply bool_decide_eq_true. Qed.

Ltac entry_of_section :=
  apply entry_of_intro;
  [vm_compute; reflexivity
  |apply entry_type_listed; vm_compute; reflexivity].

Lemma general_entries_of (program_key : str) (program_data : ProgramData) :
  Forall (entry_of program_key) (general_entries program_key program_data).
Proof.
  unfold general_entries.
  destruct (given (description program_data)); constructor; [|constructor].
  entry_of_section.
Qed.

Lemma info_entries_of (program_key : str) (program_data : ProgramData) :
  Forall (entry_of program_key) (info_entries program_key program_data).
Proof.
  unfold info_entries.
  destruct (given (cost program_data) || given (duration program_data));
    constructor; [|constructor].
  entry_of_section.
Qed.

Lemma directions_entries_of (program_key : str) (program_data : ProgramData) :
  Forall (entry_of program_key) (directions_entries program_key program_data).
Proof.
  unfold directions_entries.
  destruct (directions program_data) as [|d l]; constructor; [|constructor].
  destruct (directions_text_prefix
              (u8 "Программа '" ++ program_name program_key
               ++ u8 "' имеет следующие направления подготовки: ") (d :: l))
    as [rest ->].
  rewrite <- !app_assoc. entry_of_section.
Qed.

Lemma career_entries_of (program_key : str) (program_data : ProgramData) :
  Forall (entry_of program_key) (career_entries program_key program_data).
Proof.
  unfold career_entries.
  destruct (given (career_description program_data));
    constructor; [|constructor].
  entry_of_section.
Qed.

Lemma partners_entries_of (program_key : str) (program_data : ProgramData) :
  Forall (entry_of program_key) (partners_entries program_key program_data).
Proof.
  unfold partners_entries.
  destruct (partners program_data); constructor; [|constructor].
  entry_of_section.
Qed.

Lemma features_entries_of (program_key : str) (program_data : ProgramData) :
  Forall (entry_of program_key) (features_entries program_key program_data).
Proof.
  unfold features_entries.
  destruct (features program_data); constructor; [|constructor].
  rewrite <- !app_assoc. entry_of_section.
Qed.

Lemma method_entries_of (program_key : str) (i : nat) (l : list Method) :
  Forall (entry_of program_key) (method_entries program_key i l).
Proof.
  revert i. induction l as [|method rest IH]; intros i;
    cbn [method_entries faq_entries]; [constructor|].
  apply Forall_app. split; [|apply IH].
  destruct (given (title method) && given (method_description method));
    constructor; [|constructor].
  apply entry_of_intro;
    [apply starts_with_app; vm_compute; reflexivity
    |apply entry_type_listed; vm_compute; reflexivity].
Qed.

Lemma faq_entries_of (program_key : str) (i : nat) (l : list FaqItem) :
  Forall (entry_of program_key) (faq_entries program_key i l).
Proof.
  revert i. induction l as [|item rest IH]; intros i;
    cbn [method_entries faq_entries]; [constructor|].
  apply Forall_app. split; [|apply IH].
  destruct (given (question item) && given (faq_answer item));
    constructor; [|constructor].
  apply entry_of_intro;
    [apply starts_with_app; vm_compute; reflexivity
    |apply entry_type_listed; vm_compute; reflexivity].
Qed.

Lemma program_entries_of (program_key : str) (program_data : ProgramData) :
  Forall (entry_of program_key) (program_entries program_key program_data).
Proof.
  unfold program_entries. repeat (apply Forall_app; split).
  - apply general_entries_of.
  - apply info_entries_of.
  - apply directions_entries_of.
  - apply method_entries_of.
  - apply career_entries_of.
  - apply partners_entries_of.
  - apply faq_entries_of.
  - apply features_entries_of.
Qed.

Lemma method_entries_length (program_key : str) (i : nat) (l : list Method) :
  (length (method_entries program_key i l) <= length l)%nat.
Proof.
  revert i. induction l as [|method rest IH]; intros i;
    cbn [method_entries faq_entries length]; [lia|].
  rewrite length_app. specialize (IH (S i)).
  destruct (given (title method) && given (method_description method));
    cbn [length app]; lia.
Qed.

Lemma faq_entries_length (program_key : str) (i : nat) (l : list FaqItem) :
  (length (faq_entries program_key i l) <= length l)%nat.
Proof.
  revert i. induction l as [|item rest IH]; intros i;
    cbn [method_entries faq_entries length]; [lia|].
  rewrite length_app. specialize (IH (S i)).
  destruct (given (question item) && given (faq_answer item));
    cbn [length app]; lia.
Qed.

Lemma method_entries_index (program_key : str) (i j : nat) (l : list Method)
    (method : Method) :
  l !! j = Some method ->
  given (title method) = true ->
  given (method_description method) = true ->
  exists entry,
    entry ∈ method_entries program_key i l
    /\ id entry = program_key ++ u8 "_admission_" ++ str_of_nat (i + j)
    /\ contains (the (title method)) (text entry) = true
    /\ contains (the (method_description method)) (text entry) = true.
Proof.
  revert i j. induction l as [|m rest IH]; intros i j Hj Ht Hd;
    [discriminate|].
  destruct j as [|j]; simpl in Hj.
  - injection Hj as ->. cbn [method_entries]. rewrite Ht, Hd. cbn [andb].
    eexists. split; [apply elem_of_app; left; apply list_elem_of_here|].
    cbn [id text]. rewrite Nat.add_0_r. split; [reflexivity|].
    split; apply contains_spec.
    + match goal with
      | |- exists pre post, ?a ++ ?n ++ ?b ++ ?t ++ ?c ++ ?d = _ =>
        exists (a ++ n ++ b), (c ++ d)
      end.
      rewrite <- !app_assoc. reflexivity.
    + match goal with
      | |- exists pre post, ?a ++ ?n ++ ?b ++ ?t ++ ?c ++ ?d = _ =>
        exists (a ++ n ++ b ++ t ++ c), []
      end.
      rewrite app_nil_r, <- !app_assoc. reflexivity.
  - destruct (IH (S i) j Hj Ht Hd) as (entry & Hin & Hid & Hc).
    exists entry.
    split; [cbn [method_entries faq_entries]; apply elem_of_app; right;
            exact Hin|].
    rewrite Hid. replace (i + S j)%nat with (S i + j)%nat by lia. auto.
Qed.

Lemma faq_entries_index (program_key : str) (i j : nat) (l : list FaqItem)
    (item : FaqItem) :
  l !! j = Some item ->
  given (question item) = true ->
  given (faq_answer item) = true ->
  exists entry,
    entry ∈ faq_entries program_key i l
    /\ id entry = program_key ++ u8 "_faq_" ++ str_of_nat (i + j)
    /\ contains (the (question item)) (text entry) = true
    /\ contains (the (faq_answer item)) (text entry) = true.
Proof.
  revert i j. induction l as [|m rest IH]; intros i j Hj Hq Ha;
    [discriminate|].
  destruct j as [|j]; simpl in Hj.
  - injection Hj as ->. cbn [faq_entries]. rewrite Hq, Ha. cbn [andb].
    eexists. split; [apply elem_of_app; left; apply list_elem_of_here|].
    cbn [id text]. rewrite Nat.add_0_r. split; [reflexivity|].
    split; apply contains_spec.
    + match goal with
      | |- exists pre post, ?a ++ ?n ++ ?b ++ ?t ++ ?c ++ ?d = _ =>
        exists (a ++ n ++ b), (c ++ d)
      end.
      rewrite <- !app_assoc. reflexivity.
    + match goal with
      | |- exists pre post, ?a ++ ?n ++ ?b ++ ?t ++ ?c ++ ?d = _ =>
        exists (a ++ n ++ b ++ t ++ c), []
      end.
      rewrite app_nil_r, <- !app_assoc. reflexivity.
  - destruct (IH (S i) j Hj Hq Ha) as (entry & Hin & Hid & Hc).
    exists entry.
    split; [cbn [method_entries faq_entries]; apply elem_of_app; right;
            exact Hin|].
    rewrite Hid. replace (i + S j)%nat with (S i + j)%nat by lia. auto.
Qed.

End ParserFacts.

Lemma create_knowledge_base_single (program_key : str)
    (program_data : Parser.ProgramData) :
  Parser.create_knowledge_base [(program_key, program_data)]
  = Parser.program_entries program_key program_data.
Proof.
  rewrite ParserFacts.create_knowledge_base_concat. cbn [map concat fst snd].
  apply app_nil_r.
Qed.

(** X17: every entry of the knowledge base is made for one of the
    parsed programmes: it carries the key of that programme as its
    programme, its id is that key followed by a suffix that starts
    with an underscore, its text names the programme, and its type is
    one of the seven types. *)
Theorem knowledge_base_entries
    (parsed_data : list (str * Parser.ProgramData)) :
  Forall (fun entry =>
            exists program_key program_data,
              (program_key, program_data) ∈ parsed_data
              /\ Parser.entry_of program_key entry)
    (Parser.create_knowledge_base parsed_data).
Proof.
  rewrite ParserFacts.create_knowledge_base_concat.
  induction parsed_data as [|[program_key program_data] rest IH];
    cbn [map concat fst snd]; [constructor|].
  apply Forall_app. split.
  - eapply Forall_impl; [apply ParserFacts.program_entries_of|].
    intros entry Hof. exists program_key, program_data.
    split; [apply list_elem_of_here|exact Hof].
  - eapply Forall_impl; [exact IH|].
    intros entry (key & data & Hin & Hof). exists key, data.
    split; [apply list_elem_of_further; exact Hin|exact Hof].
Qed.

(** X18: the knowledge base is built programme by programme, in the
    order of the parsed data; a programme gives at most one entry for
    each of the six sections that have one, and at most one per way of
    admission and per question; a page on which nothing was found
    gives no entry. *)
Theorem knowledge_base_by_program :
  (forall parsed parsed' : list (str * Parser.ProgramData),
     Parser.create_knowledge_base (parsed ++ parsed')
     = Parser.create_knowledge_base parsed
       ++ Parser.create_knowledge_base parsed')
  /\ (forall (program_key : str) (program_data : Parser.ProgramData),
        (length (Parser.create_knowledge_base [(program_key, program_data)])
         <= 6 + length (Parser.methods program_data)
            + length (Parser.faq program_data))%nat)
  /\ (forall program_key : str,
        Parser.create_knowledge_base [(program_key, Parser.nothing)] = []).
Proof.
  split; [|split].
  - intros parsed parsed'.
    rewrite !ParserFacts.create_knowledge_base_concat, map_app, concat_app.
    reflexivity.
  - intros program_key program_data. rewrite create_knowledge_base_single.
    unfold Parser.program_entries. rewrite !length_app.
    pose proof (ParserFacts.method_entries_length program_key 0
                  (Parser.methods program_data)).
    pose proof (ParserFacts.faq_entries_length program_key 0
                  (Parser.faq program_data)).
    unfold Parser.general_entries, Parser.info_entries,
      Parser.directions_entries, Parser.career_entries,
      Parser.partners_entries, Parser.features_entries.
    destruct (Parser.given (Parser.description program_data)),
      (Parser.given (Parser.cost program_data)
       || Parser.given (Parser.duration program_data)),
      (Parser.directions program_data),
      (Parser.given (Parser.career_description program_data)),
      (Parser.partners program_data), (Parser.features program_data);
      cbn [length]; lia.
  - intros program_key. rewrite create_knowledge_base_single. reflexivity.
Qed.

(** X19: a way of admission that has a title and a description gets
    an entry whose id ends in its position in the parsed list, counted
    from 0 over all ways, also those left out, and whose text holds
    the title and the description. *)
Theorem admission_entry_index (program_key : str)
    (program_data : Parser.ProgramData) (i : nat) (method : Parser.Method) :
  Parser.methods program_data !! i = Some method ->
  Parser.given (Parser.title method) = true ->
  Parser.given (Parser.method_description method) = true ->
  exists entry,
    entry ∈ Parser.create_knowledge_base [(program_key, program_data)]
    /\ id entry = program_key ++ u8 "_admission_" ++ Parser.str_of_nat i
    /\ contains (Parser.the (Parser.title method)) (text entry) = true
    /\ contains (Parser.the (Parser.method_description method)) (text entry)
       = true.
Proof.
  intros Hi Ht Hd.
  destruct (ParserFacts.method_entries_index program_key 0 i _ _ Hi Ht Hd)
    as (entry & Hin & Hid & Hc).
  exists entry. split; [|auto].
  rewrite create_knowledge_base_single. unfold Parser.program_entries.
  rewrite !elem_of_app. auto 10.
Qed.

Lemma admission_entry_index_witness :
  exists entry,
    entry ∈ Parser.create_knowledge_base [(u8 "ai", Parser.sample)]
    /\ id entry = u8 "ai" ++ u8 "_admission_" ++ Parser.str_of_nat 0
    /\ contains (Parser.the (Some (u8 "Экзамен"))) (text entry) = true
    /\ contains (Parser.the (Some (u8 "Письменный экзамен."))) (text entry)
       = true.
Proof.
  apply (admission_entry_index (u8 "ai") Parser.sample 0
           {| Parser.title := Some (u8 "Экзамен");
              Parser.method_description := Some (u8 "Письменный экзамен.") |}).
  - reflexivity.
  - vm_compute. reflexivity.
  - vm_compute. reflexivity.
Defined.

(** X20: a question that has a text and an answer gets an entry
    whose id ends in its position in the parsed list, counted from 0
    over all questions, also those left out, and whose text holds the
    question and the answer. *)
Theorem faq_entry_index (program_key : str)
    (program_data : Parser.ProgramData) (i : nat) (item : Parser.FaqItem) :
  Parser.faq program_data !! i = Some item ->
  Parser.given (Parser.question item) = true ->
  Parser.given (Parser.faq_answer item) = true ->
  exists entry,
    entry ∈ Parser.create_knowledge_base [(program_key, program_data)]
    /\ id entry = program_key ++ u8 "_faq_" ++ Parser.str_of_nat i
    /\ contains (Parser.the (Parser.question item)) (text entry) = true
    /\ contains (Parser.the (Parser.faq_answer item)) (text entry) = true.
Proof.
  intros Hi Hq Ha.
  destruct (ParserFacts.faq_entries_index program_key 0 i _ _ Hi Hq Ha)
    as (entry & Hin & Hid & Hc).
  exists entry. split; [|auto].
  rewrite create_knowledge_base_single. unfold Parser.program_entries.
  rewrite !elem_of_app. auto 10.
Qed.

Lemma faq_entry_index_witness :
  exists entry,
    entry ∈ Parser.create_knowledge_base [(u8 "ai", Parser.sample)]
    /\ id entry = u8 "ai" ++ u8 "_faq_" ++ Parser.str_of_nat 1
    /\ contains (Parser.the (Some (u8 "Когда подавать?"))) (text entry) = true
    /\ contains (Parser.the (Some (u8 "Летом."))) (text entry) = true.
Proof.
  apply (faq_entry_index (u8 "ai") Parser.sample 1
           {| Parser.question := Some (u8 "Когда подавать?");
              Parser.faq_answer := Some (u8 "Летом.") |}).
  - reflexivity.
  - vm_compute. reflexivity.
  - vm_compute. reflexivity.
Defined.

(** ** Worked examples of the builder *)

Example sample_knowledge_base :
  map id (Parser.create_knowledge_base
            [(u8 "ai", Parser.sample); (u8 "ai_product", Parser.nothing)])
  = [u8 "ai_general"; u8 "ai_info"; u8 "ai_admission_0"; u8 "ai_partners";
     u8 "ai_faq_1"].
Proof. vm_compute. reflexivity. Qed.

Example sample_info_text :
  map text (Parser.info_entries (u8 "ai") Parser.sample)
  = [u8 "Программа 'Искусственный интеллект'. Стоимость: 599 000 ₽. Форма обучения: очная"].
Proof. vm_compute. reflexivity. Qed.
